(** * OAuth token lifecycle of the platform back end

    A shallow embedding of the token helpers, the configuration helper, the
    five code-exchange functions and the generic OAuth callback route of
    [backend-server.js], with the properties of the token lifecycle stated
    and proved (or refuted) on that embedding.

    Conventions.
    - A JavaScript string is a [string]: the bytes of its UTF-8 form, which
      is also what a Node [Buffer] holds; a surrogate without a partner,
      which UTF-8 cannot write, is the three bytes of generalised UTF-8.
    - A timestamp (an ISO string in the store, a [Date] in the code) is the
      number of milliseconds since the epoch, a [Z].
    - The process environment, the clock, the providers and the wording
      of the engine's syntax errors make up an [Env]; the tables of the store and the calls made so far make up a
      [World]. Every asynchronous function is a computation that reads the
      former, changes the latter, and returns a value or throws. *)

From Stdlib Require Import String Ascii List ZArith NArith Bool Lia.
From Stdlib Require Import Permutation.
Import ListNotations.

Set Warnings "-register-all".

Local Open Scope string_scope.
Local Open Scope Z_scope.

(* ===================================================================== *)
(** * Part I: definitions                                                 *)
(* ===================================================================== *)

(** ** Characters *)

Definition dquote : ascii := "034"%char.
Definition backslash : ascii := "092"%char.

(** The number of a byte. *)
Definition ord (c : ascii) : N := N_of_ascii c.

Definition in_range (lo hi : N) (c : ascii) : bool :=
  ((lo <=? ord c) && (ord c <=? hi))%N.

(** ** Base64, as [Buffer] implements it *)

Module Base64.

Definition table : string :=
  "ABCDEFGHIJKLMNOPQRSTUVWXYZabcdefghijklmnopqrstuvwxyz0123456789+/".

Definition url_table : string :=
  "ABCDEFGHIJKLMNOPQRSTUVWXYZabcdefghijklmnopqrstuvwxyz0123456789-_".

(** The character of a sextet, given most significant bit first, in the
    standard alphabet or in the URL-safe one. *)
Definition enc (url : bool) (b5 b4 b3 b2 b1 b0 : bool) : ascii :=
  match String.get (N.to_nat (ord (Ascii b0 b1 b2 b3 b4 b5 false false)))
                   (if url then url_table else table) with
  | Some c => c
  | None => "="%char
  end.

(** The padding to a multiple of four characters; [base64url] has none. *)
Definition pad (url : bool) (n : nat) : string :=
  if url then EmptyString
  else match n with
       | 1%nat => "="
       | 2%nat => "=="
       | _ => EmptyString
       end.

(** [buffer.toString('base64')] when [url] is false and
    [buffer.toString('base64url')] when it is true. *)
Fixpoint encode_as (url : bool) (s : string) : string :=
  match s with
  | EmptyString => EmptyString
  | String (Ascii a0 a1 a2 a3 a4 a5 a6 a7) EmptyString =>
      String (enc url a7 a6 a5 a4 a3 a2)
        (String (enc url a1 a0 false false false false) (pad url 2))
  | String (Ascii a0 a1 a2 a3 a4 a5 a6 a7)
      (String (Ascii b0 b1 b2 b3 b4 b5 b6 b7) EmptyString) =>
      String (enc url a7 a6 a5 a4 a3 a2)
        (String (enc url a1 a0 b7 b6 b5 b4)
           (String (enc url b3 b2 b1 b0 false false) (pad url 1)))
  | String (Ascii a0 a1 a2 a3 a4 a5 a6 a7)
      (String (Ascii b0 b1 b2 b3 b4 b5 b6 b7)
         (String (Ascii c0 c1 c2 c3 c4 c5 c6 c7) rest)) =>
      String (enc url a7 a6 a5 a4 a3 a2)
        (String (enc url a1 a0 b7 b6 b5 b4)
           (String (enc url b3 b2 b1 b0 c7 c6)
              (String (enc url c5 c4 c3 c2 c1 c0) (encode_as url rest))))
  end.

Definition encode : string -> string := encode_as false.

(** The value of a character in either alphabet (standard or URL-safe);
    [None] for every other character. *)
Definition unbase64 (c : ascii) : option N :=
  if in_range 65 90 c then Some (ord c - 65)%N
  else if in_range 97 122 c then Some (ord c - 71)%N
  else if in_range 48 57 c then Some (ord c + 4)%N
  else if (c =? "+")%char || (c =? "-")%char then Some 62%N
  else if (c =? "/")%char || (c =? "_")%char then Some 63%N
  else None.

(** The sextets of the input: characters outside the alphabets are
    skipped and decoding stops at the first [=]. *)
Fixpoint sextets (s : string) : list ascii :=
  match s with
  | EmptyString => []
  | String c rest =>
      if (c =? "=")%char then []
      else match unbase64 c with
           | Some n => ascii_of_N n :: sextets rest
           | None => sextets rest
           end
  end.

(** Four sextets give three bytes; a byte is written as soon as the
    sextets that hold its bits have been read. *)
Fixpoint bytes (l : list ascii) : string :=
  match l with
  | Ascii a2 a3 a4 a5 a6 a7 _ _ :: Ascii b4 b5 b6 b7 a0 a1 _ _ :: l2 =>
      String (Ascii a0 a1 a2 a3 a4 a5 a6 a7)
        match l2 with
        | Ascii c6 c7 b0 b1 b2 b3 _ _ :: l3 =>
            String (Ascii b0 b1 b2 b3 b4 b5 b6 b7)
              match l3 with
              | Ascii c0 c1 c2 c3 c4 c5 _ _ :: l4 =>
                  String (Ascii c0 c1 c2 c3 c4 c5 c6 c7) (bytes l4)
              | [] => EmptyString
              end
        | [] => EmptyString
        end
  | _ => EmptyString
  end.

(** [Buffer.from(s, 'base64')], read back as bytes. *)
Definition decode (s : string) : string := bytes (sextets s).

End Base64.

(** ** JavaScript values *)

(** The values JSON can carry, and [undefined]. A number is kept as the
    exact decimal [mantissa * 10 ^ exponent] of its literal. *)
Inductive JsValue : Type :=
| JUndefined
| JNull
| JBool (b : bool)
| JNumber (mantissa exponent : Z)
| JString (s : string)
| JArray (items : list JsValue)
| JObject (fields : list (string * JsValue)).

(** The value of the last field named [k]. *)
Fixpoint lookup_field (k : string) (fields : list (string * JsValue)) : option JsValue :=
  match fields with
  | [] => None
  | (k', v) :: rest =>
      match lookup_field k rest with
      | Some v' => Some v'
      | None => if String.eqb k k' then Some v else None
      end
  end.

(** [v.k] for a [v] that is neither [null] nor [undefined], and a [k] that
    no prototype defines (the only keys the code reads). *)
Definition get_prop (v : JsValue) (k : string) : JsValue :=
  match v with
  | JObject fields =>
      match lookup_field k fields with Some x => x | None => JUndefined end
  | _ => JUndefined
  end.

(** ToBoolean. *)
Definition truthy (v : JsValue) : bool :=
  match v with
  | JUndefined | JNull => false
  | JBool b => b
  | JNumber m _ => negb (m =? 0)
  | JString s => negb (String.eqb s EmptyString)
  | JArray _ | JObject _ => true
  end.

(** [a || b]. *)
Definition js_or (a b : JsValue) : JsValue := if truthy a then a else b.

(** [s === v] for a string [s]. *)
Definition strict_eq_string (s : string) (v : JsValue) : bool :=
  match v with
  | JString t => String.eqb s t
  | _ => false
  end.

(** ** ToString *)

(** The decimal digits of a natural number. *)
Fixpoint decimal (fuel : nat) (n : N) (acc : string) : string :=
  match fuel with
  | O => acc
  | S fuel' =>
      let acc' := String (ascii_of_N (48 + n mod 10)) acc in
      if (n <? 10)%N then acc' else decimal fuel' (n / 10) acc'
  end.

Definition N_to_string (n : N) : string :=
  decimal (S (N.to_nat (N.log2 n))) n EmptyString.

(** A decimal without the zeros at the end of its mantissa. *)
Fixpoint normalise (fuel : nat) (m e : Z) : Z * Z :=
  match fuel with
  | O => (m, e)
  | S fuel' =>
      if (m =? 0) || negb (m mod 10 =? 0) then (m, e)
      else normalise fuel' (m / 10) (e + 1)
  end.

Fixpoint zeros (n : nat) : string :=
  match n with
  | O => EmptyString
  | S n' => String "0" (zeros n')
  end.

(** Number::toString in radix ten, for the number that the decimal
    [m * 10 ^ e] denotes: the digits [s], [k] of them, and the place [n] of
    the decimal point. The digits are those of the decimal itself, which
    are those of the double for a literal of up to fifteen digits. *)
Definition number_to_string (m e : Z) : string :=
  if m =? 0 then "0"
  else
    let '(m', e') := normalise (S (Z.to_nat (Z.log2 (Z.abs m)))) (Z.abs m) e in
    let s := N_to_string (Z.to_N m') in
    let k := Z.of_nat (String.length s) in
    let n := k + e' in
    (if m <? 0 then "-" else EmptyString)
    ++ (if (k <=? n) && (n <=? 21) then s ++ zeros (Z.to_nat (n - k))
        else if (0 <? n) && (n <=? 21)
        then substring 0 (Z.to_nat n) s ++ "." ++ substring (Z.to_nat n) (Z.to_nat (k - n)) s
        else if (-6 <? n) && (n <=? 0) then "0." ++ zeros (Z.to_nat (- n)) ++ s
        else
          let exponent := (if n - 1 <? 0 then "-" else "+") ++ N_to_string (Z.abs_N (n - 1)) in
          if k =? 1 then s ++ "e" ++ exponent
          else substring 0 1 s ++ "." ++ substring 1 (Z.to_nat (k - 1)) s ++ "e" ++ exponent).

(** ToString, as a template literal and the filters of the store client
    apply it. An array is its elements joined by commas, [null] and
    [undefined] among them being empty. *)
Fixpoint js_to_string (v : JsValue) : string :=
  match v with
  | JUndefined => "undefined"
  | JNull => "null"
  | JBool true => "true"
  | JBool false => "false"
  | JNumber m e => number_to_string m e
  | JString s => s
  | JArray items =>
      (fix join (l : list JsValue) : string :=
         match l with
         | [] => EmptyString
         | x :: rest =>
             match x with
             | JNull | JUndefined => EmptyString
             | _ => js_to_string x
             end
             ++ match rest with
                | [] => EmptyString
                | _ :: _ => "," ++ join rest
                end
         end) items
  | JObject _ => "[object Object]"
  end.

(** ToString inside a template literal, for a value that [JSON.parse]
    built; [None] is the [TypeError] of a value that cannot be converted.
    An object with a property [toString] of its own cannot: the property
    hides the method, it is not a function, and [valueOf] gives the object
    back. An array is joined, and cannot be converted when one of its
    elements cannot. *)
Fixpoint template (v : JsValue) : option string :=
  match v with
  | JArray items =>
      (fix join (l : list JsValue) : option string :=
         match l with
         | [] => Some EmptyString
         | x :: rest =>
             match match x with
                   | JNull | JUndefined => Some EmptyString
                   | _ => template x
                   end,
                   match rest with
                   | [] => Some EmptyString
                   | _ :: _ => option_map (append ",") (join rest)
                   end with
             | Some first, Some others => Some (first ++ others)
             | _, _ => None
             end
         end) items
  | JObject fields =>
      match lookup_field "toString" fields with
      | Some _ => None
      | None => Some "[object Object]"
      end
  | _ => Some (js_to_string v)
  end.

(** ** JSON *)

Module Json.

Definition hex_digit (n : N) : ascii :=
  if (n <? 10)%N then ascii_of_N (48 + n) else ascii_of_N (87 + n).

(** QuoteJSONString, one character at a time. Bytes from 128 up belong to
    a well-formed UTF-8 sequence and are copied. *)
Definition escape_char (c : ascii) : string :=
  if (c =? dquote)%char then String backslash (String dquote EmptyString)
  else if (c =? backslash)%char then String backslash (String backslash EmptyString)
  else if (c =? "008")%char then String backslash "b"
  else if (c =? "012")%char then String backslash "f"
  else if (c =? "010")%char then String backslash "n"
  else if (c =? "013")%char then String backslash "r"
  else if (c =? "009")%char then String backslash "t"
  else if (ord c <? 32)%N then
    String backslash
      (String "u" (String "0" (String "0"
         (String (hex_digit (ord c / 16)) (String (hex_digit (ord c mod 16)) EmptyString)))))
  else String c EmptyString.

Fixpoint escape (s : string) : string :=
  match s with
  | EmptyString => EmptyString
  | String c rest => escape_char c ++ escape rest
  end.

Definition quote (s : string) : string :=
  String dquote (escape s ++ String dquote EmptyString).

(** *** Parsing *)

Definition is_ws (c : ascii) : bool :=
  (c =? " ")%char || (c =? "009")%char || (c =? "010")%char || (c =? "013")%char.

Fixpoint skip_ws (s : string) : string :=
  match s with
  | String c rest => if is_ws c then skip_ws rest else s
  | EmptyString => s
  end.

Definition is_digit (c : ascii) : bool := in_range 48 57 c.

Definition hex_value (c : ascii) : option N :=
  if in_range 48 57 c then Some (ord c - 48)%N
  else if in_range 97 102 c then Some (ord c - 87)%N
  else if in_range 65 70 c then Some (ord c - 55)%N
  else None.

Definition hex4 (h1 h2 h3 h4 : ascii) : option N :=
  match hex_value h1, hex_value h2, hex_value h3, hex_value h4 with
  | Some a, Some b, Some c, Some d => Some (((a * 16 + b) * 16 + c) * 16 + d)%N
  | _, _, _, _ => None
  end.

(** What a string literal is made of: a byte copied from the text, or a
    UTF-16 code unit written as an escape. *)
Inductive unit16 : Type :=
| Raw (c : ascii)
| Unit (n : N).

Definition simple_escape (e : ascii) : option ascii :=
  if (e =? dquote)%char then Some dquote
  else if (e =? backslash)%char then Some backslash
  else if (e =? "/")%char then Some "/"%char
  else if (e =? "b")%char then Some "008"%char
  else if (e =? "f")%char then Some "012"%char
  else if (e =? "n")%char then Some "010"%char
  else if (e =? "r")%char then Some "013"%char
  else if (e =? "t")%char then Some "009"%char
  else None.

(** The text after an opening quote, up to the closing one. *)
Fixpoint string_units (s : string) : option (list unit16 * string) :=
  match s with
  | EmptyString => None
  | String c rest =>
      if (c =? dquote)%char then Some ([], rest)
      else if (c =? backslash)%char then
        match rest with
        | String e rest1 =>
            if (e =? "u")%char then
              match rest1 with
              | String h1 (String h2 (String h3 (String h4 rest2))) =>
                  match hex4 h1 h2 h3 h4, string_units rest2 with
                  | Some n, Some (us, r) => Some (Unit n :: us, r)
                  | _, _ => None
                  end
              | _ => None
              end
            else
              match simple_escape e, string_units rest1 with
              | Some x, Some (us, r) => Some (Raw x :: us, r)
              | _, _ => None
              end
        | EmptyString => None
        end
      else if (ord c <? 32)%N then None
      else
        match string_units rest with
        | Some (us, r) => Some (Raw c :: us, r)
        | None => None
        end
  end.

(** The UTF-8 form of a code point (a lone surrogate is written the same
    way, in three bytes). *)
Definition utf8 (n : N) : string :=
  if (n <? 128)%N then String (ascii_of_N n) EmptyString
  else if (n <? 2048)%N then
    String (ascii_of_N (192 + n / 64))
      (String (ascii_of_N (128 + n mod 64)) EmptyString)
  else if (n <? 65536)%N then
    String (ascii_of_N (224 + n / 4096))
      (String (ascii_of_N (128 + (n / 64) mod 64))
         (String (ascii_of_N (128 + n mod 64)) EmptyString))
  else
    String (ascii_of_N (240 + n / 262144))
      (String (ascii_of_N (128 + (n / 4096) mod 64))
         (String (ascii_of_N (128 + (n / 64) mod 64))
            (String (ascii_of_N (128 + n mod 64)) EmptyString))).

Definition is_high (n : N) : bool := ((55296 <=? n) && (n <=? 56319))%N.
Definition is_low (n : N) : bool := ((56320 <=? n) && (n <=? 57343))%N.

(** The string the units stand for; a high surrogate followed by a low
    one is a single code point. *)
Fixpoint units_string (us : list unit16) : string :=
  match us with
  | [] => EmptyString
  | Raw c :: rest => String c (units_string rest)
  | Unit hi :: rest =>
      match rest with
      | Unit lo :: rest' =>
          if is_high hi && is_low lo
          then utf8 (65536 + (hi - 55296) * 1024 + (lo - 56320)) ++ units_string rest'
          else utf8 hi ++ units_string rest
      | _ => utf8 hi ++ units_string rest
      end
  end.

Definition parse_string (s : string) : option (string * string) :=
  match string_units s with
  | Some (us, r) => Some (units_string us, r)
  | None => None
  end.

(** The digits at the head of the text: how many, their value after
    [acc], and the rest. *)
Fixpoint digits (acc : Z) (s : string) : nat * Z * string :=
  match s with
  | String c rest =>
      if is_digit c then
        let '(n, v, r) := digits (acc * 10 + Z.of_N (ord c - 48)) rest in (S n, v, r)
      else (O, acc, s)
  | EmptyString => (O, acc, s)
  end.

(** The fraction of a number, if any: the mantissa and exponent after it. *)
Definition fraction (m : Z) (s : string) : option (Z * Z * string) :=
  match s with
  | String "." rest =>
      match digits m rest with
      | (O, _, _) => None
      | (n, v, r) => Some (v, - Z.of_nat n, r)
      end
  | _ => Some (m, 0, s)
  end.

(** The exponent part of a number, if any. *)
Definition exponent_part (s : string) : option (Z * string) :=
  let signed (sign : Z) (t : string) :=
    match digits 0 t with
    | (O, _, _) => None
    | (_, v, r) => Some (sign * v, r)
    end in
  match s with
  | String c rest =>
      if (c =? "e")%char || (c =? "E")%char then
        match rest with
        | String "+" t => signed 1 t
        | String "-" t => signed (-1) t
        | _ => signed 1 rest
        end
      else Some (0, s)
  | EmptyString => Some (0, s)
  end.

(** A number whose sign has been read. *)
Definition unsigned_number (sign : Z) (s : string) : option (JsValue * string) :=
  let tail (m : Z) (t : string) :=
    match fraction m t with
    | Some (m', e1, t1) =>
        match exponent_part t1 with
        | Some (e2, t2) => Some (JNumber (sign * m') (e1 + e2), t2)
        | None => None
        end
    | None => None
    end in
  match s with
  | String "0" rest => tail 0 rest
  | String c _ =>
      if is_digit c then let '(_, v, r) := digits 0 s in tail v r else None
  | EmptyString => None
  end.

Definition parse_number (s : string) : option (JsValue * string) :=
  match s with
  | String "-" rest => unsigned_number (-1) rest
  | _ => unsigned_number 1 s
  end.

(** [s] without the prefix [p]. *)
Fixpoint strip (p s : string) : option string :=
  match p, s with
  | EmptyString, _ => Some s
  | String a p', String b s' => if (a =? b)%char then strip p' s' else None
  | _, EmptyString => None
  end.

Section Compound.
Variable value : string -> option (JsValue * string).

(** The elements of an array after the first, up to the bracket. *)
Fixpoint elements (n : nat) (s : string) : option (list JsValue * string) :=
  match n with
  | O => None
  | S n' =>
      match skip_ws s with
      | String "]" r => Some ([], r)
      | String "," r =>
          match value r with
          | Some (v, r1) =>
              match elements n' r1 with
              | Some (vs, r2) => Some (v :: vs, r2)
              | None => None
              end
          | None => None
          end
      | _ => None
      end
  end.

(** One member, [key : value]. *)
Definition member (s : string) : option (string * JsValue * string) :=
  match skip_ws s with
  | String c r =>
      if (c =? dquote)%char then
        match parse_string r with
        | Some (k, r1) =>
            match skip_ws r1 with
            | String ":" r2 =>
                match value r2 with
                | Some (v, r3) => Some (k, v, r3)
                | None => None
                end
            | _ => None
            end
        | None => None
        end
      else None
  | EmptyString => None
  end.

(** The members of an object after the first, up to the brace. *)
Fixpoint members (n : nat) (s : string) : option (list (string * JsValue) * string) :=
  match n with
  | O => None
  | S n' =>
      match skip_ws s with
      | String "}" r => Some ([], r)
      | String "," r =>
          match member r with
          | Some (k, v, r1) =>
              match members n' r1 with
              | Some (kvs, r2) => Some ((k, v) :: kvs, r2)
              | None => None
              end
          | None => None
          end
      | _ => None
      end
  end.
End Compound.

(** A value, with [fuel] bounding the nesting and the number of elements.
    Each level of nesting and each element takes at least one character of
    the text, so that [parse] below never runs out of it. *)
Fixpoint value (fuel : nat) (s : string) : option (JsValue * string) :=
  match fuel with
  | O => None
  | S fuel' =>
      match skip_ws s with
      | EmptyString => None
      | (String c r) as t =>
          if (c =? "{")%char then
            match skip_ws r with
            | String "}" r1 => Some (JObject [], r1)
            | _ =>
                match member (value fuel') r with
                | Some (k, v, r1) =>
                    match members (value fuel') fuel' r1 with
                    | Some (kvs, r2) => Some (JObject ((k, v) :: kvs), r2)
                    | None => None
                    end
                | None => None
                end
            end
          else if (c =? "[")%char then
            match skip_ws r with
            | String "]" r1 => Some (JArray [], r1)
            | _ =>
                match value fuel' r with
                | Some (v, r1) =>
                    match elements (value fuel') fuel' r1 with
                    | Some (vs, r2) => Some (JArray (v :: vs), r2)
                    | None => None
                    end
                | None => None
                end
            end
          else if (c =? dquote)%char then
            match parse_string r with
            | Some (x, r1) => Some (JString x, r1)
            | None => None
            end
          else if (c =? "t")%char then
            match strip "true" t with Some r1 => Some (JBool true, r1) | None => None end
          else if (c =? "f")%char then
            match strip "false" t with Some r1 => Some (JBool false, r1) | None => None end
          else if (c =? "n")%char then
            match strip "null" t with Some r1 => Some (JNull, r1) | None => None end
          else parse_number t
      end
  end.

(** [JSON.parse]: one value and nothing after it; [None] is the
    SyntaxError. *)
Definition parse (s : string) : option JsValue :=
  match value (S (String.length s)) s with
  | Some (v, r) =>
      match skip_ws r with
      | EmptyString => Some v
      | _ => None
      end
  | None => None
  end.

End Json.

(** ** [encodeURIComponent] *)

Module Uri.

Definition upper_hex (n : N) : ascii :=
  if (n <? 10)%N then ascii_of_N (48 + n) else ascii_of_N (55 + n).

Definition unreserved (c : ascii) : bool :=
  in_range 65 90 c || in_range 97 122 c || in_range 48 57 c
  || (c =? "-")%char || (c =? "_")%char || (c =? ".")%char || (c =? "!")%char
  || (c =? "~")%char || (c =? "*")%char || (c =? "039")%char
  || (c =? "(")%char || (c =? ")")%char.

(** The UTF-8 bytes of a well-formed string, percent-encoded. *)
Fixpoint encode (s : string) : string :=
  match s with
  | EmptyString => EmptyString
  | String c rest =>
      if unreserved c then String c (encode rest)
      else String "%" (String (upper_hex (ord c / 16))
             (String (upper_hex (ord c mod 16)) (encode rest)))
  end.

(** A string of the engine is a sequence of UTF-16 code units, written
    here as generalised UTF-8: a surrogate pair is the four bytes of its
    character, and a surrogate that has no partner is three bytes, [ED]
    and a byte from [A0] to [BF] first. *)
Fixpoint lone_surrogate (s : string) : bool :=
  match s with
  | EmptyString => false
  | String c rest =>
      match rest with
      | String d _ => (ord c =? 237)%N && in_range 160 191 d
      | EmptyString => false
      end
      || lone_surrogate rest
  end.

(** [encodeURIComponent(s)]; [None] is the [URIError] it throws for a
    string with a lone surrogate. *)
Definition encodeURIComponent (s : string) : option string :=
  if lone_surrogate s then None else Some (encode s).

End Uri.

(** ** The rows of the store *)

(** A row of [oauth_tokens], with the columns the callback writes. *)
Record TokenRow : Type := {
  user_id : JsValue;
  platform_id : string;
  access_token : JsValue;
  refresh_token : JsValue;
  token_type : JsValue;
  expires_at : option Z;
  scope : JsValue;
  token_data : JsValue;
  updated_at : Z
}.

(** What [getUserOAuthToken] selects of a row. *)
Record TokenView : Type := {
  view_access_token : JsValue;
  view_refresh_token : JsValue;
  view_expires_at : option Z;
  view_updated_at : Z
}.

Definition view (r : TokenRow) : TokenView :=
  {| view_access_token := access_token r;
     view_refresh_token := refresh_token r;
     view_expires_at := expires_at r;
     view_updated_at := updated_at r |}.

(** A row of [platform_oauth_configs]; a text column is [None] when NULL. *)
Record ConfigRow : Type := {
  cfg_platform_id : string;
  cfg_enabled : bool;
  client_id : option string;
  client_secret : option string;
  redirect_uri : option string;
  scopes : JsValue;
  api_endpoint : option string
}.

(** A row of the older [platform_settings]. *)
Record SettingsRow : Type := {
  old_platform_id : string;
  old_enabled : bool;
  old_client_id : option string;
  old_client_secret : option string;
  old_redirect_uri : option string;
  old_scopes : JsValue;
  old_api_endpoint : option string;
  setting_value : JsValue
}.

(** A text column as a JavaScript value, and inside a template literal. *)
Definition col (c : option string) : JsValue :=
  match c with Some s => JString s | None => JNull end.

Definition col_text (c : option string) : string :=
  match c with Some s => s | None => "null" end.

(** ** Requests to a provider *)

Inductive Method : Type := GET | POST.

Inductive Body : Type :=
| NoBody
| FormBody (fields : list (string * JsValue))   (* new URLSearchParams({...}) *)
| JsonBody (fields : list (string * JsValue)).  (* a plain object *)

Record Request : Type := {
  method : Method;
  url : string;
  body : Body;
  params : list (string * JsValue);
  headers : list (string * string)
}.

(** What axios gives back: the data of a 2xx response, or an error (any
    other status, or no response at all) with its message. *)
Inductive HttpOutcome : Type :=
| HttpOk (data : JsValue)
| HttpFail (message : string).

(** ** The world a request runs in *)

Inductive DbOp : Type :=
| SelectTokens | DeleteToken | UpsertToken | SelectConfigs | SelectSettings.

(** How the store answers an operation: it carries it out, it answers with
    an [error] field, or the call itself is rejected. *)
Inductive Fault : Type :=
| Healthy
| ReturnsError (message : string)
| Rejects (message : string).

Inductive Event : Type :=
| EvSelectTokens (userId platform : string)
| EvDeleteToken (userId platform : string) (updated : Z)
| EvUpsertToken (row : TokenRow)
| EvSelectConfigs (platform : string)
| EvSelectSettings (platform : string)
| EvHttp (r : Request).

(** What a request cannot change: the environment of the process, the
    clock at the time of the request, the health of the store, the
    answers of the providers, and the engine: the message of the
    [SyntaxError] that [JSON.parse] throws for a text that is not JSON. *)
Record Env : Type := {
  FRONTEND_URL : option string;
  now : Z;
  fault : DbOp -> Fault;
  provider : Request -> HttpOutcome;
  syntax_error : string -> string
}.

(** What it can: the tables, and the calls made so far, latest first. *)
Record World : Type := {
  platform_oauth_configs : list ConfigRow;
  platform_settings : list SettingsRow;
  oauth_tokens : list TokenRow;
  trace : list Event
}.

Definition log (e : Event) (w : World) : World :=
  {| platform_oauth_configs := platform_oauth_configs w;
     platform_settings := platform_settings w;
     oauth_tokens := oauth_tokens w;
     trace := e :: trace w |}.

Definition set_tokens (rows : list TokenRow) (w : World) : World :=
  {| platform_oauth_configs := platform_oauth_configs w;
     platform_settings := platform_settings w;
     oauth_tokens := rows;
     trace := trace w |}.

(** ** Computations that may throw *)

(** A thrown value, as far as a handler looks at it: its [message]. *)
Record Exn : Type := { message : string }.

Inductive Outcome (A : Type) : Type :=
| Returned (a : A)
| Thrown (e : Exn).
Arguments Returned {A} a.
Arguments Thrown {A} e.

Definition M (A : Type) : Type := Env -> World -> Outcome A * World.

Definition ret {A} (a : A) : M A := fun _ w => (Returned a, w).

Definition throw {A} (msg : string) : M A :=
  fun _ w => (Thrown {| message := msg |}, w).

Definition bind {A B} (c : M A) (k : A -> M B) : M B :=
  fun env w =>
    match c env w with
    | (Returned a, w') => k a env w'
    | (Thrown e, w') => (Thrown e, w')
    end.

(** [try { c } catch (error) { h error }]. *)
Definition try_catch {A} (c : M A) (h : Exn -> M A) : M A :=
  fun env w =>
    match c env w with
    | (Returned a, w') => (Returned a, w')
    | (Thrown e, w') => h e env w'
    end.

Notation "x <- c ;; k" := (bind c (fun x => k))
  (at level 61, c at next level, right associativity).
Notation "c ;;; k" := (bind c (fun _ => k))
  (at level 61, right associativity).

(** [for (const x of l) { f x }]. *)
Fixpoint for_each {A} (l : list A) (f : A -> M unit) : M unit :=
  match l with
  | [] => ret tt
  | x :: rest => f x ;;; for_each rest f
  end.

Definition Date_now : M Z := fun env w => (Returned (now env), w).

(** ** The store *)

(** [.eq('user_id', userId).eq('platform_id', platform)]. *)
Definition has_key (userId platform : string) (r : TokenRow) : bool :=
  strict_eq_string userId (user_id r) && String.eqb platform (platform_id r).

(** [.order('updated_at', { ascending: false })]: latest first, rows of
    equal time in the order of the table. *)
Fixpoint insert_desc (r : TokenRow) (l : list TokenRow) : list TokenRow :=
  match l with
  | [] => [r]
  | x :: rest =>
      if updated_at x <=? updated_at r then r :: l else x :: insert_desc r rest
  end.

Fixpoint order_desc (l : list TokenRow) : list TokenRow :=
  match l with
  | [] => []
  | r :: rest => insert_desc r (order_desc rest)
  end.

(** The answer of a select: [{ data, error }]. *)
Inductive Selected (A : Type) : Type :=
| Data (data : A)
| Error (message : string).
Arguments Data {A} data.
Arguments Error {A} message.

Definition select_tokens (userId platform : string) : M (Selected (list TokenView)) :=
  fun env w =>
    let w1 := log (EvSelectTokens userId platform) w in
    match fault env SelectTokens with
    | Healthy =>
        (Returned (Data (map view (order_desc (filter (has_key userId platform) (oauth_tokens w))))), w1)
    | ReturnsError m => (Returned (Error m), w1)
    | Rejects m => (Thrown {| message := m |}, w1)
    end.

(** [.delete().eq('user_id', ..).eq('platform_id', ..).eq('updated_at', t)];
    the code does not look at the answer. *)
Definition delete_token (userId platform : string) (t : Z) : M unit :=
  fun env w =>
    let w1 := log (EvDeleteToken userId platform t) w in
    match fault env DeleteToken with
    | Healthy =>
        (Returned tt,
         set_tokens
           (filter (fun r => negb (has_key userId platform r && (updated_at r =? t)))
                   (oauth_tokens w)) w1)
    | ReturnsError _ => (Returned tt, w1)
    | Rejects m => (Thrown {| message := m |}, w1)
    end.

(** The conflict target [user_id,platform_id]; only a text id can meet an
    existing row. *)
Definition same_key (a b : TokenRow) : bool :=
  match user_id a with
  | JString u => has_key u (platform_id a) b
  | _ => false
  end.

(** [.upsert(row, { onConflict: 'user_id,platform_id' })]: the row takes the
    place of the one with its key, or is added. The answer is the [error]
    field. *)
Definition upsert_token (row : TokenRow) : M (option string) :=
  fun env w =>
    let w1 := log (EvUpsertToken row) w in
    match fault env UpsertToken with
    | Healthy =>
        (Returned None,
         set_tokens
           (if existsb (same_key row) (oauth_tokens w)
            then map (fun r => if same_key row r then row else r) (oauth_tokens w)
            else oauth_tokens w ++ [row]) w1)
    | ReturnsError m => (Returned (Some m), w1)
    | Rejects m => (Thrown {| message := m |}, w1)
    end.

(** [.single()]: the data is the row when exactly one row is selected. *)
Definition single {A} (rows : list A) : option A :=
  match rows with
  | [r] => Some r
  | _ => None
  end.

Definition select_config (platform : string) : M (option ConfigRow) :=
  fun env w =>
    let w1 := log (EvSelectConfigs platform) w in
    match fault env SelectConfigs with
    | Healthy =>
        (Returned (single (filter (fun r => String.eqb platform (cfg_platform_id r) && cfg_enabled r)
                                  (platform_oauth_configs w))), w1)
    | ReturnsError _ => (Returned None, w1)
    | Rejects m => (Thrown {| message := m |}, w1)
    end.

Definition select_settings (platform : string) : M (option SettingsRow) :=
  fun env w =>
    let w1 := log (EvSelectSettings platform) w in
    match fault env SelectSettings with
    | Healthy =>
        (Returned (single (filter (fun r => String.eqb platform (old_platform_id r) && old_enabled r)
                                  (platform_settings w))), w1)
    | ReturnsError _ => (Returned None, w1)
    | Rejects m => (Thrown {| message := m |}, w1)
    end.

(** [axios]: the request goes out and the provider answers. *)
Definition axios (r : Request) : M JsValue :=
  fun env w =>
    let w1 := log (EvHttp r) w in
    match provider env r with
    | HttpOk data => (Returned data, w1)
    | HttpFail m => (Thrown {| message := m |}, w1)
    end.

(** ** [getUserOAuthToken] *)

(** [tokenData.expires_at && new Date(tokenData.expires_at) < new Date()]. *)
Definition expired (t : TokenView) (today : Z) : bool :=
  match view_expires_at t with
  | Some e => e <? today
  | None => false
  end.

(** The loop over [data.slice(1)]; a delete that throws is logged and the
    loop goes on. *)
Definition delete_duplicates (userId platform : string) (tokensToDelete : list TokenView) : M unit :=
  for_each tokensToDelete
    (fun token =>
       try_catch (delete_token userId platform (view_updated_at token))
                 (fun _ => ret tt)).

(** The token of a user for a platform, or [null]. *)
Definition getUserOAuthToken (userId platform : string) : M JsValue :=
  try_catch
    (selected <- select_tokens userId platform ;;
     match selected with
     | Error _ => ret JNull
     | Data [] => ret JNull
     | Data ((tokenData :: tokensToDelete) as data) =>
         (if (1 <? length data)%nat
          then delete_duplicates userId platform tokensToDelete
          else ret tt) ;;;
         today <- Date_now ;;
         if expired tokenData today then ret JNull
         else ret (view_access_token tokenData)
     end)
    (fun _ => ret JNull).

(** ** [getPlatformConfig] *)

Record PlatformConfig : Type := {
  clientId : JsValue;
  clientSecret : JsValue;
  redirectUri : JsValue;
  config_scopes : JsValue;
  apiEndpoint : JsValue
}.

(** [v?.k]. *)
Definition opt_chain (v : JsValue) (k : string) : JsValue :=
  match v with
  | JUndefined | JNull => JUndefined
  | _ => get_prop v k
  end.

Definition getPlatformConfig (platform : string) : M (option PlatformConfig) :=
  try_catch
    (newData <- select_config platform ;;
     match newData with
     | Some r =>
         ret (Some {| clientId := col (client_id r);
                      clientSecret := col (client_secret r);
                      redirectUri := col (redirect_uri r);
                      config_scopes := scopes r;
                      apiEndpoint := col (api_endpoint r) |})
     | None =>
         oldData <- select_settings platform ;;
         match oldData with
         | Some r =>
             ret (Some {| clientId := js_or (col (old_client_id r)) (opt_chain (setting_value r) "clientId");
                          clientSecret := js_or (col (old_client_secret r)) (opt_chain (setting_value r) "clientSecret");
                          redirectUri := js_or (col (old_redirect_uri r)) (opt_chain (setting_value r) "redirectUri");
                          config_scopes := js_or (old_scopes r) (opt_chain (setting_value r) "scopes");
                          apiEndpoint := js_or (col (old_api_endpoint r)) (opt_chain (setting_value r) "apiEndpoint") |})
         | None => ret None
         end
     end)
    (fun _ => ret None).

(** ** The code-exchange functions *)

Definition form_header : string * string :=
  ("Content-Type", "application/x-www-form-urlencoded").

Definition spotify_request (code : string) (config : ConfigRow) : Request :=
  {| method := POST;
     url := "https://accounts.spotify.com/api/token";
     body := FormBody [("grant_type", JString "authorization_code");
                       ("code", JString code);
                       ("redirect_uri", col (redirect_uri config));
                       ("client_id", col (client_id config));
                       ("client_secret", col (client_secret config))];
     params := [];
     headers := [form_header] |}.

Definition google_request (code : string) (config : ConfigRow) : Request :=
  {| method := POST;
     url := "https://oauth2.googleapis.com/token";
     body := JsonBody [("grant_type", JString "authorization_code");
                       ("code", JString code);
                       ("redirect_uri", col (redirect_uri config));
                       ("client_id", col (client_id config));
                       ("client_secret", col (client_secret config))];
     params := [];
     headers := [] |}.

Definition facebook_request (code : string) (config : ConfigRow) : Request :=
  {| method := GET;
     url := "https://graph.facebook.com/v18.0/oauth/access_token";
     body := NoBody;
     params := [("client_id", col (client_id config));
                ("client_secret", col (client_secret config));
                ("redirect_uri", col (redirect_uri config));
                ("code", JString code)];
     headers := [] |}.

Definition twitter_request (code : string) (config : ConfigRow) : Request :=
  {| method := POST;
     url := "https://api.twitter.com/2/oauth2/token";
     body := FormBody [("grant_type", JString "authorization_code");
                       ("code", JString code);
                       ("redirect_uri", col (redirect_uri config));
                       ("client_id", col (client_id config));
                       ("code_verifier", JString "challenge")];
     params := [];
     headers := [form_header;
                 ("Authorization",
                  "Basic " ++ Base64.encode (col_text (client_id config) ++ ":"
                                             ++ col_text (client_secret config)))] |}.

Definition tiktok_request (code : string) (config : ConfigRow) : Request :=
  {| method := POST;
     url := "https://open-api.tiktok.com/oauth/access_token/";
     body := JsonBody [("client_key", col (client_id config));
                       ("client_secret", col (client_secret config));
                       ("code", JString code);
                       ("grant_type", JString "authorization_code");
                       ("redirect_uri", col (redirect_uri config))];
     params := [];
     headers := [] |}.

(** Each returns [response.data]. *)
Definition exchangeSpotifyCode (code : string) (config : ConfigRow) : M JsValue :=
  axios (spotify_request code config).
Definition exchangeGoogleCode (code : string) (config : ConfigRow) : M JsValue :=
  axios (google_request code config).
Definition exchangeFacebookCode (code : string) (config : ConfigRow) : M JsValue :=
  axios (facebook_request code config).
Definition exchangeTwitterCode (code : string) (config : ConfigRow) : M JsValue :=
  axios (twitter_request code config).
Definition exchangeTikTokCode (code : string) (config : ConfigRow) : M JsValue :=
  axios (tiktok_request code config).

(** ** The OAuth callback route *)

Inductive Response : Type :=
| Redirect (location : string)
| Json (status : Z) (body : JsValue).

(** The last middleware, for an error handed on to Express. *)
Definition error_middleware (err : Exn) : Response :=
  Json 500 (JObject [("error", JString "Internal server error")]).

(** The query of the request; a parameter is [None] when absent. The
    parser of the query decodes the percent-escapes of a parameter as
    UTF-8 and leaves alone those it cannot decode, so that a parameter is
    a string without a lone surrogate. *)
Record Query : Type := {
  q_code : option string;
  q_state : option string;
  q_error : option string
}.

(** A parameter that is present and not empty, that is, truthy. *)
Definition given (p : option string) : option string :=
  match p with
  | Some EmptyString => None
  | other => other
  end.

(** [process.env.FRONTEND_URL || 'http://localhost:3000'], then the path. *)
Definition callback_url (env : Env) (platform : string) : string :=
  match given (FRONTEND_URL env) with
  | Some base => base
  | None => "http://localhost:3000"
  end ++ "/auth/callback/" ++ platform.

Definition redirect (platform query : string) : M Response :=
  fun env w => (Returned (Redirect (callback_url env platform ++ query)), w).

(** [JSON.parse(Buffer.from(state, 'base64').toString())], for a state
    of ASCII characters whose bytes decode to well-formed UTF-8: there
    [toString] is the identity, and the bytes are taken as they are. Not
    modelled: [Buffer.from] reads a character above ASCII by the low byte
    of its code unit, and [toString] writes U+FFFD for ill-formed bytes. *)
Definition decode_state (state : string) : option JsValue :=
  Json.parse (Base64.decode state).

(** [const { userId, platform: statePlatform } = stateData]. *)
Definition destructure_state (stateData : JsValue) : M (JsValue * JsValue) :=
  match stateData with
  | JNull | JUndefined => throw "Cannot destructure property 'userId' of 'stateData' as it is null."
  | _ => ret (get_prop stateData "userId", get_prop stateData "platform")
  end.

(** [tokenData.k], which throws when the response had no data. *)
Definition read_prop (v : JsValue) (k : string) : M JsValue :=
  match v with
  | JNull | JUndefined => throw "Cannot read properties of null"
  | _ => ret (get_prop v k)
  end.

(** The [switch] on the platform. *)
Definition exchange_code (platform code : string) (config : ConfigRow) : M JsValue :=
  if String.eqb platform "spotify" then exchangeSpotifyCode code config
  else if String.eqb platform "youtube" || String.eqb platform "google_analytics"
  then exchangeGoogleCode code config
  else if String.eqb platform "facebook" || String.eqb platform "instagram"
  then exchangeFacebookCode code config
  else if String.eqb platform "twitter" then exchangeTwitterCode code config
  else if String.eqb platform "tiktok" then exchangeTikTokCode code config
  else throw ("OAuth not implemented for platform: " ++ platform).

(** The platforms the [switch] has a case for. *)
Definition supported_platforms : list string :=
  ["spotify"; "youtube"; "google_analytics"; "facebook"; "instagram"; "twitter"; "tiktok"].

(** ToNumber, for the values a provider sends as [expires_in]: a number, a
    boolean, or a string that spells a JSON number; [None] is NaN. The other
    spellings ToNumber accepts in a string, and arrays and objects, are read
    as NaN here; sums and products are exact, not rounded to a double. *)
Definition to_number (v : JsValue) : option (Z * Z) :=
  match v with
  | JNumber m e => Some (m, e)
  | JBool true => Some (1, 0)
  | JBool false | JNull => Some (0, 0)
  | JString s =>
      match Json.parse_number s with
      | Some (JNumber m e, EmptyString) => Some (m, e)
      | _ => None
      end
  | _ => None
  end.

(** The time value of [new Date(Date.now() + expires_in * 1000)] for the
    decimal [m * 10 ^ e]: the sum, cut to whole milliseconds. *)
Definition date_after (today m e : Z) : Z :=
  if 0 <=? e + 3 then today + m * 10 ^ (e + 3)
  else Z.quot (today * 10 ^ (- (e + 3)) + m) (10 ^ (- (e + 3))).

(** [tokenData.expires_in ? new Date(..).toISOString() : null];
    [toISOString] throws on a date that is not valid. *)
Definition expiry_of (expires_in : JsValue) : M (option Z) :=
  if truthy expires_in then
    today <- Date_now ;;
    match to_number expires_in with
    | Some (m, e) =>
        if Z.abs (date_after today m e) <=? 8640000000000000
        then ret (Some (date_after today m e))
        else throw "Invalid time value"
    | None => throw "Invalid time value"
    end
  else ret None.

(** The end of the [try] block: the row is written and the browser sent
    back with success. *)
Definition store_tokens (platform : string) (userId tokenData : JsValue) : M Response :=
  expires_in <- read_prop tokenData "expires_in" ;;
  expiresAt <- expiry_of expires_in ;;
  today <- Date_now ;;
  storeError <-
    upsert_token
      {| user_id := userId;
         platform_id := platform;
         access_token := get_prop tokenData "access_token";
         refresh_token := get_prop tokenData "refresh_token";
         token_type := js_or (get_prop tokenData "token_type") (JString "Bearer");
         expires_at := expiresAt;
         scope := get_prop tokenData "scope";
         token_data := tokenData;
         updated_at := today |} ;;
  match storeError with
  | Some m => throw m
  | None => redirect platform ("?connected=" ++ platform ++ "&success=true")
  end.

(** A template literal that writes [v] into a line of the log. *)
Definition log_line (v : JsValue) : M unit :=
  match template v with
  | Some _ => ret tt
  | None => throw "Cannot convert object to primitive value"
  end.

(** The [SyntaxError] of [JSON.parse], with the message of the engine. *)
Definition throw_syntax_error {A} (text : string) : M A :=
  fun env w => (Thrown {| message := syntax_error env text |}, w).

(** The body of the [try] block. The text of a [TypeError] that the engine
    raises stands for whatever text the engine gives it. *)
Definition callback_try (platform code state : string) : M Response :=
  match decode_state state with
  | None => throw_syntax_error (Base64.decode state)
  | Some stateData =>
      ids <- destructure_state stateData ;;
      let '(userId, statePlatform) := ids in
      if negb (strict_eq_string platform statePlatform)
      then throw "Platform mismatch in state"
      else
        log_line userId ;;;
        platformConfig <- select_config platform ;;
        match platformConfig with
        | None => throw ("Platform " ++ platform ++ " not configured or not enabled")
        | Some config =>
            tokenData <- exchange_code platform code config ;;
            store_tokens platform userId tokenData
        end
  end.

(** The redirect that carries an error; [encodeURIComponent] throws a
    [URIError] for a text with a lone surrogate, and nothing is sent. *)
Definition error_redirect (platform text : string) : M Response :=
  match Uri.encodeURIComponent text with
  | Some encoded => redirect platform ("?error=" ++ encoded)
  | None => throw "URI malformed"
  end.

(** [app.get('/api/auth/callback/:platform', ...)]. A thrown outcome is an
    error that leaves the handler: no answer is sent. The first
    [encodeURIComponent] does not throw: a parameter of the query has no
    lone surrogate. *)
Definition oauth_callback (platform : string) (q : Query) : M Response :=
  match given (q_error q) with
  | Some error => redirect platform ("?error=" ++ Uri.encode error)
  | None =>
      match given (q_code q), given (q_state q) with
      | Some code, Some state =>
          try_catch (callback_try platform code state)
            (fun error => error_redirect platform (message error))
      | _, _ => redirect platform "?error=missing_parameters"
      end
  end.

(** ** The state parameter, on the side that builds it *)

(** [JSON.stringify] of an object of two string fields. *)
Definition stringify_pair (k1 v1 k2 v2 : string) : string :=
  "{" ++ Json.quote k1 ++ ":" ++ Json.quote v1 ++ ","
      ++ Json.quote k2 ++ ":" ++ Json.quote v2 ++ "}".

(** Modelled from the spec: the encoder of the state parameter runs in the
    front end and is not part of this source. Following section 4.2, it
    serialises the pair of the user and the platform to JSON and applies
    Base64, the transform the callback reverses, in the standard alphabet or
    in the URL-safe one; the two fields carry the names the callback
    destructures, [userId] and [platform]. *)
Definition encode_state_as (url : bool) (userId platformId : string) : string :=
  Base64.encode_as url (stringify_pair "userId" userId "platform" platformId).

Definition encode_state : string -> string -> string := encode_state_as false.

(** ** Reading a request and a trace *)

(** The value under a name in a list of pairs, first match. *)
Fixpoint assoc {A} (k : string) (l : list (string * A)) : option A :=
  match l with
  | [] => None
  | (k', v) :: rest => if String.eqb k k' then Some v else assoc k rest
  end.

Definition is_http (e : Event) : bool :=
  match e with EvHttp _ => true | _ => false end.

Definition is_upsert (e : Event) : bool :=
  match e with EvUpsertToken _ => true | _ => false end.

Definition is_select_settings (e : Event) : bool :=
  match e with EvSelectSettings _ => true | _ => false end.

(** ** Properties of computations *)

(** Whatever [c] returns satisfies [P]. *)
Definition returns_only {A} (env : Env) (P : A -> Prop) (c : M A) : Prop :=
  forall w a w', c env w = (Returned a, w') -> P a.

(** The calls [c] makes all satisfy [Q]. *)
Definition calls_only {A} (env : Env) (Q : Event -> Prop) (c : M A) : Prop :=
  forall w, exists new, trace (snd (c env w)) = (new ++ trace w)%list /\ Forall Q new.

(** The rows left when those of a key with one of the given times are
    deleted. *)
Definition purge (userId platform : string) (times : list Z) (rows : list TokenRow) : list TokenRow :=
  filter (fun r => negb (has_key userId platform r && existsb (Z.eqb (updated_at r)) times)) rows.

(** ** The message of a syntax error *)

(** The first UTF-16 code unit of a text: its first character, or the
    high surrogate of a first character of four bytes. *)
Definition first_code_unit (text : string) : string :=
  match text with
  | String a rest =>
      if in_range 240 247 a then
        match rest with
        | String b (String c (String d _)) =>
            let point := ((ord a mod 8) * 262144 + (ord b mod 64) * 4096
                          + (ord c mod 64) * 64 + ord d mod 64)%N in
            let high := (55296 + (point - 65536) / 1024)%N in
            String (ascii_of_N 237)
              (String (ascii_of_N (128 + (high / 64) mod 64))
                 (String (ascii_of_N (128 + high mod 64)) EmptyString))
        | _ => String a EmptyString
        end
      else if in_range 224 239 a then substring 0 3 text
      else if in_range 192 223 a then substring 0 2 text
      else String a EmptyString
  | EmptyString => EmptyString
  end.

(** What V8 says of a text whose first character cannot begin a JSON
    value, in the wording of Node 18: it quotes one code unit, and so do
    the later wordings. *)
Definition unexpected_token (text : string) : string :=
  "Unexpected token " ++ first_code_unit text ++ " in JSON at position 0".

(** ** Sample data *)

Module Sample.

Definition config : ConfigRow :=
  {| cfg_platform_id := "spotify"; cfg_enabled := true;
     client_id := Some "client-1"; client_secret := Some "secret-1";
     redirect_uri := Some "https://api.lucysounds.com/api/auth/callback/spotify";
     scopes := JString "user-read-email"; api_endpoint := None |}.

Definition settings : SettingsRow :=
  {| old_platform_id := "spotify"; old_enabled := true;
     old_client_id := Some "client-0"; old_client_secret := None;
     old_redirect_uri := None; old_scopes := JNull; old_api_endpoint := None;
     setting_value := JObject [("clientSecret", JString "secret-0")] |}.

(** A token response without [expires_in]. *)
Definition response : JsValue :=
  JObject [("access_token", JString "token-1"); ("token_type", JString "Bearer")].

(** A healthy store and a provider that grants every request. *)
Definition env : Env :=
  {| FRONTEND_URL := None; now := 1700000000000;
     fault := fun _ => Healthy;
     provider := fun _ => HttpOk response;
     syntax_error := unexpected_token |}.

(** The same, with the reads of [oauth_tokens] failing. *)
Definition env_down : Env :=
  {| FRONTEND_URL := None; now := 1700000000000;
     fault := fun op => match op with
                        | SelectTokens => ReturnsError "fetch failed"
                        | _ => Healthy
                        end;
     provider := fun _ => HttpOk response;
     syntax_error := unexpected_token |}.

Definition empty : World :=
  {| platform_oauth_configs := []; platform_settings := [];
     oauth_tokens := []; trace := [] |}.

(** Spotify configured in the primary table. *)
Definition configured : World :=
  {| platform_oauth_configs := [config]; platform_settings := [];
     oauth_tokens := []; trace := [] |}.

(** Spotify configured in the older table only. *)
Definition legacy : World :=
  {| platform_oauth_configs := []; platform_settings := [settings];
     oauth_tokens := []; trace := [] |}.

Definition row (token : string) (expires : option Z) (updated : Z) : TokenRow :=
  {| user_id := JString "user-1"; platform_id := "spotify";
     access_token := JString token; refresh_token := JNull;
     token_type := JString "Bearer"; expires_at := expires;
     scope := JNull; token_data := JNull; updated_at := updated |}.

(** Three rows of one key, not in the order of their times. *)
Definition duplicated : World :=
  {| platform_oauth_configs := []; platform_settings := [];
     oauth_tokens := [row "token-b" None 20; row "token-c" None 30; row "token-a" None 10];
     trace := [] |}.

(** One row, expired an hour before the clock of [env]. *)
Definition stale : World :=
  {| platform_oauth_configs := []; platform_settings := [];
     oauth_tokens := [row "token-a" (Some 1699996400000) 10];
     trace := [] |}.

(** A callback with a code and the state of [user-1] for a platform. *)
Definition query (platformId : string) : Query :=
  {| q_code := Some "code-1";
     q_state := Some (encode_state "user-1" platformId);
     q_error := None |}.

(** The state [{ platform: 'spotify' }], which names no user. *)
Definition state_without_user : string :=
  Base64.encode ("{" ++ Json.quote "platform" ++ ":" ++ Json.quote "spotify" ++ "}").

Definition query_without_user : Query :=
  {| q_code := Some "code-1"; q_state := Some state_without_user; q_error := None |}.

(** The state [{ userId: 'user-1' }], which names no platform. *)
Definition state_without_platform : string :=
  Base64.encode ("{" ++ Json.quote "userId" ++ ":" ++ Json.quote "user-1" ++ "}").

Definition query_without_platform : Query :=
  {| q_code := Some "code-1"; q_state := Some state_without_platform; q_error := None |}.

End Sample.

(* ===================================================================== *)
(** * Part I, continued: the callers of the helpers                       *)
(* ===================================================================== *)

(** ** [extractUserId] *)

(** What [supabase.auth.getUser] answers: [{ data: { user }, error }], or
    nothing that can be destructured (the call is rejected, or the answer
    has no data). *)
Inductive AuthAnswer : Type :=
| AuthAnswered (user : JsValue) (error : bool)
| AuthThrows.

Definition error_body (text : string) : JsValue :=
  JObject [("error", JString text)].

(** The middleware in front of the routes of a user. [next] is the route,
    which receives [req.userId]. *)
Definition extractUserId (getUser : string -> AuthAnswer) (authorization : option string)
    (next : JsValue -> M Response) : M Response :=
  match authorization with
  | None => ret (Json 401 (error_body "No authorization token provided"))
  | Some authHeader =>
      match Json.strip "Bearer " authHeader with
      | None => ret (Json 401 (error_body "No authorization token provided"))
      | Some token =>
          match getUser token with
          | AuthAnswered user error =>
              if error || negb (truthy user)
              then ret (Json 401 (error_body "Invalid or expired token"))
              else next (get_prop user "id")
          | AuthThrows => ret (Json 401 (error_body "Authentication failed"))
          end
      end
  end.

(** ** A route of a user: [/api/spotify/me] *)

(** [axios.get(url, { headers, params })]. *)
Definition axios_get (address : string) (heads : list (string * string))
    (query : list (string * JsValue)) : M JsValue :=
  axios {| method := GET; url := address; body := NoBody; params := query; headers := heads |}.

(** [app.get('/api/spotify/me', extractUserId, ...)], after the middleware.
    The store client writes the user id into its filter as text. *)
Definition api_spotify_me (userId : JsValue) : M Response :=
  try_catch
    (token <- getUserOAuthToken (js_to_string userId) "spotify" ;;
     if negb (truthy token)
     then ret (Json 401 (error_body "No Spotify token found"))
     else
       data <- axios_get "https://api.spotify.com/v1/me"
                 [("Authorization", "Bearer " ++ js_to_string token)] [] ;;
       ret (Json 200 data))
    (fun _ => ret (Json 500 (error_body "Failed to fetch Spotify profile"))).

(** The route with its middleware. *)
Definition spotify_me_route (getUser : string -> AuthAnswer) (authorization : option string)
    : M Response :=
  extractUserId getUser authorization api_spotify_me.

(** ** [getSpotifyClientToken] *)

(** The body is the text [grant_type=client_credentials], the form of one
    field; the header is built from the two credentials written out. *)
Definition client_credentials_request (id secret : string) : Request :=
  {| method := POST;
     url := "https://accounts.spotify.com/api/token";
     body := FormBody [("grant_type", JString "client_credentials")];
     params := [];
     headers := [form_header;
                 ("Authorization", "Basic " ++ Base64.encode (id ++ ":" ++ secret))] |}.

(** The template literal of the header throws for a credential that
    cannot be converted, as a setting of the older table can be. *)
Definition getSpotifyClientToken : M JsValue :=
  try_catch
    (config <- getPlatformConfig "spotify" ;;
     match config with
     | None => ret JNull
     | Some c =>
         if negb (truthy (clientId c)) || negb (truthy (clientSecret c))
         then ret JNull
         else
           match template (clientId c), template (clientSecret c) with
           | Some id, Some secret =>
               data <- axios (client_credentials_request id secret) ;;
               read_prop data "access_token"
           | _, _ => throw "Cannot convert object to primitive value"
           end
     end)
    (fun _ => ret JNull).

(** The credentials that reach the header: both are there and both can
    be written out. *)
Definition credentials (c : PlatformConfig) : option (string * string) :=
  if truthy (clientId c) && truthy (clientSecret c)
  then match template (clientId c), template (clientSecret c) with
       | Some id, Some secret => Some (id, secret)
       | _, _ => None
       end
  else None.

(** ** The analytics of a platform: [/api/analytics/:platformId] *)

Definition enhanced (platform : string) (timeRange selectedProperties : JsValue)
    (metrics : list (string * JsValue)) : M JsValue :=
  ret (JObject [("platform", JString platform);
                ("timeRange", timeRange);
                ("selectedProperties", selectedProperties);
                ("metrics", JObject metrics)]).

Definition getEnhancedGoogleAnalytics (token timeRange selectedProperties : JsValue) : M JsValue :=
  enhanced "google_analytics" timeRange selectedProperties
    [("sessions", JNumber 12450 0); ("users", JNumber 8920 0);
     ("pageviews", JNumber 34560 0); ("bounceRate", JNumber 42 (-2))].

Definition getEnhancedFacebookAnalytics (token timeRange selectedProperties : JsValue) : M JsValue :=
  enhanced "facebook" timeRange selectedProperties
    [("reach", JNumber 15420 0); ("engagement", JNumber 1240 0);
     ("likes", JNumber 890 0); ("shares", JNumber 120 0)].

Definition getEnhancedInstagramAnalytics (token timeRange selectedProperties : JsValue) : M JsValue :=
  enhanced "instagram" timeRange selectedProperties
    [("impressions", JNumber 25340 0); ("reach", JNumber 18920 0);
     ("engagement", JNumber 2140 0); ("followers", JNumber 12500 0)].

Definition getEnhancedYouTubeAnalytics (token timeRange selectedProperties : JsValue) : M JsValue :=
  enhanced "youtube" timeRange selectedProperties
    [("views", JNumber 45600 0); ("subscribers", JNumber 3400 0);
     ("watchTime", JNumber 12800 0); ("engagement", JNumber 58 (-1))].

Definition getEnhancedSpotifyAnalytics (token timeRange selectedProperties : JsValue) : M JsValue :=
  enhanced "spotify" timeRange selectedProperties
    [("streams", JNumber 78900 0); ("listeners", JNumber 5600 0);
     ("saves", JNumber 890 0); ("popularity", JNumber 67 0)].

(** The inner [try] block: the [switch] and the answer. *)
Definition analytics_switch (platformId : string) (token timeRange selectedProperties : JsValue)
    : M Response :=
  if String.eqb platformId "google_analytics"
  then analyticsData <- getEnhancedGoogleAnalytics token timeRange selectedProperties ;;
       ret (Json 200 analyticsData)
  else if String.eqb platformId "facebook"
  then analyticsData <- getEnhancedFacebookAnalytics token timeRange selectedProperties ;;
       ret (Json 200 analyticsData)
  else if String.eqb platformId "instagram"
  then analyticsData <- getEnhancedInstagramAnalytics token timeRange selectedProperties ;;
       ret (Json 200 analyticsData)
  else if String.eqb platformId "youtube"
  then analyticsData <- getEnhancedYouTubeAnalytics token timeRange selectedProperties ;;
       ret (Json 200 analyticsData)
  else if String.eqb platformId "spotify"
  then analyticsData <- getEnhancedSpotifyAnalytics token timeRange selectedProperties ;;
       ret (Json 200 analyticsData)
  else ret (Json 400 (error_body ("Enhanced analytics not supported for " ++ platformId))).

(** [app.post('/api/analytics/:platformId', ...)]; [body] is [req.body].
    Two lines of the log write the user and the time range out before the
    token is read; the store client then writes the user into its filter
    as the same text. *)
Definition api_analytics (platformId : string) (body : JsValue) : M Response :=
  try_catch
    (userId <- read_prop body "userId" ;;
     log_line userId ;;;
     log_line (get_prop body "timeRange") ;;;
     token <- getUserOAuthToken (js_to_string userId) platformId ;;
     if negb (truthy token)
     then ret (Json 401 (error_body ("No " ++ platformId ++ " token found for user")))
     else
       try_catch
         (analytics_switch platformId token
            (get_prop body "timeRange") (get_prop body "selectedProperties"))
         (fun _ => ret (Json 500 (error_body ("Failed to fetch enhanced " ++ platformId
                                               ++ " analytics")))))
    (fun _ => ret (Json 500 (error_body "Failed to fetch enhanced analytics"))).

(** ** [generateAIInsights] *)

Record Insight : Type := {
  insight_type : string;
  title : string;
  description : string;
  action : string;
  icon : string;
  priority : string
}.

(** The length of a string in UTF-16 code units, counted on its UTF-8
    bytes: one for each character, two for a character of four bytes. *)
Fixpoint utf16_length (s : string) : Z :=
  match s with
  | EmptyString => 0
  | String c rest =>
      (if in_range 128 191 c then 0 else if in_range 240 255 c then 2 else 1)
      + utf16_length rest
  end.

(** [v.length], for a [v] that is neither [null] nor [undefined]. *)
Definition js_length (v : JsValue) : JsValue :=
  match v with
  | JArray items => JNumber (Z.of_nat (length items)) 0
  | JString s => JNumber (utf16_length s) 0
  | JObject _ => get_prop v "length"
  | _ => JUndefined
  end.

(** [v?.length]. *)
Definition opt_length (v : JsValue) : JsValue :=
  match v with
  | JUndefined | JNull => JUndefined
  | _ => js_length v
  end.

(** [v === 0]. *)
Definition is_zero (v : JsValue) : bool :=
  match v with
  | JNumber m _ => m =? 0
  | _ => false
  end.

Section Insights.

(** What the engine answers: the comparisons of a value with a number, and
    the two number formats. [toFixed] is [None] for a value without that
    method, for which the call throws. *)
Variable less_than : JsValue -> Z -> bool.
Variable greater_than : JsValue -> Z -> bool.
Variable toLocaleString : JsValue -> string.
Variable toFixed : JsValue -> option string.

Definition connect_insight : Insight :=
  {| insight_type := "recommendation";
     title := "Connect Your Platforms";
     description := "Start by connecting your music and social media platforms to get personalized insights.";
     action := "Connect Spotify, YouTube, or social media accounts to unlock detailed analytics.";
     icon := "Plus";
     priority := "high" |}.

Definition followers_insight (followers : JsValue) : Insight :=
  if less_than followers 1000 then
    {| insight_type := "recommendation";
       title := "Build Your Foundation";
       description := "You have " ++ toLocaleString followers
         ++ " followers. Focus on consistent content creation to reach your first 1K milestone.";
       action := "Post regularly and engage with your audience. Aim for 3-5 posts per week across platforms.";
       icon := "Users";
       priority := "high" |}
  else if less_than followers 10000 then
    {| insight_type := "opportunity";
       title := "Growing Audience";
       description := "Great progress with " ++ toLocaleString followers
         ++ " followers! You're building momentum.";
       action := "Consider collaborations and cross-platform promotion to accelerate growth.";
       icon := "TrendingUp";
       priority := "medium" |}
  else
    {| insight_type := "positive";
       title := "Strong Following";
       description := "Excellent! You have " ++ toLocaleString followers
         ++ " followers across platforms.";
       action := "Focus on engagement quality and consider monetization strategies.";
       icon := "Award";
       priority := "low" |}.

Definition music_insight (popularity : string) : Insight :=
  {| insight_type := "positive";
     title := "High-Performing Music";
     description := "Your tracks have an average popularity of " ++ popularity ++ "/100 on Spotify.";
     action := "Promote your top tracks on other platforms and consider similar style releases.";
     icon := "Music";
     priority := "medium" |}.

Definition youtube_insight : Insight :=
  {| insight_type := "recommendation";
     title := "YouTube Content Opportunity";
     description := "You have limited YouTube content. Regular uploads can boost your visibility.";
     action := "Create a content calendar with weekly uploads. Consider tutorials or behind-the-scenes content.";
     icon := "Video";
     priority := "medium" |}.

Definition presence_insight (platforms : JsValue) : Insight :=
  {| insight_type := "positive";
     title := "Multi-Platform Presence";
     description := "You're active on " ++ js_to_string platforms
       ++ " platforms. This diversifies your reach.";
     action := "Maintain consistent branding and cross-promote content between platforms.";
     icon := "Globe";
     priority := "low" |}.

Definition default_insight : Insight :=
  {| insight_type := "recommendation";
     title := "Keep Growing";
     description := "Your analytics show steady progress. Consistency is key to long-term success.";
     action := "Continue creating quality content and engaging with your audience regularly.";
     icon := "TrendingUp";
     priority := "medium" |}.

(** What the block on the followers pushes. *)
Definition audience_part (overview : JsValue) : list Insight :=
  if truthy (opt_chain overview "totalFollowers")
  then [followers_insight (get_prop overview "totalFollowers")]
  else [].

(** What the block on spotify pushes; [None] when [toFixed] is not there. *)
Definition spotify_part (platformData : JsValue) : option (list Insight) :=
  if truthy (opt_chain platformData "spotify") then
    let spotify := get_prop platformData "spotify" in
    if greater_than (opt_length (get_prop spotify "topTracks")) 0 then
      let avgPopularity :=
        js_or (opt_chain (get_prop spotify "metrics") "avgPopularity") (JNumber 0 0) in
      if greater_than avgPopularity 60 then
        match toFixed avgPopularity with
        | Some text => Some [music_insight text]
        | None => None
        end
      else Some []
    else Some []
  else Some [].

Definition youtube_part (platformData : JsValue) : list Insight :=
  if truthy (opt_chain platformData "youtube") then
    if less_than (opt_chain (get_prop (get_prop platformData "youtube") "channel") "videoCount") 5
    then [youtube_insight]
    else []
  else [].

Definition presence_part (connectedPlatforms : JsValue) : list Insight :=
  if greater_than (js_length connectedPlatforms) 1
  then [presence_insight (js_length connectedPlatforms)]
  else [].

(** The insights of an analytics payload, in the order they are pushed. *)
Definition generateAIInsights (analyticsData : JsValue) : Outcome (list Insight) :=
  match analyticsData with
  | JNull | JUndefined =>
      Thrown {| message := "Cannot destructure property 'platformData' of 'analyticsData'" |}
  | _ =>
      let platformData := get_prop analyticsData "platformData" in
      let overview := get_prop analyticsData "overview" in
      let connectedPlatforms := get_prop analyticsData "connectedPlatforms" in
      if negb (truthy connectedPlatforms) || is_zero (js_length connectedPlatforms)
      then Returned [connect_insight]
      else
        match spotify_part platformData with
        | None => Thrown {| message := "avgPopularity.toFixed is not a function" |}
        | Some music =>
            let insights :=
              (audience_part overview ++ music ++ youtube_part platformData
                 ++ presence_part connectedPlatforms)%list in
            Returned (firstn 4 (match insights with
                                | [] => [default_insight]
                                | _ :: _ => insights
                                end))
        end
  end.

End Insights.

(** ** The two layers of CORS *)

(** [process.env.NODE_ENV === 'production']. *)
Definition production (NODE_ENV : option string) : bool :=
  match NODE_ENV with
  | Some mode => String.eqb mode "production"
  | None => false
  end.

Definition allowedOrigins (NODE_ENV : option string) : list string :=
  if production NODE_ENV
  then ["https://app.lucysounds.com"; "https://api.lucysounds.com";
        "https://lucysounds.com"; "https://www.lucysounds.com"]
  else ["http://localhost:3000"; "http://localhost:5173"].

(** [allowedOrigins.includes(origin)]. *)
Definition includes (l : list string) (origin : option string) : bool :=
  match origin with
  | Some o => existsb (String.eqb o) l
  | None => false
  end.

(** The [origin] function handed to [cors]: [None] is [callback(null,
    true)], and [Some text] is the error it hands on. *)
Definition cors_origin (NODE_ENV origin : option string) : option string :=
  match given origin with
  | None => None
  | Some _ =>
      if includes (allowedOrigins NODE_ENV) origin then None
      else Some "Not allowed by CORS"
  end.

(** How a middleware ends: with a status of its own, or with [next()]. *)
Inductive Step : Type :=
| SendStatus (status : Z)
| Next.

Definition cors_methods : string * string :=
  ("Access-Control-Allow-Methods", "GET, POST, PUT, DELETE, OPTIONS").
Definition cors_allow_headers : string * string :=
  ("Access-Control-Allow-Headers", "Content-Type, Authorization, X-User-ID").
Definition cors_credentials : string * string :=
  ("Access-Control-Allow-Credentials", "true").

Definition preflight (method : string) : Step :=
  if String.eqb method "OPTIONS" then SendStatus 204 else Next.

(** The second middleware of [backend-server.js]: the headers it sets, in
    order, and how it ends. *)
Definition cors_fallback (NODE_ENV : option string) (method : string) (origin : option string)
    : list (string * string) * Step :=
  ((match origin with
    | Some o =>
        if includes (allowedOrigins NODE_ENV) origin
        then [("Access-Control-Allow-Origin", o)]
        else []
    | None => []
    end ++ [cors_methods; cors_allow_headers; cors_credentials])%list,
   preflight method).

(** The same middleware in [backend-server.cjs]. *)
Definition cors_fallback_cjs (NODE_ENV : option string) (method : string) (origin : option string)
    : list (string * string) * Step :=
  (match given origin with
   | Some o =>
       if includes (allowedOrigins NODE_ENV) origin
       then [("Access-Control-Allow-Origin", o); cors_methods; cors_allow_headers;
             cors_credentials]
       else []
   | None => []
   end,
   preflight method).

(** ** The table after an upsert *)

(** What a healthy [upsert_token] makes of the table. *)
Definition upserted (row : TokenRow) (rows : list TokenRow) : list TokenRow :=
  if existsb (same_key row) rows
  then map (fun r => if same_key row r then row else r) rows
  else (rows ++ [row])%list.

(** The row a callback builds from the answer of a provider. *)
Definition token_row (platform : string) (userId data : JsValue) (expiresAt : option Z)
    (today : Z) : TokenRow :=
  {| user_id := userId;
     platform_id := platform;
     access_token := get_prop data "access_token";
     refresh_token := get_prop data "refresh_token";
     token_type := js_or (get_prop data "token_type") (JString "Bearer");
     expires_at := expiresAt;
     scope := get_prop data "scope";
     token_data := data;
     updated_at := today |}.

(** The expiry the callback writes for an answer whose [expires_in] is
    absent or a whole number of seconds, where the arithmetic of the
    engine is exact; [None] for the other answers, and for a date out of
    range. *)
Definition plain_expiry (expires_in : JsValue) (today : Z) : option (option Z) :=
  match expires_in with
  | JUndefined | JNull => Some None
  | JNumber seconds 0 =>
      if seconds =? 0 then Some None
      else if Z.abs (today + seconds * 1000) <=? 8640000000000000
           then Some (Some (today + seconds * 1000))
           else None
  | _ => None
  end.

(** ** The worlds a callback can leave *)

(** After the end of the [try] block: nothing, or the upsert, refused or
    carried out. *)
Definition after_store (w w' : World) : Prop :=
  w' = w
  \/ exists row,
       w' = log (EvUpsertToken row) w
       \/ w' = set_tokens (upserted row (oauth_tokens w)) (log (EvUpsertToken row) w).

(** After the exchange: nothing, or one request and what follows it. *)
Definition after_exchange (w w' : World) : Prop :=
  w' = w \/ exists r, after_store (log (EvHttp r) w) w'.

(** After the callback: nothing, or the select of the configuration and
    what follows it. *)
Definition after_callback (platform : string) (w w' : World) : Prop :=
  w' = w \/ after_exchange (log (EvSelectConfigs platform) w) w'.

(** ** What a request carries *)

(** The fields of a request, those of its body before those of its query. *)
Definition sent (r : Request) : list (string * JsValue) :=
  match body r with
  | NoBody => params r
  | FormBody fields | JsonBody fields => (fields ++ params r)%list
  end.

(** ** More sample data *)

Module Demo.

(** A platform that has a row of configuration and no case in the switch. *)
Definition soundcloud : ConfigRow :=
  {| cfg_platform_id := "soundcloud"; cfg_enabled := true;
     client_id := Some "client-9"; client_secret := Some "secret-9";
     redirect_uri := Some "https://api.lucysounds.com/api/auth/callback/soundcloud";
     scopes := JNull; api_endpoint := None |}.

Definition with_soundcloud : World :=
  {| platform_oauth_configs := [Sample.config; soundcloud]; platform_settings := [];
     oauth_tokens := []; trace := [] |}.

(** The state of [user-1], decoded. *)
Definition state_data (platformId : string) : JsValue :=
  JObject [("userId", JString "user-1"); ("platform", JString platformId)].

(** A provider that refuses every request. *)
Definition env_refused : Env :=
  {| FRONTEND_URL := None; now := 1700000000000;
     fault := fun _ => Healthy;
     provider := fun _ => HttpFail "Request failed with status code 400";
     syntax_error := unexpected_token |}.

(** A store that refuses the upsert. *)
Definition env_read_only : Env :=
  {| FRONTEND_URL := None; now := 1700000000000;
     fault := fun op => match op with
                        | UpsertToken => ReturnsError "permission denied for table oauth_tokens"
                        | _ => Healthy
                        end;
     provider := fun _ => HttpOk Sample.response;
     syntax_error := unexpected_token |}.

(** A store that refuses the deletes. *)
Definition env_no_delete : Env :=
  {| FRONTEND_URL := None; now := 1700000000000;
     fault := fun op => match op with
                        | DeleteToken => Rejects "fetch failed"
                        | _ => Healthy
                        end;
     provider := fun _ => HttpOk Sample.response;
     syntax_error := unexpected_token |}.

(** A token response that expires after an hour. *)
Definition response_hour : JsValue :=
  JObject [("access_token", JString "token-2"); ("token_type", JString "Bearer");
           ("expires_in", JNumber 3600 0)].

Definition env_hour : Env :=
  {| FRONTEND_URL := None; now := 1700000000000;
     fault := fun _ => Healthy;
     provider := fun _ => HttpOk response_hour;
     syntax_error := unexpected_token |}.

(** The same world, at another time. *)
Definition env_at (today : Z) : Env :=
  {| FRONTEND_URL := None; now := today;
     fault := fun _ => Healthy;
     provider := fun _ => HttpOk response_hour;
     syntax_error := unexpected_token |}.

(** Two rows of one key with the same time, and a row of another user. *)
Definition other_user : TokenRow :=
  {| user_id := JString "user-2"; platform_id := "spotify";
     access_token := JString "token-z"; refresh_token := JNull;
     token_type := JString "Bearer"; expires_at := None;
     scope := JNull; token_data := JNull; updated_at := 20 |}.

Definition tied : World :=
  {| platform_oauth_configs := []; platform_settings := [];
     oauth_tokens := [Sample.row "token-a" None 20; other_user; Sample.row "token-b" None 20];
     trace := [] |}.

(** Four rows of one key among those of another user. *)
Definition crowded : World :=
  {| platform_oauth_configs := []; platform_settings := [];
     oauth_tokens := [Sample.row "token-b" None 20; other_user; Sample.row "token-d" None 40;
                      Sample.row "token-a" None 10; Sample.row "token-c" None 30];
     trace := [] |}.

(** One row that expires at the clock of [Sample.env]. *)
Definition expiring_now : World :=
  {| platform_oauth_configs := []; platform_settings := [];
     oauth_tokens := [Sample.row "token-a" (Some 1700000000000) 10];
     trace := [] |}.

(** The primary table answers with an error, or rejects the call. *)
Definition env_config_error : Env :=
  {| FRONTEND_URL := None; now := 1700000000000;
     fault := fun op => match op with
                        | SelectConfigs => ReturnsError "relation does not exist"
                        | _ => Healthy
                        end;
     provider := fun _ => HttpOk Sample.response;
     syntax_error := unexpected_token |}.

Definition env_config_rejected : Env :=
  {| FRONTEND_URL := None; now := 1700000000000;
     fault := fun op => match op with
                        | SelectConfigs => Rejects "fetch failed"
                        | _ => Healthy
                        end;
     provider := fun _ => HttpOk Sample.response;
     syntax_error := unexpected_token |}.

(** Spotify configured, and [user-1] connected already. *)
Definition connected : World :=
  {| platform_oauth_configs := [Sample.config]; platform_settings := [];
     oauth_tokens := [Sample.row "token-a" None 10; other_user];
     trace := [] |}.

(** A provider of identities that knows one token. *)
Definition getUser (token : string) : AuthAnswer :=
  if String.eqb token "jwt-1"
  then AuthAnswered (JObject [("id", JString "user-1")]) false
  else AuthAnswered JNull true.

(** Two requests for the analytics of spotify, of two users. *)
Definition analytics_body (userId : string) : JsValue :=
  JObject [("userId", JString userId); ("timeRange", JString "30d");
           ("selectedProperties", JArray [])].

(** The comparisons and the formats of the engine, on the whole numbers
    below a thousand, which both formats print as they are. *)
Definition less_than (v : JsValue) (n : Z) : bool :=
  match v with JNumber m 0 => m <? n | _ => false end.
Definition greater_than (v : JsValue) (n : Z) : bool :=
  match v with JNumber m 0 => n <? m | _ => false end.
Definition toLocaleString (v : JsValue) : string := js_to_string v.
Definition toFixed (v : JsValue) : option string :=
  match v with JNumber _ _ => Some (js_to_string v) | _ => None end.

(** The analytics of an artist with two platforms and few followers. *)
Definition analytics : JsValue :=
  JObject [("connectedPlatforms", JArray [JString "spotify"; JString "youtube"]);
           ("overview", JObject [("totalFollowers", JNumber 500 0)]);
           ("platformData", JObject [])].

End Demo.

(* ===================================================================== *)
(** * Part II: properties                                                 *)
(* ===================================================================== *)

(** ** Strings and lists *)

Lemma string_ind3 (P : string -> Prop) :
  P EmptyString ->
  (forall a, P (String a EmptyString)) ->
  (forall a b, P (String a (String b EmptyString))) ->
  (forall a b c r, P r -> P (String a (String b (String c r)))) ->
  forall s, P s.
Proof.
  intros H0 H1 H2 H3.
  fix IH 1.
  intros [|a [|b [|c r]]].
  - exact H0.
  - apply H1.
  - apply H2.
  - apply H3, IH.
Qed.

Lemma app_assoc_string (a b c : string) : (a ++ b) ++ c = a ++ (b ++ c).
Proof. induction a as [|x a IH]; cbn; [reflexivity | now rewrite IH]. Qed.

Lemma filter_twice {A} (f g h : A -> bool) (l : list A) :
  (forall x, h x = g x && f x) -> filter f (filter g l) = filter h l.
Proof.
  intros H. induction l as [|x l IH]; [reflexivity|].
  cbn [filter]. rewrite H. destruct (g x); cbn [filter andb].
  - destruct (f x); now rewrite IH.
  - exact IH.
Qed.

Lemma filter_perm {A} (f : A -> bool) (l l' : list A) :
  Permutation l l' -> Permutation (filter f l) (filter f l').
Proof.
  induction 1 as [|x l l' _ IH|x y l|l l' l'' _ IH1 _ IH2]; cbn [filter].
  - constructor.
  - destruct (f x); [now constructor | exact IH].
  - destruct (f x), (f y); try reflexivity. apply perm_swap.
  - now rewrite IH1.
Qed.

Lemma filter_both_length {A} (f : A -> bool) (l : list A) :
  (length (filter f l) + length (filter (fun x => negb (f x)) l) = length l)%nat.
Proof.
  induction l as [|x l IH]; [reflexivity|].
  cbn [filter]. destruct (f x); cbn [negb length]; lia.
Qed.

Lemma strict_eq_string_spec (s : string) (v : JsValue) :
  strict_eq_string s v = true <-> v = JString s.
Proof.
  destruct v; cbn; split; try discriminate.
  - intros H. apply String.eqb_eq in H. now subst.
  - intros H. injection H as ->. apply String.eqb_refl.
Qed.

(** ** Base64 *)

Lemma sextets_enc (url b5 b4 b3 b2 b1 b0 : bool) (rest : string) :
  Base64.sextets (String (Base64.enc url b5 b4 b3 b2 b1 b0) rest)
  = Ascii b0 b1 b2 b3 b4 b5 false false :: Base64.sextets rest.
Proof.
  destruct url, b5, b4, b3, b2, b1, b0; reflexivity.
Qed.

Lemma sextets_pad (url : bool) (n : nat) : Base64.sextets (Base64.pad url n) = [].
Proof. destruct url; [reflexivity | destruct n as [|[|[|n]]]; reflexivity]. Qed.

(** Decoding gives back the bytes that were encoded, in either alphabet. *)
Lemma base64_decode_encode_as (url : bool) (s : string) :
  Base64.decode (Base64.encode_as url s) = s.
Proof.
  unfold Base64.decode.
  induction s as [| a | a b | a b c r IH] using string_ind3.
  - reflexivity.
  - destruct a as [a0 a1 a2 a3 a4 a5 a6 a7].
    cbn [Base64.encode_as]. rewrite !sextets_enc, sextets_pad. reflexivity.
  - destruct a as [a0 a1 a2 a3 a4 a5 a6 a7], b as [b0 b1 b2 b3 b4 b5 b6 b7].
    cbn [Base64.encode_as]. rewrite !sextets_enc, sextets_pad. reflexivity.
  - destruct a as [a0 a1 a2 a3 a4 a5 a6 a7], b as [b0 b1 b2 b3 b4 b5 b6 b7],
             c as [c0 c1 c2 c3 c4 c5 c6 c7].
    cbn [Base64.encode_as]. rewrite !sextets_enc.
    cbn [Base64.bytes]. now rewrite IH.
Qed.

Lemma base64_decode_encode (s : string) : Base64.decode (Base64.encode s) = s.
Proof. apply base64_decode_encode_as. Qed.

(** ** JSON *)

(** An escaped character is read back as the character. *)
Lemma string_units_escape_char (c : ascii) (tail : string) us r :
  Json.string_units tail = Some (us, r) ->
  exists us', Json.string_units (Json.escape_char c ++ tail) = Some (us', r)
              /\ Json.units_string us' = String c (Json.units_string us).
Proof.
  intros H.
  destruct c as [b0 b1 b2 b3 b4 b5 b6 b7].
  destruct b0, b1, b2, b3, b4, b5, b6, b7;
    (set (e := Json.escape_char _); vm_compute in e; subst e);
    cbn [append Json.string_units]; cbn -[Json.string_units Json.units_string];
    rewrite H; eexists; (split; [reflexivity|]);
    try reflexivity; destruct us as [|[|]]; reflexivity.
Qed.

Lemma string_units_escape (s rest : string) :
  exists us, Json.string_units (Json.escape s ++ String dquote rest) = Some (us, rest)
             /\ Json.units_string us = s.
Proof.
  induction s as [|c s [us [IH1 IH2]]].
  - exists []. split; reflexivity.
  - cbn [Json.escape].
    destruct (string_units_escape_char c _ _ _ IH1) as [us' [H1 H2]].
    exists us'. split.
    + rewrite <- H1. f_equal. now rewrite app_assoc_string.
    + now rewrite H2, IH2.
Qed.

Lemma parse_string_escape (s rest : string) :
  Json.parse_string (Json.escape s ++ String dquote rest) = Some (s, rest).
Proof.
  unfold Json.parse_string.
  destruct (string_units_escape s rest) as [us [H1 H2]].
  now rewrite H1, H2.
Qed.

Lemma quote_cons (s : string) (rest : string) :
  Json.quote s ++ rest = String dquote (Json.escape s ++ String dquote rest).
Proof. unfold Json.quote. cbn [append]. now rewrite app_assoc_string. Qed.

Lemma value_quote (fuel : nat) (s rest : string) :
  Json.value (S fuel) (Json.quote s ++ rest) = Some (JString s, rest).
Proof.
  rewrite quote_cons.
  change (Json.value (S fuel) (String dquote ?x))
    with (match Json.parse_string x with
          | Some (y, r1) => Some (JString y, r1)
          | None => None
          end).
  now rewrite parse_string_escape.
Qed.

Lemma member_quote (fuel : nat) (k s rest : string) :
  Json.member (Json.value (S fuel)) (Json.quote k ++ ":" ++ Json.quote s ++ rest)
  = Some (k, JString s, rest).
Proof.
  rewrite quote_cons.
  change (Json.member ?v (String dquote ?x))
    with (match Json.parse_string x with
          | Some (key, r1) =>
              match Json.skip_ws r1 with
              | String ":" r2 =>
                  match v r2 with
                  | Some (y, r3) => Some (key, y, r3)
                  | None => None
                  end
              | _ => None
              end
          | None => None
          end).
  rewrite parse_string_escape.
  change (Json.skip_ws (":" ++ ?x)) with (String ":" x).
  cbv beta iota. now rewrite value_quote.
Qed.

Lemma value_object (fuel : nat) (rest : string) :
  Json.value (S fuel) (String "{" (String dquote rest))
  = match Json.member (Json.value fuel) (String dquote rest) with
    | Some (k, v, r1) =>
        match Json.members (Json.value fuel) fuel r1 with
        | Some (kvs, r2) => Some (JObject ((k, v) :: kvs), r2)
        | None => None
        end
    | None => None
    end.
Proof. reflexivity. Qed.

Lemma members_next (value : string -> option (JsValue * string)) (n : nat) (rest : string) :
  Json.members value (S n) (String "," rest)
  = match Json.member value rest with
    | Some (k, v, r1) =>
        match Json.members value n r1 with
        | Some (kvs, r2) => Some ((k, v) :: kvs, r2)
        | None => None
        end
    | None => None
    end.
Proof. reflexivity. Qed.

Lemma members_end (value : string -> option (JsValue * string)) (n : nat) (rest : string) :
  Json.members value (S n) (String "}" rest) = Some ([], rest).
Proof. reflexivity. Qed.

Lemma value_stringify_pair (m : nat) (k1 v1 k2 v2 : string) :
  Json.value (S (S (S m))) (stringify_pair k1 v1 k2 v2)
  = Some (JObject [(k1, JString v1); (k2, JString v2)], EmptyString).
Proof.
  unfold stringify_pair.
  change ("{" ++ ?x) with (String "{" x).
  rewrite (quote_cons k1), value_object, <- (quote_cons k1).
  rewrite member_quote.
  change ("," ++ ?x) with (String "," x).
  rewrite members_next, member_quote, members_end.
  reflexivity.
Qed.

(** Parsing gives back the object that was serialised. *)
Lemma parse_stringify_pair (k1 v1 k2 v2 : string) :
  Json.parse (stringify_pair k1 v1 k2 v2)
  = Some (JObject [(k1, JString v1); (k2, JString v2)]).
Proof.
  unfold Json.parse.
  assert (H : exists m, String.length (stringify_pair k1 v1 k2 v2) = S (S m)).
  { unfold stringify_pair. change ("{" ++ ?x) with (String "{" x).
    rewrite (quote_cons k1). cbn [String.length]. eauto. }
  destruct H as [m ->].
  now rewrite value_stringify_pair.
Qed.

(** ** The state parameter *)

(** C2. Decoding the encoding of a user and a platform, the way the callback
    decodes its state (Base64, then JSON), gives back the object of the two,
    and the callback destructures from it exactly that user and that
    platform; the platform it reads passes the comparison with the same
    platform in the path. This holds for every user id and every platform
    id, the supported ones among them, and for both Base64 alphabets. *)
Theorem state_round_trip (url : bool) (userId platformId : string) :
  decode_state (encode_state_as url userId platformId)
  = Some (JObject [("userId", JString userId); ("platform", JString platformId)])
  /\ (forall env w,
        destructure_state
          (JObject [("userId", JString userId); ("platform", JString platformId)]) env w
        = (Returned (JString userId, JString platformId), w))
  /\ strict_eq_string platformId
       (get_prop (JObject [("userId", JString userId); ("platform", JString platformId)])
                 "platform") = true.
Proof.
  split; [|split].
  - unfold decode_state, encode_state_as.
    now rewrite base64_decode_encode_as, parse_stringify_pair.
  - reflexivity.
  - apply strict_eq_string_spec. reflexivity.
Qed.

(** The names of the fields matter: a state that carried the platform under
    [platformId] would decode, and the callback would read no platform from
    it. *)
Remark state_under_other_name (userId platformId : string) :
  decode_state (Base64.encode (stringify_pair "userId" userId "platformId" platformId))
  = Some (JObject [("userId", JString userId); ("platformId", JString platformId)])
  /\ get_prop (JObject [("userId", JString userId); ("platformId", JString platformId)])
              "platform" = JUndefined.
Proof.
  split; [|reflexivity].
  unfold decode_state. now rewrite base64_decode_encode, parse_stringify_pair.
Qed.

(** ** Rules for the calls and the results of a computation *)

Section Calls.
Variable env : Env.
Variable Q : Event -> Prop.

Lemma calls_ret {A} (a : A) : calls_only env Q (ret a).
Proof. intros w. exists []. split; [reflexivity | constructor]. Qed.

Lemma calls_throw {A} (m : string) : calls_only env Q (@throw A m).
Proof. intros w. exists []. split; [reflexivity | constructor]. Qed.

Lemma calls_Date_now : calls_only env Q Date_now.
Proof. intros w. exists []. split; [reflexivity | constructor]. Qed.

Lemma calls_redirect (platform query : string) : calls_only env Q (redirect platform query).
Proof. intros w. exists []. split; [reflexivity | constructor]. Qed.

Lemma calls_throw_syntax_error {A} (text : string) :
  calls_only env Q (@throw_syntax_error A text).
Proof. intros w. exists []. split; [reflexivity | constructor]. Qed.

Lemma calls_log_line (v : JsValue) : calls_only env Q (log_line v).
Proof. unfold log_line. destruct (template v); [apply calls_ret | apply calls_throw]. Qed.

Lemma calls_error_redirect (platform text : string) :
  calls_only env Q (error_redirect platform text).
Proof.
  unfold error_redirect.
  destruct (Uri.encodeURIComponent text); [apply calls_redirect | apply calls_throw].
Qed.

Lemma calls_bind_with {A B} (R : A -> Prop) (c : M A) (k : A -> M B) :
  returns_only env R c -> calls_only env Q c ->
  (forall a, R a -> calls_only env Q (k a)) -> calls_only env Q (bind c k).
Proof.
  intros Hr Hc Hk w. unfold bind.
  destruct (Hc w) as [n1 [E1 F1]].
  destruct (c env w) as [[a|e] w1] eqn:E; cbn [snd] in *.
  - destruct (Hk a (Hr _ _ _ E) w1) as [n2 [E2 F2]].
    exists (n2 ++ n1)%list. split.
    + now rewrite E2, E1, app_assoc.
    + apply Forall_app; now split.
  - exists n1. now split.
Qed.

Lemma calls_bind {A B} (c : M A) (k : A -> M B) :
  calls_only env Q c -> (forall a, calls_only env Q (k a)) -> calls_only env Q (bind c k).
Proof.
  intros Hc Hk. apply (calls_bind_with (fun _ => True)); auto.
  intros w a w' _. exact I.
Qed.

Lemma calls_try_catch {A} (c : M A) (h : Exn -> M A) :
  calls_only env Q c -> (forall e, calls_only env Q (h e)) -> calls_only env Q (try_catch c h).
Proof.
  intros Hc Hh w. unfold try_catch.
  destruct (Hc w) as [n1 [E1 F1]].
  destruct (c env w) as [[a|e] w1]; cbn [snd] in *.
  - exists n1. now split.
  - destruct (Hh e w1) as [n2 [E2 F2]].
    exists (n2 ++ n1)%list. split.
    + now rewrite E2, E1, app_assoc.
    + apply Forall_app; now split.
Qed.

Lemma calls_for_each {A} (l : list A) (f : A -> M unit) :
  (forall x, calls_only env Q (f x)) -> calls_only env Q (for_each l f).
Proof.
  intros Hf. induction l as [|x l IH]; cbn [for_each].
  - apply calls_ret.
  - apply calls_bind; auto.
Qed.

Lemma calls_one {A} (c : M A) (e : Event) :
  Q e -> (forall w, trace (snd (c env w)) = e :: trace w) -> calls_only env Q c.
Proof.
  intros He Hc w. exists [e]. split; [apply Hc | now constructor].
Qed.

Lemma calls_select_tokens u p : Q (EvSelectTokens u p) -> calls_only env Q (select_tokens u p).
Proof.
  intros H. apply (calls_one _ _ H). intros w. unfold select_tokens.
  now destruct (fault env SelectTokens).
Qed.

Lemma calls_delete_token u p t : Q (EvDeleteToken u p t) -> calls_only env Q (delete_token u p t).
Proof.
  intros H. apply (calls_one _ _ H). intros w. unfold delete_token.
  now destruct (fault env DeleteToken).
Qed.

Lemma calls_upsert_token row : Q (EvUpsertToken row) -> calls_only env Q (upsert_token row).
Proof.
  intros H. apply (calls_one _ _ H). intros w. unfold upsert_token.
  now destruct (fault env UpsertToken).
Qed.

Lemma calls_select_config p : Q (EvSelectConfigs p) -> calls_only env Q (select_config p).
Proof.
  intros H. apply (calls_one _ _ H). intros w. unfold select_config.
  now destruct (fault env SelectConfigs).
Qed.

Lemma calls_select_settings p : Q (EvSelectSettings p) -> calls_only env Q (select_settings p).
Proof.
  intros H. apply (calls_one _ _ H). intros w. unfold select_settings.
  now destruct (fault env SelectSettings).
Qed.

Lemma calls_axios r : Q (EvHttp r) -> calls_only env Q (axios r).
Proof.
  intros H. apply (calls_one _ _ H). intros w. unfold axios.
  now destruct (provider env r).
Qed.

Lemma calls_read_prop v k : calls_only env Q (read_prop v k).
Proof. destruct v; cbn [read_prop]; (apply calls_ret || apply calls_throw). Qed.

Lemma calls_destructure_state v : calls_only env Q (destructure_state v).
Proof. destruct v; cbn [destructure_state]; (apply calls_ret || apply calls_throw). Qed.

Lemma calls_expiry_of v : calls_only env Q (expiry_of v).
Proof.
  unfold expiry_of. destruct (truthy v); [|apply calls_ret].
  apply calls_bind; [apply calls_Date_now|]. intros today.
  destruct (to_number v) as [[m e]|]; [|apply calls_throw].
  destruct (_ <=? _); [apply calls_ret | apply calls_throw].
Qed.
End Calls.

Section Returns.
Variable env : Env.

Lemma returns_bind {A B} (P : B -> Prop) (c : M A) (k : A -> M B) :
  (forall a, returns_only env P (k a)) -> returns_only env P (bind c k).
Proof.
  intros Hk w b w'. unfold bind.
  destruct (c env w) as [[a|e] w1]; [apply Hk | discriminate].
Qed.

Lemma returns_throw {A} (P : A -> Prop) (m : string) : returns_only env P (throw m).
Proof. intros w a w'. discriminate. Qed.

Lemma returns_throw_syntax_error {A} (P : A -> Prop) (text : string) :
  returns_only env P (throw_syntax_error text).
Proof. intros w a w'. discriminate. Qed.

Lemma returns_ret {A} (P : A -> Prop) (a : A) : P a -> returns_only env P (ret a).
Proof. intros H w b w' E. injection E as <- _. exact H. Qed.

Lemma returns_read_prop (v : JsValue) (k : string) :
  returns_only env (fun x => x = get_prop v k) (read_prop v k).
Proof.
  intros w a w'. destruct v; cbn; intros E; try discriminate; now injection E as <- _.
Qed.

Lemma returns_expiry_of (v : JsValue) :
  returns_only env (fun e => truthy v = false -> e = None) (expiry_of v).
Proof.
  intros w a w'. unfold expiry_of.
  destruct (truthy v).
  - intros _ H. discriminate.
  - intros E _. now injection E as <- _.
Qed.

Lemma returns_axios (R : JsValue -> Prop) (r : Request) :
  (forall data, provider env r = HttpOk data -> R data) -> returns_only env R (axios r).
Proof.
  intros H w a w'. unfold axios.
  destruct (provider env r) as [data|m] eqn:E; [|discriminate].
  intros E'. injection E' as <- _. now apply H.
Qed.

Lemma returns_exchange_code (R : JsValue -> Prop) platform code config :
  (forall r data, provider env r = HttpOk data -> R data) ->
  returns_only env R (exchange_code platform code config).
Proof.
  intros H. unfold exchange_code.
  repeat match goal with
         | |- context [if ?b then _ else _] => destruct b
         end;
    try apply returns_throw; apply returns_axios; apply H.
Qed.
End Returns.

Lemma calls_exchange_code env (Q : Event -> Prop) platform code config :
  (forall r, Q (EvHttp r)) -> calls_only env Q (exchange_code platform code config).
Proof.
  intros H. unfold exchange_code.
  repeat match goal with
         | |- context [if ?b then _ else _] => destruct b
         end;
    try apply calls_throw; apply calls_axios; apply H.
Qed.
(** ** The callback: the checks on the state *)

Lemma given_decodes (state : string) (v : JsValue) :
  decode_state state = Some v -> given (Some state) = Some state.
Proof. destruct state; [discriminate | reflexivity]. Qed.

(** The [try] block throws at a state of another platform, before any call. *)
Lemma callback_try_mismatch (platform code state : string) (stateData : JsValue) env w :
  decode_state state = Some stateData ->
  get_prop stateData "platform" <> JString platform ->
  exists e, callback_try platform code state env w = (Thrown e, w)
            /\ Uri.lone_surrogate (message e) = false.
Proof.
  intros Hd Hp. unfold callback_try. rewrite Hd.
  assert (Hs : strict_eq_string platform (get_prop stateData "platform") = false).
  { destruct (strict_eq_string _ _) eqn:E; [|reflexivity].
    apply strict_eq_string_spec in E. contradiction. }
  destruct stateData; unfold bind; cbn [destructure_state throw ret];
    try (eexists; split; reflexivity); rewrite Hs; cbn; eexists; split; reflexivity.
Qed.

Lemma callback_mismatch (platform : string) (q : Query) env w
    (state : string) (stateData : JsValue) :
  q_state q = Some state ->
  decode_state state = Some stateData ->
  get_prop stateData "platform" <> JString platform ->
  exists msg,
    oauth_callback platform q env w
    = (Returned (Redirect (callback_url env platform ++ "?error=" ++ msg)), w).
Proof.
  intros Hq Hd Hp. unfold oauth_callback.
  destruct (given (q_error q)) as [err|]; [eexists; reflexivity|].
  rewrite Hq, (given_decodes _ _ Hd).
  destruct (given (q_code q)) as [code|].
  - unfold try_catch.
    destruct (callback_try_mismatch platform code state stateData env w Hd Hp) as [e [-> He]].
    unfold error_redirect, Uri.encodeURIComponent. rewrite He.
    eexists; reflexivity.
  - exists "missing_parameters". reflexivity.
Qed.

(** C1. A callback whose decoded state names another platform than the path
    ends in an error redirect and leaves the world as it found it: no call
    was made (no code exchange among them) and no row of [oauth_tokens] was
    written. *)
Theorem platform_mismatch_halts (platform : string) (q : Query) (env : Env) (w : World)
    (state : string) (stateData : JsValue) (statePlatform : string) :
  q_state q = Some state ->
  decode_state state = Some stateData ->
  get_prop stateData "platform" = JString statePlatform ->
  statePlatform <> platform ->
  (exists msg,
      fst (oauth_callback platform q env w)
      = Returned (Redirect (callback_url env platform ++ "?error=" ++ msg)))
  /\ snd (oauth_callback platform q env w) = w
  /\ filter is_http (trace (snd (oauth_callback platform q env w))) = filter is_http (trace w)
  /\ filter is_upsert (trace (snd (oauth_callback platform q env w))) = filter is_upsert (trace w)
  /\ oauth_tokens (snd (oauth_callback platform q env w)) = oauth_tokens w.
Proof.
  intros Hq Hd Hp Hne.
  destruct (callback_mismatch platform q env w state stateData Hq Hd) as [msg E].
  { rewrite Hp. intros H. injection H as H. contradiction. }
  rewrite E. cbn [fst snd]. repeat split. now exists msg.
Qed.

Lemma platform_mismatch_halts_witness :
  (exists msg,
      fst (oauth_callback "spotify" (Sample.query "youtube") Sample.env Sample.configured)
      = Returned (Redirect (callback_url Sample.env "spotify" ++ "?error=" ++ msg)))
  /\ snd (oauth_callback "spotify" (Sample.query "youtube") Sample.env Sample.configured)
     = Sample.configured
  /\ filter is_http (trace (snd (oauth_callback "spotify" (Sample.query "youtube")
                                   Sample.env Sample.configured)))
     = filter is_http (trace Sample.configured)
  /\ filter is_upsert (trace (snd (oauth_callback "spotify" (Sample.query "youtube")
                                     Sample.env Sample.configured)))
     = filter is_upsert (trace Sample.configured)
  /\ oauth_tokens (snd (oauth_callback "spotify" (Sample.query "youtube")
                          Sample.env Sample.configured))
     = oauth_tokens Sample.configured.
Proof.
  apply (platform_mismatch_halts "spotify" (Sample.query "youtube") Sample.env
           Sample.configured (encode_state "user-1" "youtube")
           (JObject [("userId", JString "user-1"); ("platform", JString "youtube")])
           "youtube").
  - reflexivity.
  - vm_compute. reflexivity.
  - reflexivity.
  - discriminate.
Defined.
(** ** The callback: its calls and its answers *)

(** The calls of the end of the [try] block: one upsert. *)
Lemma calls_store_tokens env (Q : Event -> Prop) (platform : string) (userId tokenData : JsValue) :
  (forall expiresAt today,
      (truthy (get_prop tokenData "expires_in") = false -> expiresAt = None) ->
      Q (EvUpsertToken
           {| user_id := userId;
              platform_id := platform;
              access_token := get_prop tokenData "access_token";
              refresh_token := get_prop tokenData "refresh_token";
              token_type := js_or (get_prop tokenData "token_type") (JString "Bearer");
              expires_at := expiresAt;
              scope := get_prop tokenData "scope";
              token_data := tokenData;
              updated_at := today |})) ->
  calls_only env Q (store_tokens platform userId tokenData).
Proof.
  intros Hup. unfold store_tokens.
  apply (calls_bind_with env Q _ _ _ (returns_read_prop env tokenData "expires_in"));
    [apply calls_read_prop|]. intros expires_in ->.
  apply (calls_bind_with env Q _ _ _ (returns_expiry_of env _));
    [apply calls_expiry_of|]. intros expiresAt He.
  apply calls_bind; [apply calls_Date_now|]. intros today.
  apply calls_bind; [apply calls_upsert_token; now apply Hup|].
  intros [m|]; [apply calls_throw | apply calls_redirect].
Qed.

(** The calls of the [try] block: one select of the configuration, the
    exchange, the upsert. *)
Lemma calls_callback_try env (Q : Event -> Prop) (R : JsValue -> Prop)
    (platform code state : string) :
  Q (EvSelectConfigs platform) ->
  (forall config, calls_only env Q (exchange_code platform code config)) ->
  (forall config, returns_only env R (exchange_code platform code config)) ->
  (forall userId tokenData, R tokenData ->
      calls_only env Q (store_tokens platform userId tokenData)) ->
  calls_only env Q (callback_try platform code state).
Proof.
  intros Hcfg Hex Hret Hst. unfold callback_try.
  destruct (decode_state state) as [stateData|]; [|apply calls_throw_syntax_error].
  apply calls_bind; [apply calls_destructure_state|]. intros [userId statePlatform].
  destruct (negb _); [apply calls_throw|].
  apply calls_bind; [apply calls_log_line|]. intros _.
  apply calls_bind; [now apply calls_select_config|]. intros [config|]; [|apply calls_throw].
  apply (calls_bind_with env Q R); [apply Hret | apply Hex |]. intros tokenData HR.
  now apply Hst.
Qed.

Lemma calls_oauth_callback env (Q : Event -> Prop) (platform : string) (q : Query) :
  (forall code state, given (q_code q) = Some code ->
      calls_only env Q (callback_try platform code state)) ->
  calls_only env Q (oauth_callback platform q).
Proof.
  intros H. unfold oauth_callback.
  destruct (given (q_error q)); [apply calls_redirect|].
  destruct (given (q_code q)) as [code|], (given (q_state q)) as [state|];
    try apply calls_redirect.
  apply calls_try_catch; [now apply H|]. intros e. apply calls_error_redirect.
Qed.

(** When the [try] block returns, it is with the redirect of success. *)
Lemma returns_callback_try env (platform code state : string) :
  returns_only env
    (fun r => r = Redirect (callback_url env platform ++ "?connected=" ++ platform ++ "&success=true"))
    (callback_try platform code state).
Proof.
  unfold callback_try.
  destruct (decode_state state) as [stateData|]; [|apply returns_throw_syntax_error].
  apply returns_bind. intros [userId statePlatform].
  destruct (negb _); [apply returns_throw|].
  apply returns_bind. intros _.
  apply returns_bind. intros [config|]; [|apply returns_throw].
  apply returns_bind. intros tokenData. unfold store_tokens.
  apply returns_bind. intros expires_in.
  apply returns_bind. intros expiresAt.
  apply returns_bind. intros today.
  apply returns_bind. intros [m|]; [apply returns_throw|].
  intros w r w' E. now injection E as <- _.
Qed.

(** Whatever the request and whatever the store and the provider do, a
    callback that answers does so with a redirect to the front-end
    callback address of the platform, carrying either [success=true] or an
    [error] parameter, never with a JSON body. It answers unless the
    message of the error it caught has a lone surrogate: then the handler
    of the error throws in its turn. *)
Lemma callback_redirects_or_throws (platform : string) (q : Query) (env : Env) (w : World) :
  (exists query,
      fst (oauth_callback platform q env w)
      = Returned (Redirect (callback_url env platform ++ query))
      /\ (query = "?connected=" ++ platform ++ "&success=true"
          \/ exists msg, query = "?error=" ++ msg))
  \/ fst (oauth_callback platform q env w) = Thrown {| message := "URI malformed" |}.
Proof.
  unfold oauth_callback.
  destruct (given (q_error q)) as [err|].
  { left. eexists. split; [reflexivity|]. right. eexists. reflexivity. }
  destruct (given (q_code q)) as [code|], (given (q_state q)) as [state|];
    try (left; exists "?error=missing_parameters"; split;
         [reflexivity | right; exists "missing_parameters"; reflexivity]).
  unfold try_catch.
  destruct (callback_try platform code state env w) as [[r|e] w'] eqn:E.
  - apply returns_callback_try in E. subst r.
    left. eexists. split; [reflexivity|]. now left.
  - unfold error_redirect. destruct (Uri.encodeURIComponent (message e)) as [text|].
    + left. eexists. split; [reflexivity|]. right. eexists. reflexivity.
    + right. reflexivity.
Qed.

(** C9. The handler of the errors of the callback can throw itself. For
    the state [8J+YgA==], the Base64 of a character outside the basic
    plane, [JSON.parse] fails with a message that quotes the first code
    unit of the text, a lone surrogate; [encodeURIComponent] throws a
    [URIError] on it inside the [catch] block, so that the error leaves
    the handler and no redirect is sent. *)
Theorem callback_error_handler_throws :
  fst (oauth_callback "spotify"
         {| q_code := Some "code-1"; q_state := Some "8J+YgA=="; q_error := None |}
         Sample.env Sample.configured)
  = Thrown {| message := "URI malformed" |}
  /\ forall location,
       fst (oauth_callback "spotify"
              {| q_code := Some "code-1"; q_state := Some "8J+YgA=="; q_error := None |}
              Sample.env Sample.configured)
       <> Returned (Redirect location).
Proof.
  assert (E : fst (oauth_callback "spotify"
                     {| q_code := Some "code-1"; q_state := Some "8J+YgA=="; q_error := None |}
                     Sample.env Sample.configured)
              = Thrown {| message := "URI malformed" |}) by (vm_compute; reflexivity).
  split; [exact E|]. intros location. rewrite E. discriminate.
Qed.

(** ** The callback: the configuration *)

(** Past the checks on the state, the callback is the select of the
    configuration and what follows it. *)
Lemma callback_valid_state (platform : string) (q : Query) env w
    (code state : string) (stateData : JsValue) :
  given (q_error q) = None ->
  given (q_code q) = Some code ->
  q_state q = Some state ->
  decode_state state = Some stateData ->
  get_prop stateData "platform" = JString platform ->
  template (get_prop stateData "userId") <> None ->
  oauth_callback platform q env w
  = try_catch
      (platformConfig <- select_config platform ;;
       match platformConfig with
       | None => throw ("Platform " ++ platform ++ " not configured or not enabled")
       | Some config =>
           tokenData <- exchange_code platform code config ;;
           store_tokens platform (get_prop stateData "userId") tokenData
       end)
      (fun error => error_redirect platform (message error))
      env w.
Proof.
  intros He Hc Hs Hd Hp Ht. unfold oauth_callback.
  rewrite He, Hc, Hs, (given_decodes _ _ Hd).
  unfold try_catch, callback_try. rewrite Hd.
  destruct stateData; try discriminate.
  unfold bind at 1. cbn [destructure_state ret]. rewrite Hp.
  cbn [strict_eq_string]. rewrite String.eqb_refl. cbn [negb].
  unfold bind at 1. unfold log_line.
  destruct (template (get_prop (JObject fields) "userId")); [reflexivity | contradiction].
Qed.

(** The counterexample to C6: spotify has an enabled row in the older table
    and none in the primary one; the callback does not look at the older
    table, exchanges no code and reports the platform as not configured,
    while [getPlatformConfig] finds the row. *)
Lemma legacy_config_not_used :
  single (filter (fun r => String.eqb "spotify" (cfg_platform_id r) && cfg_enabled r)
                 (platform_oauth_configs Sample.legacy)) = None
  /\ single (filter (fun r => String.eqb "spotify" (old_platform_id r) && old_enabled r)
                    (platform_settings Sample.legacy)) = Some Sample.settings
  /\ (exists c, fst (getPlatformConfig "spotify" Sample.env Sample.legacy) = Returned (Some c))
  /\ oauth_callback "spotify" (Sample.query "spotify") Sample.env Sample.legacy
     = (Returned (Redirect "http://localhost:3000/auth/callback/spotify?error=Platform%20spotify%20not%20configured%20or%20not%20enabled"),
        log (EvSelectConfigs "spotify") Sample.legacy)
  /\ filter is_http
        (trace (snd (oauth_callback "spotify" (Sample.query "spotify") Sample.env Sample.legacy)))
     = [].
Proof.
  split; [reflexivity|]. split; [reflexivity|].
  split; [eexists; vm_compute; reflexivity|].
  split; vm_compute; reflexivity.
Qed.

(** C6, amended. The callback reads the configuration from the primary
    table alone: when that table has no single enabled row for the platform,
    a callback that comes to the configuration (its state names the
    platform of the path, and a user that the line of the log can write
    out) ends in the not-configured redirect after that one select,
    whatever the older table holds; and no callback ever selects from the
    older table. *)
Theorem callback_reads_primary_table_only (platform : string) (q : Query) (env : Env) (w : World)
    (code state : string) (stateData : JsValue) (user text : string) :
  given (q_error q) = None ->
  given (q_code q) = Some code ->
  q_state q = Some state ->
  decode_state state = Some stateData ->
  get_prop stateData "platform" = JString platform ->
  template (get_prop stateData "userId") = Some user ->
  Uri.encodeURIComponent ("Platform " ++ platform ++ " not configured or not enabled")
  = Some text ->
  fault env SelectConfigs = Healthy ->
  single (filter (fun r => String.eqb platform (cfg_platform_id r) && cfg_enabled r)
                 (platform_oauth_configs w)) = None ->
  oauth_callback platform q env w
  = (Returned (Redirect (callback_url env platform ++ "?error=" ++ text)),
     log (EvSelectConfigs platform) w)
  /\ (forall q' w',
        exists new,
          trace (snd (oauth_callback platform q' env w')) = (new ++ trace w')%list
          /\ Forall (fun e => is_select_settings e = false) new).
Proof.
  intros He Hc Hs Hd Hp Hu Ht Hf Hn. split.
  - rewrite (callback_valid_state platform q env w code state stateData He Hc Hs Hd Hp)
      by (rewrite Hu; discriminate).
    unfold try_catch, bind, select_config. rewrite Hf, Hn.
    cbn [throw message]. unfold error_redirect. rewrite Ht. reflexivity.
  - intros q' w'. apply calls_oauth_callback. intros code' state' _.
    apply (calls_callback_try env _ (fun _ => True)).
    + reflexivity.
    + intros config. apply calls_exchange_code. reflexivity.
    + intros config w0 a w1 _. exact I.
    + intros userId tokenData _. apply calls_store_tokens. reflexivity.
Qed.

Lemma callback_reads_primary_table_only_witness :
  oauth_callback "spotify" (Sample.query "spotify") Sample.env Sample.legacy
  = (Returned (Redirect (callback_url Sample.env "spotify" ++ "?error="
                 ++ "Platform%20spotify%20not%20configured%20or%20not%20enabled")),
     log (EvSelectConfigs "spotify") Sample.legacy)
  /\ (forall q' w',
        exists new,
          trace (snd (oauth_callback "spotify" q' Sample.env w')) = (new ++ trace w')%list
          /\ Forall (fun e => is_select_settings e = false) new).
Proof.
  apply (callback_reads_primary_table_only "spotify" (Sample.query "spotify") Sample.env
           Sample.legacy "code-1" (encode_state "user-1" "spotify")
           (JObject [("userId", JString "user-1"); ("platform", JString "spotify")])
           "user-1" "Platform%20spotify%20not%20configured%20or%20not%20enabled").
  - reflexivity.
  - reflexivity.
  - reflexivity.
  - vm_compute. reflexivity.
  - reflexivity.
  - reflexivity.
  - reflexivity.
  - reflexivity.
  - reflexivity.
Defined.

(** ** The callback: the exchange *)

Lemma exchange_code_supported (platform code : string) (config : ConfigRow) :
  In platform supported_platforms ->
  exists r, exchange_code platform code config = axios r.
Proof.
  intros H. repeat (destruct H as [<-|H]; [eexists; reflexivity|]). destruct H.
Qed.

(** The counterexample to C7: the request of the spotify exchange carries
    the client secret in its body and has no Authorization header. *)
Lemma spotify_request_has_no_basic_header :
  In (EvHttp (spotify_request "code-1" Sample.config))
     (trace (snd (oauth_callback "spotify" (Sample.query "spotify") Sample.env Sample.configured)))
  /\ assoc "Authorization" (headers (spotify_request "code-1" Sample.config))
     <> Some ("Basic " ++ Base64.encode ("client-1" ++ ":" ++ "secret-1"))
  /\ body (spotify_request "code-1" Sample.config)
     = FormBody [("grant_type", JString "authorization_code");
                 ("code", JString "code-1");
                 ("redirect_uri", JString "https://api.lucysounds.com/api/auth/callback/spotify");
                 ("client_id", JString "client-1");
                 ("client_secret", JString "secret-1")].
Proof.
  split; [vm_compute; auto|]. split; [discriminate | reflexivity].
Qed.

(** C7, amended. Every request a spotify callback sends to a provider is a
    POST to the token endpoint of spotify with a form-encoded body of
    [grant_type=authorization_code], [code], [redirect_uri], [client_id]
    and [client_secret]: the client authenticates in the body, and the only
    header is the content type (there is no Authorization header). *)
Theorem spotify_exchange_request (q : Query) (env : Env) (w : World) :
  exists new,
    trace (snd (oauth_callback "spotify" q env w)) = (new ++ trace w)%list
    /\ Forall
         (fun e =>
            forall r, e = EvHttp r ->
            exists code config,
              given (q_code q) = Some code
              /\ method r = POST
              /\ url r = "https://accounts.spotify.com/api/token"
              /\ body r = FormBody [("grant_type", JString "authorization_code");
                                    ("code", JString code);
                                    ("redirect_uri", col (redirect_uri config));
                                    ("client_id", col (client_id config));
                                    ("client_secret", col (client_secret config))]
              /\ headers r = [("Content-Type", "application/x-www-form-urlencoded")]
              /\ assoc "Authorization" (headers r) = None)
         new.
Proof.
  apply calls_oauth_callback. intros code state Hc.
  apply (calls_callback_try env _ (fun _ => True)).
  - discriminate.
  - intros config. apply calls_axios.
    intros r E. injection E as <-. exists code, config. repeat split. exact Hc.
  - intros config w0 a w1 _. exact I.
  - intros userId tokenData _. apply calls_store_tokens. discriminate.
Qed.

(** ** The callback: a state without a user *)

(** An exchange that is followed by anything is in the trace. *)
Lemma axios_then_in_trace {A} (r : Request) (k : JsValue -> M A) (h : Exn -> M A) env w :
  (forall a, calls_only env (fun _ => True) (k a)) ->
  (forall e, calls_only env (fun _ => True) (h e)) ->
  In (EvHttp r) (trace (snd (try_catch (bind (axios r) k) h env (w)))).
Proof.
  intros Hk Hh. unfold try_catch, bind, axios.
  destruct (provider env r) as [data|m].
  - destruct (Hk data (log (EvHttp r) w)) as [n1 [E1 _]].
    destruct (k data env (log (EvHttp r) w)) as [[a|e] w1]; cbn [snd] in *.
    + rewrite E1. apply in_or_app. right. now left.
    + destruct (Hh e w1) as [n2 [E2 _]]. rewrite E2, E1.
      apply in_or_app. right. apply in_or_app. right. now left.
  - destruct (Hh {| message := m |} (log (EvHttp r) w)) as [n2 [E2 _]].
    rewrite E2. apply in_or_app. right. now left.
Qed.

Lemma calls_anything_store_tokens env platform userId tokenData :
  calls_only env (fun _ => True) (store_tokens platform userId tokenData).
Proof. apply calls_store_tokens. intros; exact I. Qed.

(** C8. The callback does not check that the state names a user. The
    state [{ platform: 'spotify' }] decodes and has no [userId]; the
    callback for spotify does not abort: it sends the code to the provider
    and calls the upsert, with no user in the row. *)
Lemma state_without_user_is_accepted :
  decode_state Sample.state_without_user = Some (JObject [("platform", JString "spotify")])
  /\ get_prop (JObject [("platform", JString "spotify")]) "userId" = JUndefined
  /\ In (EvHttp (spotify_request "code-1" Sample.config))
        (trace (snd (oauth_callback "spotify" Sample.query_without_user Sample.env Sample.configured)))
  /\ (exists row,
        In (EvUpsertToken row)
           (trace (snd (oauth_callback "spotify" Sample.query_without_user
                          Sample.env Sample.configured)))
        /\ user_id row = JUndefined)
  /\ snd (oauth_callback "spotify" Sample.query_without_user Sample.env Sample.configured)
     <> Sample.configured.
Proof.
  split; [vm_compute; reflexivity|]. split; [reflexivity|].
  split; [vm_compute; auto|]. split.
  - eexists. split; [vm_compute; left; reflexivity | reflexivity].
  - vm_compute. discriminate.
Qed.

(** The same for every platform of the switch: of the two fields of a
    decoded state the callback checks the platform only. A state without a
    platform ends in an error redirect with the world untouched; a state
    without a user whose platform is that of the path goes on to the
    configuration and, for a configured platform, to the provider. *)
Lemma missing_user_is_not_checked (platform : string) (env : Env) (w : World)
    (q1 : Query) (state1 : string) (stateData1 : JsValue)
    (q2 : Query) (state2 : string) (stateData2 : JsValue)
    (code : string) (config : ConfigRow) :
  q_state q1 = Some state1 ->
  decode_state state1 = Some stateData1 ->
  get_prop stateData1 "platform" = JUndefined ->
  q_state q2 = Some state2 ->
  decode_state state2 = Some stateData2 ->
  get_prop stateData2 "userId" = JUndefined ->
  get_prop stateData2 "platform" = JString platform ->
  given (q_error q2) = None ->
  given (q_code q2) = Some code ->
  fault env SelectConfigs = Healthy ->
  single (filter (fun r => String.eqb platform (cfg_platform_id r) && cfg_enabled r)
                 (platform_oauth_configs w)) = Some config ->
  In platform supported_platforms ->
  (exists msg,
     oauth_callback platform q1 env w
     = (Returned (Redirect (callback_url env platform ++ "?error=" ++ msg)), w))
  /\ (exists r, In (EvHttp r) (trace (snd (oauth_callback platform q2 env w)))).
Proof.
  intros Hs1 Hd1 Hp1 Hs Hd Hu Hp He Hc Hf Hcfg Hsup. split.
  - apply (callback_mismatch platform q1 env w state1 stateData1 Hs1 Hd1).
    rewrite Hp1. discriminate.
  - rewrite (callback_valid_state platform q2 env w code state2 stateData2 He Hc Hs Hd Hp)
      by (rewrite Hu; discriminate).
    destruct (exchange_code_supported platform code config Hsup) as [r Er].
    exists r.
    assert (E : forall h,
      try_catch
        (platformConfig <- select_config platform ;;
         match platformConfig with
         | None => throw ("Platform " ++ platform ++ " not configured or not enabled")
         | Some config0 =>
             tokenData <- exchange_code platform code config0 ;;
             store_tokens platform (get_prop stateData2 "userId") tokenData
         end) h env w
      = try_catch
          (bind (axios r) (store_tokens platform (get_prop stateData2 "userId")))
          h env (log (EvSelectConfigs platform) w)).
    { intros h. unfold try_catch at 1. unfold bind at 1. unfold select_config.
      rewrite Hf, Hcfg, Er. reflexivity. }
    rewrite E. apply axios_then_in_trace.
    + intros a. apply calls_anything_store_tokens.
    + intros e. apply calls_error_redirect.
Qed.

Lemma missing_user_is_not_checked_witness :
  (exists msg,
     oauth_callback "spotify" Sample.query_without_platform Sample.env Sample.configured
     = (Returned (Redirect (callback_url Sample.env "spotify" ++ "?error=" ++ msg)),
        Sample.configured))
  /\ (exists r, In (EvHttp r)
                   (trace (snd (oauth_callback "spotify" Sample.query_without_user
                                  Sample.env Sample.configured)))).
Proof.
  apply (missing_user_is_not_checked "spotify" Sample.env Sample.configured
           Sample.query_without_platform Sample.state_without_platform
           (JObject [("userId", JString "user-1")])
           Sample.query_without_user Sample.state_without_user
           (JObject [("platform", JString "spotify")])
           "code-1" Sample.config).
  - reflexivity.
  - vm_compute. reflexivity.
  - reflexivity.
  - reflexivity.
  - vm_compute. reflexivity.
  - reflexivity.
  - reflexivity.
  - reflexivity.
  - reflexivity.
  - reflexivity.
  - reflexivity.
  - cbn. auto.
Defined.

(** ** The callback: the expiry it writes *)

Lemma callback_writes_no_expiry env (platform : string) (q : Query) :
  (forall r data, provider env r = HttpOk data -> get_prop data "expires_in" = JUndefined) ->
  calls_only env (fun e => forall row, e = EvUpsertToken row -> expires_at row = None)
             (oauth_callback platform q).
Proof.
  intros Hprov. apply calls_oauth_callback. intros code state _.
  apply (calls_callback_try env _ (fun data => get_prop data "expires_in" = JUndefined)).
  - discriminate.
  - intros config. apply calls_exchange_code. discriminate.
  - intros config. now apply returns_exchange_code.
  - intros userId tokenData HR. apply calls_store_tokens.
    intros expiresAt today Hx row E. injection E as <-. cbn [expires_at].
    apply Hx. now rewrite HR.
Qed.
(** ** The duplicate clean-up *)

Lemma delete_duplicates_cons u p (t : TokenView) (l : list TokenView) env w :
  delete_duplicates u p (t :: l) env w
  = delete_duplicates u p l env
      (snd (try_catch (delete_token u p (view_updated_at t)) (fun _ => ret tt) env w)).
Proof.
  unfold delete_duplicates. cbn [for_each]. unfold bind at 1.
  unfold try_catch, delete_token.
  destruct (fault env DeleteToken); reflexivity.
Qed.

(** The loop never throws. *)
Lemma delete_duplicates_returns u p (l : list TokenView) env w :
  fst (delete_duplicates u p l env w) = Returned tt.
Proof.
  revert w. induction l as [|t l IH]; intros w.
  - reflexivity.
  - rewrite delete_duplicates_cons. apply IH.
Qed.

(** A row whose time is that of no duplicate outlives the loop. *)
Lemma delete_duplicates_keeps u p (l : list TokenView) env w (r : TokenRow) :
  In r (oauth_tokens w) ->
  (forall d, In d l -> view_updated_at d <> updated_at r) ->
  In r (oauth_tokens (snd (delete_duplicates u p l env w))).
Proof.
  revert w. induction l as [|t l IH]; intros w Hin Hne.
  - exact Hin.
  - rewrite delete_duplicates_cons. apply IH.
    + unfold try_catch, delete_token.
      destruct (fault env DeleteToken); cbn; try exact Hin.
      apply filter_In. split; [exact Hin|].
      assert ((updated_at r =? view_updated_at t) = false) as ->.
      { apply Z.eqb_neq. intros E. apply (Hne t); [now left | now symmetry]. }
      now rewrite andb_false_r.
    + intros d Hd. apply Hne. now right.
Qed.

Lemma purge_nil u p (rows : list TokenRow) : purge u p [] rows = rows.
Proof.
  unfold purge. induction rows as [|x xs IH]; [reflexivity|].
  cbn [filter existsb]. rewrite andb_false_r. cbn [negb]. now f_equal.
Qed.

Lemma purge_cons u p (t : Z) (times : list Z) (rows : list TokenRow) :
  purge u p times
    (filter (fun r => negb (has_key u p r && (updated_at r =? t))) rows)
  = purge u p (t :: times) rows.
Proof.
  unfold purge. apply filter_twice. intros x. cbn [existsb].
  destruct (has_key u p x), (updated_at x =? t), (existsb _ times); reflexivity.
Qed.

(** With a healthy store the loop deletes the rows of the key that carry
    the time of a duplicate, and makes one call for each duplicate. *)
Lemma delete_duplicates_healthy u p (l : list TokenView) env w :
  fault env DeleteToken = Healthy ->
  oauth_tokens (snd (delete_duplicates u p l env w))
  = purge u p (map view_updated_at l) (oauth_tokens w)
  /\ trace (snd (delete_duplicates u p l env w))
     = (rev (map (fun t => EvDeleteToken u p (view_updated_at t)) l) ++ trace w)%list.
Proof.
  intros Hf. revert w. induction l as [|t l IH]; intros w.
  - cbn [map rev app]. now rewrite purge_nil.
  - rewrite delete_duplicates_cons.
    destruct (IH (snd (try_catch (delete_token u p (view_updated_at t)) (fun _ => ret tt) env w)))
      as [E1 E2].
    rewrite E1, E2. unfold try_catch, delete_token. rewrite Hf.
    cbn [snd set_tokens log oauth_tokens trace map rev].
    split; [apply purge_cons | now rewrite <- app_assoc].
Qed.

(** ** [getUserOAuthToken] *)

Lemma getUserOAuthToken_fails u p env w :
  fault env SelectTokens <> Healthy ->
  getUserOAuthToken u p env w = (Returned JNull, log (EvSelectTokens u p) w).
Proof.
  intros H. unfold getUserOAuthToken, try_catch, bind, select_tokens.
  destruct (fault env SelectTokens); [contradiction | reflexivity | reflexivity].
Qed.

Lemma getUserOAuthToken_absent u p env w :
  fault env SelectTokens = Healthy ->
  filter (has_key u p) (oauth_tokens w) = [] ->
  getUserOAuthToken u p env w = (Returned JNull, log (EvSelectTokens u p) w).
Proof.
  intros H E. unfold getUserOAuthToken, try_catch, bind, select_tokens.
  now rewrite H, E.
Qed.

Lemma getUserOAuthToken_found u p env w (tokenData : TokenRow) (rest : list TokenRow) :
  fault env SelectTokens = Healthy ->
  order_desc (filter (has_key u p) (oauth_tokens w)) = tokenData :: rest ->
  getUserOAuthToken u p env w
  = (Returned (if expired (view tokenData) (now env) then JNull else access_token tokenData),
     snd (delete_duplicates u p (map view rest) env (log (EvSelectTokens u p) w))).
Proof.
  intros H E. unfold getUserOAuthToken, try_catch. unfold bind at 1. unfold select_tokens.
  rewrite H, E. cbn [map]. unfold bind at 1.
  destruct rest as [|d rest].
  - cbn. destruct (expired _ _); reflexivity.
  - replace (1 <? length (view tokenData :: map view (d :: rest)))%nat with true by reflexivity.
    pose proof (delete_duplicates_returns u p (map view (d :: rest)) env (log (EvSelectTokens u p) w)) as Hr.
    destruct (delete_duplicates _ _ _ _ _) as [o w1]. cbn [fst snd] in *. subst o.
    unfold bind, Date_now. destruct (expired _ _); reflexivity.
Qed.

(** ** The order of a select *)

Lemma insert_desc_perm (r : TokenRow) (l : list TokenRow) :
  Permutation (insert_desc r l) (r :: l).
Proof.
  induction l as [|x l IH]; cbn [insert_desc]; [reflexivity|].
  destruct (updated_at x <=? updated_at r); [reflexivity|].
  rewrite IH. apply perm_swap.
Qed.

Lemma order_desc_perm (l : list TokenRow) : Permutation (order_desc l) l.
Proof.
  induction l as [|r l IH]; cbn [order_desc]; [reflexivity|].
  rewrite insert_desc_perm. now constructor.
Qed.

(** The first row of the answer is a latest one. *)
Lemma insert_desc_head (r : TokenRow) (l : list TokenRow) (h : TokenRow) (t : list TokenRow) :
  insert_desc r l = h :: t ->
  (forall y, In y l -> exists x s, l = x :: s /\ updated_at y <= updated_at x) ->
  forall y, In y (r :: l) -> updated_at y <= updated_at h.
Proof.
  intros E Hl y Hy. destruct l as [|x s].
  - cbn in E. injection E as <- _. destruct Hy as [<-|[]]. lia.
  - cbn [insert_desc] in E.
    destruct (updated_at x <=? updated_at r) eqn:C.
    + apply Z.leb_le in C. injection E as <- _.
      destruct Hy as [<-|Hy]; [lia|].
      destruct (Hl y Hy) as [x' [s' [Ex Hle]]]. injection Ex as <- _. lia.
    + apply Z.leb_gt in C. injection E as <- _.
      destruct Hy as [<-|Hy]; [lia|].
      destruct (Hl y Hy) as [x' [s' [Ex Hle]]]. injection Ex as <- _. lia.
Qed.

Lemma order_desc_head (l : list TokenRow) :
  forall y, In y (order_desc l) ->
  exists x s, order_desc l = x :: s /\ updated_at y <= updated_at x.
Proof.
  induction l as [|r l IH]; intros y Hy; [destruct Hy|].
  cbn [order_desc] in *.
  destruct (insert_desc r (order_desc l)) as [|h t] eqn:E.
  - destruct Hy.
  - exists h, t. split; [reflexivity|].
    apply (insert_desc_head r (order_desc l) h t E IH).
    apply (Permutation_in y (insert_desc_perm r (order_desc l))).
    now rewrite E.
Qed.

(** When one row is later than all the others, it comes first. *)
Lemma order_desc_newest (l : list TokenRow) (newest : TokenRow) (older : list TokenRow) :
  Permutation l (newest :: older) ->
  (forall o, In o older -> updated_at o < updated_at newest) ->
  exists rest, order_desc l = newest :: rest /\ Permutation rest older.
Proof.
  intros Hp Hlt.
  assert (Hs : Permutation (order_desc l) (newest :: older)).
  { now rewrite order_desc_perm. }
  assert (Hn : In newest (order_desc l)).
  { apply (Permutation_in newest (Permutation_sym Hs)). now left. }
  destruct (order_desc_head l newest Hn) as [h [rest [E Hle]]].
  assert (Hh : In h (newest :: older)).
  { apply (Permutation_in h Hs). rewrite E. now left. }
  destruct Hh as [<-|Hh].
  - exists rest. split; [exact E|].
    rewrite E in Hs. now apply Permutation_cons_inv in Hs.
  - specialize (Hlt h Hh). lia.
Qed.

(** Settles the comparisons of times that the hypotheses decide. *)
Ltac settle_times :=
  repeat match goal with
         | |- context [?a =? ?a] => rewrite (Z.eqb_refl a)
         | |- context [?a <=? ?a] => rewrite (Z.leb_refl a)
         | |- context [?a =? ?b] =>
             replace (a =? b) with false by (symmetry; apply Z.eqb_neq; lia)
         | |- context [?a <=? ?b] =>
             replace (a <=? b) with false by (symmetry; apply Z.leb_gt; lia)
         end.

Lemma times_of_perm (rest older : list TokenRow) (t : Z) :
  Permutation rest older ->
  existsb (Z.eqb t) (map view_updated_at (map view rest))
  = existsb (Z.eqb t) (map updated_at older).
Proof.
  intros Hp. rewrite map_map. cbn [view view_updated_at].
  apply eq_true_iff_eq. rewrite !existsb_exists.
  split; intros [x [Hin Hx]]; exists x; (split; [|exact Hx]);
    apply in_map_iff in Hin; destruct Hin as [r [<- Hr]]; apply in_map;
    [apply (Permutation_in r Hp Hr) | apply (Permutation_in r (Permutation_sym Hp) Hr)].
Qed.

(** C4. With three rows of one key in the store, in any order, one of them
    later than the two others and not expired, and the store healthy: the
    first call returns the token of the latest row, makes two deletes and
    leaves the store without the two older rows, all other rows in place;
    a second call returns the same token, deletes nothing and makes no call
    but its select. *)
Theorem three_duplicates_reconciled
    (env env2 : Env) (userId platform : string) (w : World) (newest o1 o2 : TokenRow) :
  fault env SelectTokens = Healthy -> fault env DeleteToken = Healthy ->
  fault env2 SelectTokens = Healthy -> fault env2 DeleteToken = Healthy ->
  Permutation (filter (has_key userId platform) (oauth_tokens w)) [newest; o1; o2] ->
  updated_at o1 < updated_at newest ->
  updated_at o2 < updated_at newest ->
  expired (view newest) (now env) = false ->
  expired (view newest) (now env2) = false ->
  let first := getUserOAuthToken userId platform env w in
  let second := getUserOAuthToken userId platform env2 (snd first) in
  fst first = Returned (access_token newest)
  /\ oauth_tokens (snd first)
     = filter (fun r => negb (has_key userId platform r) || (updated_at newest <=? updated_at r))
              (oauth_tokens w)
  /\ (length (oauth_tokens (snd first)) + 2 = length (oauth_tokens w))%nat
  /\ filter (has_key userId platform) (oauth_tokens (snd first)) = [newest]
  /\ (exists d1 d2,
        trace (snd first)
        = (EvDeleteToken userId platform d2 :: EvDeleteToken userId platform d1
             :: EvSelectTokens userId platform :: trace w)%list)
  /\ fst second = Returned (access_token newest)
  /\ oauth_tokens (snd second) = oauth_tokens (snd first)
  /\ trace (snd second) = EvSelectTokens userId platform :: trace (snd first).
Proof.
  intros Hs Hd Hs2 Hd2 Hp H1 H2 Hx Hx2.
  set (key := has_key userId platform) in *.
  set (keep := fun r => negb (key r) || (updated_at newest <=? updated_at r)).
  assert (Hold : forall o, In o [o1; o2] -> updated_at o < updated_at newest).
  { intros o [<-|[<-|[]]]; assumption. }
  destruct (order_desc_newest _ newest [o1; o2] Hp Hold) as [rest [Eo Hr]].
  pose proof (getUserOAuthToken_found userId platform env w newest rest Hs Eo) as E1.
  rewrite Hx in E1.
  destruct (delete_duplicates_healthy userId platform (map view rest) env
              (log (EvSelectTokens userId platform) w) Hd) as [Et Etr].
  cbn [log oauth_tokens trace] in Et, Etr.
  (* what the first call leaves *)
  assert (Ekeep : purge userId platform (map view_updated_at (map view rest)) (oauth_tokens w)
                  = filter keep (oauth_tokens w)).
  { unfold purge. apply filter_ext_in. intros r Hin. fold key.
    rewrite (times_of_perm rest [o1; o2] _ Hr). unfold keep.
    destruct (key r) eqn:K; [|reflexivity]. cbn [andb negb orb].
    assert (Hk : In r [newest; o1; o2]).
    { apply (Permutation_in r Hp). apply filter_In. now split. }
    cbn [map existsb].
    destruct Hk as [<-|[<-|[<-|[]]]]; settle_times;
      rewrite ?orb_true_r; reflexivity. }
  assert (Ekey : filter key (filter keep (oauth_tokens w)) = [newest]).
  { rewrite (filter_twice key keep (fun r => keep r && key r)) by reflexivity.
    rewrite <- (filter_twice keep key (fun r => keep r && key r))
      by (intros x; apply andb_comm).
    apply Permutation_length_1_inv. apply Permutation_sym.
    rewrite (filter_perm keep _ _ Hp). cbn [filter]. unfold keep.
    settle_times. rewrite orb_true_r.
    assert (K : forall o, In o [newest; o1; o2] -> key o = true).
    { intros o Ho. apply (Permutation_in o (Permutation_sym Hp)) in Ho.
      now apply filter_In in Ho. }
    rewrite (K o1), (K o2) by (cbn; auto). reflexivity. }
  assert (Elen : (length (filter keep (oauth_tokens w)) + 2 = length (oauth_tokens w))%nat).
  { rewrite <- (filter_both_length keep (oauth_tokens w)). f_equal.
    assert (Hneg : Permutation (filter (fun r => negb (keep r)) (filter key (oauth_tokens w))) [o1; o2]).
    { rewrite (filter_perm _ _ _ Hp). cbn [filter]. unfold keep.
      settle_times. rewrite orb_true_r. cbn [negb].
      assert (K : forall o, In o [newest; o1; o2] -> key o = true).
      { intros o Ho. apply (Permutation_in o (Permutation_sym Hp)) in Ho.
        now apply filter_In in Ho. }
      rewrite (K o1), (K o2) by (cbn; auto). reflexivity. }
    rewrite (filter_twice _ key (fun r => negb (keep r))) in Hneg.
    - symmetry. apply (Permutation_length Hneg).
    - intros x. unfold keep. destruct (key x); reflexivity. }
  (* the second call *)
  assert (Eo2 : order_desc (filter key (oauth_tokens (snd (getUserOAuthToken userId platform env w))))
                = [newest]).
  { rewrite E1. cbn [snd]. rewrite Et, Ekeep, Ekey. reflexivity. }
  pose proof (getUserOAuthToken_found userId platform env2 _ newest [] Hs2 Eo2) as E2.
  rewrite Hx2 in E2.
  cbv zeta. rewrite E2. rewrite E1. cbn [fst snd map delete_duplicates for_each ret log oauth_tokens trace].
  rewrite Et, Etr, Ekeep.
  repeat split; try assumption; try reflexivity.
  apply Permutation_length in Hr. destruct rest as [|a [|b [|c rest]]]; try discriminate.
  exists (updated_at a), (updated_at b). reflexivity.
Qed.

Lemma three_duplicates_reconciled_witness :
  let first := getUserOAuthToken "user-1" "spotify" Sample.env Sample.duplicated in
  let second := getUserOAuthToken "user-1" "spotify" Sample.env (snd first) in
  fst first = Returned (access_token (Sample.row "token-c" None 30))
  /\ oauth_tokens (snd first)
     = filter (fun r => negb (has_key "user-1" "spotify" r)
                        || (updated_at (Sample.row "token-c" None 30) <=? updated_at r))
              (oauth_tokens Sample.duplicated)
  /\ (length (oauth_tokens (snd first)) + 2 = length (oauth_tokens Sample.duplicated))%nat
  /\ filter (has_key "user-1" "spotify") (oauth_tokens (snd first)) = [Sample.row "token-c" None 30]
  /\ (exists d1 d2,
        trace (snd first)
        = (EvDeleteToken "user-1" "spotify" d2 :: EvDeleteToken "user-1" "spotify" d1
             :: EvSelectTokens "user-1" "spotify" :: trace Sample.duplicated)%list)
  /\ fst second = Returned (access_token (Sample.row "token-c" None 30))
  /\ oauth_tokens (snd second) = oauth_tokens (snd first)
  /\ trace (snd second) = EvSelectTokens "user-1" "spotify" :: trace (snd first).
Proof.
  apply (three_duplicates_reconciled Sample.env Sample.env "user-1" "spotify" Sample.duplicated
           (Sample.row "token-c" None 30) (Sample.row "token-b" None 20)
           (Sample.row "token-a" None 10)).
  - reflexivity.
  - reflexivity.
  - reflexivity.
  - reflexivity.
  - cbn. apply perm_swap.
  - cbn. lia.
  - cbn. lia.
  - reflexivity.
  - reflexivity.
Defined.

(** C3. When the row a select puts first has an expiry time before the
    clock, the answer is [null]. The row was in the store, and the call
    deletes no row but those that carry the time of a duplicate: any row
    whose time is that of no duplicate is still there, the expired row
    itself among them. *)
Theorem expired_token_reads_as_null
    (env : Env) (userId platform : string) (w : World)
    (tokenData : TokenRow) (rest : list TokenRow) (e : Z) :
  fault env SelectTokens = Healthy ->
  order_desc (filter (has_key userId platform) (oauth_tokens w)) = tokenData :: rest ->
  expires_at tokenData = Some e ->
  e < now env ->
  fst (getUserOAuthToken userId platform env w) = Returned JNull
  /\ In tokenData (oauth_tokens w)
  /\ (forall r, In r (oauth_tokens w) ->
        (forall d, In d rest -> updated_at d <> updated_at r) ->
        In r (oauth_tokens (snd (getUserOAuthToken userId platform env w))))
  /\ (rest = [] -> In tokenData (oauth_tokens (snd (getUserOAuthToken userId platform env w)))).
Proof.
  intros Hs Eo He Hlt.
  rewrite (getUserOAuthToken_found userId platform env w tokenData rest Hs Eo).
  cbn [fst snd].
  assert (Hin : In tokenData (oauth_tokens w)).
  { assert (H : In tokenData (order_desc (filter (has_key userId platform) (oauth_tokens w)))).
    { rewrite Eo. now left. }
    apply (Permutation_in _ (order_desc_perm _)) in H.
    now apply filter_In in H. }
  assert (Hkeep : forall r, In r (oauth_tokens w) ->
            (forall d, In d rest -> updated_at d <> updated_at r) ->
            In r (oauth_tokens (snd (delete_duplicates userId platform (map view rest) env
                                       (log (EvSelectTokens userId platform) w))))).
  { intros r Hr Hd. apply delete_duplicates_keeps; [exact Hr|].
    intros d Hd'. apply in_map_iff in Hd'. destruct Hd' as [x [<- Hx]]. now apply Hd. }
  repeat split.
  - unfold expired. cbn [view view_expires_at]. rewrite He.
    now replace (e <? now env) with true by (symmetry; apply Z.ltb_lt; lia).
  - exact Hin.
  - exact Hkeep.
  - intros ->. apply Hkeep; [exact Hin|]. intros d [].
Qed.

Lemma expired_token_reads_as_null_witness :
  fst (getUserOAuthToken "user-1" "spotify" Sample.env Sample.stale) = Returned JNull
  /\ In (Sample.row "token-a" (Some 1699996400000) 10) (oauth_tokens Sample.stale)
  /\ (forall r, In r (oauth_tokens Sample.stale) ->
        (forall d, In d (@nil TokenRow) -> updated_at d <> updated_at r) ->
        In r (oauth_tokens (snd (getUserOAuthToken "user-1" "spotify" Sample.env Sample.stale))))
  /\ (@nil TokenRow = [] -> In (Sample.row "token-a" (Some 1699996400000) 10)
                    (oauth_tokens (snd (getUserOAuthToken "user-1" "spotify" Sample.env Sample.stale)))).
Proof.
  apply (expired_token_reads_as_null Sample.env "user-1" "spotify" Sample.stale
           (Sample.row "token-a" (Some 1699996400000) 10) [] 1699996400000).
  - reflexivity.
  - reflexivity.
  - reflexivity.
  - cbn. lia.
Defined.

(** The counterexample to C5: with the reads of the store failing, and with
    a healthy store that holds no token, [getUserOAuthToken] returns the
    same value, [null]. *)
Lemma store_failure_is_conflated :
  fault Sample.env_down SelectTokens <> Healthy
  /\ fault Sample.env SelectTokens = Healthy
  /\ oauth_tokens Sample.empty = []
  /\ fst (getUserOAuthToken "user-1" "spotify" Sample.env_down Sample.empty)
     = fst (getUserOAuthToken "user-1" "spotify" Sample.env Sample.empty).
Proof.
  split; [discriminate|]. repeat split.
Qed.

(** C5, amended. A failure of the read of the store, whether the answer
    carries an error or the call is rejected, is not surfaced: the function
    returns [null] after the one select, which is what it returns for a
    token that is absent and for a token that is expired. *)
Theorem store_failure_reads_as_no_token
    (env : Env) (userId platform : string) (w : World)
    (env' : Env) (w' : World) :
  fault env SelectTokens <> Healthy ->
  fault env' SelectTokens = Healthy ->
  filter (has_key userId platform) (oauth_tokens w') = [] ->
  getUserOAuthToken userId platform env w
  = (Returned JNull, log (EvSelectTokens userId platform) w)
  /\ fst (getUserOAuthToken userId platform env' w') = Returned JNull.
Proof.
  intros Hf Hh Ha. split.
  - now apply getUserOAuthToken_fails.
  - now rewrite getUserOAuthToken_absent.
Qed.

Lemma store_failure_reads_as_no_token_witness :
  getUserOAuthToken "user-1" "spotify" Sample.env_down Sample.stale
  = (Returned JNull, log (EvSelectTokens "user-1" "spotify") Sample.stale)
  /\ fst (getUserOAuthToken "user-1" "spotify" Sample.env Sample.empty) = Returned JNull.
Proof.
  apply (store_failure_reads_as_no_token Sample.env_down "user-1" "spotify" Sample.stale
           Sample.env Sample.empty).
  - discriminate.
  - reflexivity.
  - reflexivity.
Defined.

(** ** [getPlatformConfig] *)

(** The helper does fall back: with no single enabled row in the primary
    table it answers from the older one, a column first and the setting of
    the same name after it. *)
Lemma getPlatformConfig_falls_back (platform : string) env w (r : SettingsRow) :
  fault env SelectConfigs = Healthy ->
  fault env SelectSettings = Healthy ->
  single (filter (fun c => String.eqb platform (cfg_platform_id c) && cfg_enabled c)
                 (platform_oauth_configs w)) = None ->
  single (filter (fun s => String.eqb platform (old_platform_id s) && old_enabled s)
                 (platform_settings w)) = Some r ->
  fst (getPlatformConfig platform env w)
  = Returned
      (Some {| clientId := js_or (col (old_client_id r)) (opt_chain (setting_value r) "clientId");
               clientSecret := js_or (col (old_client_secret r))
                                     (opt_chain (setting_value r) "clientSecret");
               redirectUri := js_or (col (old_redirect_uri r))
                                    (opt_chain (setting_value r) "redirectUri");
               config_scopes := js_or (old_scopes r) (opt_chain (setting_value r) "scopes");
               apiEndpoint := js_or (col (old_api_endpoint r))
                                    (opt_chain (setting_value r) "apiEndpoint") |}).
Proof.
  intros H1 H2 Hn Hs.
  unfold getPlatformConfig, try_catch, bind, select_config, select_settings.
  rewrite H1, Hn. cbn [log platform_settings]. rewrite H2, Hs. reflexivity.
Qed.

(* ===================================================================== *)
(** * Part III: further properties of the code                            *)
(* ===================================================================== *)

(** ** The callback, step by step *)

Lemma trace_grows {A} (c : M A) env w :
  calls_only env (fun _ => True) c ->
  (length (trace w) <= length (trace (snd (c env w))))%nat.
Proof.
  intros H. destruct (H w) as [new [E _]]. rewrite E, length_app. lia.
Qed.

Lemma calls_anything_exchange_code env platform code config :
  calls_only env (fun _ => True) (exchange_code platform code config).
Proof. apply calls_exchange_code. intros; exact I. Qed.

(** Past the checks on the state the world is no longer the one the
    request found: the select of the configuration is in its trace. *)
Lemma valid_state_changes_world (platform : string) (q : Query) env w
    (code state : string) (stateData : JsValue) :
  given (q_error q) = None ->
  given (q_code q) = Some code ->
  q_state q = Some state ->
  decode_state state = Some stateData ->
  get_prop stateData "platform" = JString platform ->
  template (get_prop stateData "userId") <> None ->
  (length (trace w) < length (trace (snd (oauth_callback platform q env w))))%nat.
Proof.
  intros He Hc Hs Hd Hp Ht.
  rewrite (callback_valid_state platform q env w code state stateData He Hc Hs Hd Hp Ht).
  set (k := fun platformConfig : option ConfigRow =>
              match platformConfig with
              | None => throw ("Platform " ++ platform ++ " not configured or not enabled")
              | Some config =>
                  tokenData <- exchange_code platform code config ;;
                  store_tokens platform (get_prop stateData "userId") tokenData
              end).
  set (h := fun error : Exn => error_redirect platform (message error)).
  assert (Hk : forall a, calls_only env (fun _ => True) (k a)).
  { intros [config|]; unfold k; [|apply calls_throw].
    apply calls_bind; [apply calls_anything_exchange_code|].
    intros a. apply calls_anything_store_tokens. }
  assert (Hh : forall e, calls_only env (fun _ => True) (h e)).
  { intros e. apply calls_error_redirect. }
  change (length (trace w) < length (trace (snd (try_catch (bind (select_config platform) k) h env w))))%nat.
  unfold try_catch, bind, select_config.
  destruct (fault env SelectConfigs) as [| m | m].
  - set (w1 := log (EvSelectConfigs platform) w).
    set (cfg := single _).
    pose proof (trace_grows (k cfg) env w1 (Hk cfg)) as G1.
    destruct (k cfg env w1) as [[a|e] w2]; cbn [snd] in *.
    + unfold w1 in G1. cbn [log trace length] in G1. lia.
    + pose proof (trace_grows (h e) env w2 (Hh e)) as G2.
      unfold w1 in G1. cbn [log trace length] in G1. lia.
  - set (w1 := log (EvSelectConfigs platform) w).
    pose proof (trace_grows (k None) env w1 (Hk None)) as G1.
    destruct (k None env w1) as [[a|e] w2]; cbn [snd] in *.
    + unfold w1 in G1. cbn [log trace length] in G1. lia.
    + pose proof (trace_grows (h e) env w2 (Hh e)) as G2.
      unfold w1 in G1. cbn [log trace length] in G1. lia.
  - pose proof (trace_grows (h {| message := m |}) env (log (EvSelectConfigs platform) w)
                  (Hh _)) as G2.
    cbn [log trace length] in G2. cbn [log trace snd length]. lia.
Qed.

(** Sent or not, the redirect of an error changes nothing. *)
Lemma error_redirect_world (platform text : string) env w :
  snd (error_redirect platform text env w) = w.
Proof. unfold error_redirect. destruct (Uri.encodeURIComponent text); reflexivity. Qed.

(** A user that the line of the log cannot write out ends the [try] block
    before the select of the configuration. *)
Lemma callback_try_unconvertible (platform code state : string) (stateData : JsValue) env w :
  decode_state state = Some stateData ->
  get_prop stateData "platform" = JString platform ->
  template (get_prop stateData "userId") = None ->
  callback_try platform code state env w
  = (Thrown {| message := "Cannot convert object to primitive value" |}, w).
Proof.
  intros Hd Hp Ht. unfold callback_try. rewrite Hd.
  destruct stateData; try discriminate.
  unfold bind at 1. cbn [destructure_state ret]. rewrite Hp.
  cbn [strict_eq_string]. rewrite String.eqb_refl. cbn [negb].
  unfold bind at 1. unfold log_line. rewrite Ht. reflexivity.
Qed.

(** X1. For a request with a code and a state that decodes, the callback
    touches the store exactly when the request carries no error of the
    provider, the state names the platform of the path, and the user of
    the state can be written out in the line of the log. In every other
    case the world is as it was: no select, no exchange, no write. *)
Theorem callback_reaches_store_iff (platform : string) (q : Query) (env : Env) (w : World)
    (code state : string) (stateData : JsValue) :
  given (q_code q) = Some code ->
  q_state q = Some state ->
  decode_state state = Some stateData ->
  snd (oauth_callback platform q env w) <> w
  <-> (given (q_error q) = None
       /\ get_prop stateData "platform" = JString platform
       /\ template (get_prop stateData "userId") <> None).
Proof.
  intros Hc Hs Hd. split.
  - intros Hne.
    destruct (given (q_error q)) as [err|] eqn:He.
    { exfalso. apply Hne. unfold oauth_callback. now rewrite He. }
    split; [reflexivity|].
    destruct (strict_eq_string platform (get_prop stateData "platform")) eqn:Hp.
    + apply strict_eq_string_spec in Hp. split; [exact Hp|].
      intros Ht. apply Hne. unfold oauth_callback.
      rewrite He, Hc, Hs, (given_decodes _ _ Hd). unfold try_catch.
      rewrite (callback_try_unconvertible platform code state stateData env w Hd Hp Ht).
      apply error_redirect_world.
    + exfalso. apply Hne.
      destruct (callback_mismatch platform q env w state stateData Hs Hd) as [msg E].
      { intros H. apply strict_eq_string_spec in H. congruence. }
      now rewrite E.
  - intros [He [Hp Ht]] E.
    pose proof (valid_state_changes_world platform q env w code state stateData
                  He Hc Hs Hd Hp Ht) as G.
    rewrite E in G. lia.
Qed.

Lemma callback_reaches_store_iff_witness :
  snd (oauth_callback "spotify" (Sample.query "spotify") Sample.env Sample.configured)
  <> Sample.configured
  <-> (given (q_error (Sample.query "spotify")) = None
       /\ get_prop (Demo.state_data "spotify") "platform" = JString "spotify"
       /\ template (get_prop (Demo.state_data "spotify") "userId") <> None).
Proof.
  apply (callback_reaches_store_iff "spotify" (Sample.query "spotify") Sample.env
           Sample.configured "code-1" (encode_state "user-1" "spotify")
           (Demo.state_data "spotify")).
  - reflexivity.
  - reflexivity.
  - vm_compute. reflexivity.
Defined.

(** With a configuration selected, the callback is the exchange and what
    follows it. *)
Lemma callback_configured (platform : string) (q : Query) env w
    (code state : string) (stateData : JsValue) (config : ConfigRow) :
  given (q_error q) = None ->
  given (q_code q) = Some code ->
  q_state q = Some state ->
  decode_state state = Some stateData ->
  get_prop stateData "platform" = JString platform ->
  template (get_prop stateData "userId") <> None ->
  fault env SelectConfigs = Healthy ->
  single (filter (fun r => String.eqb platform (cfg_platform_id r) && cfg_enabled r)
                 (platform_oauth_configs w)) = Some config ->
  oauth_callback platform q env w
  = try_catch
      (tokenData <- exchange_code platform code config ;;
       store_tokens platform (get_prop stateData "userId") tokenData)
      (fun error => error_redirect platform (message error))
      env (log (EvSelectConfigs platform) w).
Proof.
  intros He Hc Hs Hd Hp Ht Hf Hcfg.
  rewrite (callback_valid_state platform q env w code state stateData He Hc Hs Hd Hp Ht).
  unfold try_catch at 1. unfold bind at 1. unfold select_config.
  rewrite Hf, Hcfg. reflexivity.
Qed.

Lemma exchange_code_unsupported (platform code : string) (config : ConfigRow) :
  ~ In platform supported_platforms ->
  exchange_code platform code config
  = throw ("OAuth not implemented for platform: " ++ platform).
Proof.
  intros H. unfold exchange_code.
  repeat match goal with
         | |- context [String.eqb platform ?s] =>
             destruct (String.eqb_spec platform s) as [->|_];
             [exfalso; apply H; cbn; tauto|]
         end.
  reflexivity.
Qed.

Lemma converts (v : JsValue) (text : string) : template v = Some text -> template v <> None.
Proof. intros ->. discriminate. Qed.

(** X2. For a platform the switch has no case for, a callback that comes
    to an enabled configuration (its state names the platform and a user
    that the line of the log can write out) ends in the redirect that says
    so, after the one select of the configuration: no request goes to a
    provider and nothing is written. *)
Theorem unsupported_platform_is_refused (platform : string) (q : Query) (env : Env) (w : World)
    (code state : string) (stateData : JsValue) (config : ConfigRow) (user text : string) :
  given (q_error q) = None ->
  given (q_code q) = Some code ->
  q_state q = Some state ->
  decode_state state = Some stateData ->
  get_prop stateData "platform" = JString platform ->
  template (get_prop stateData "userId") = Some user ->
  fault env SelectConfigs = Healthy ->
  single (filter (fun r => String.eqb platform (cfg_platform_id r) && cfg_enabled r)
                 (platform_oauth_configs w)) = Some config ->
  ~ In platform supported_platforms ->
  Uri.encodeURIComponent ("OAuth not implemented for platform: " ++ platform) = Some text ->
  oauth_callback platform q env w
  = (Returned (Redirect (callback_url env platform ++ "?error=" ++ text)),
     log (EvSelectConfigs platform) w).
Proof.
  intros He Hc Hs Hd Hp Ht Hf Hcfg Hn Henc.
  rewrite (callback_configured platform q env w code state stateData config
             He Hc Hs Hd Hp (converts _ _ Ht) Hf Hcfg).
  rewrite (exchange_code_unsupported platform code config Hn).
  unfold try_catch, bind, throw, error_redirect. cbn [message]. rewrite Henc. reflexivity.
Qed.

Lemma unsupported_platform_is_refused_witness :
  oauth_callback "soundcloud" (Sample.query "soundcloud") Sample.env Demo.with_soundcloud
  = (Returned (Redirect (callback_url Sample.env "soundcloud" ++ "?error="
                 ++ "OAuth%20not%20implemented%20for%20platform%3A%20soundcloud")),
     log (EvSelectConfigs "soundcloud") Demo.with_soundcloud).
Proof.
  apply (unsupported_platform_is_refused "soundcloud" (Sample.query "soundcloud") Sample.env
           Demo.with_soundcloud "code-1" (encode_state "user-1" "soundcloud")
           (Demo.state_data "soundcloud") Demo.soundcloud "user-1"
           "OAuth%20not%20implemented%20for%20platform%3A%20soundcloud").
  - reflexivity.
  - reflexivity.
  - reflexivity.
  - vm_compute. reflexivity.
  - reflexivity.
  - reflexivity.
  - reflexivity.
  - reflexivity.
  - cbn. intros H. repeat (destruct H as [H | H]; [discriminate H|]). exact H.
  - reflexivity.
Defined.

(** X3. When the provider refuses the exchange, a callback that came to
    it redirects with the message of the failure, percent-encoded. It has
    sent that one request and no other (the exchange is not tried again),
    and has written no row. *)
Theorem exchange_failure_is_reported (platform : string) (q : Query) (env : Env) (w : World)
    (code state : string) (stateData : JsValue) (config : ConfigRow)
    (r : Request) (reason user text : string) :
  given (q_error q) = None ->
  given (q_code q) = Some code ->
  q_state q = Some state ->
  decode_state state = Some stateData ->
  get_prop stateData "platform" = JString platform ->
  template (get_prop stateData "userId") = Some user ->
  fault env SelectConfigs = Healthy ->
  single (filter (fun r => String.eqb platform (cfg_platform_id r) && cfg_enabled r)
                 (platform_oauth_configs w)) = Some config ->
  exchange_code platform code config = axios r ->
  provider env r = HttpFail reason ->
  Uri.encodeURIComponent reason = Some text ->
  oauth_callback platform q env w
  = (Returned (Redirect (callback_url env platform ++ "?error=" ++ text)),
     log (EvHttp r) (log (EvSelectConfigs platform) w)).
Proof.
  intros He Hc Hs Hd Hp Ht Hf Hcfg Hx Hprov Henc.
  rewrite (callback_configured platform q env w code state stateData config
             He Hc Hs Hd Hp (converts _ _ Ht) Hf Hcfg).
  rewrite Hx. unfold try_catch, bind, axios. rewrite Hprov.
  unfold error_redirect. cbn [message]. rewrite Henc. reflexivity.
Qed.

Lemma exchange_failure_is_reported_witness :
  oauth_callback "spotify" (Sample.query "spotify") Demo.env_refused Sample.configured
  = (Returned (Redirect (callback_url Demo.env_refused "spotify" ++ "?error="
                           ++ "Request%20failed%20with%20status%20code%20400")),
     log (EvHttp (spotify_request "code-1" Sample.config))
       (log (EvSelectConfigs "spotify") Sample.configured)).
Proof.
  apply (exchange_failure_is_reported "spotify" (Sample.query "spotify") Demo.env_refused
           Sample.configured "code-1" (encode_state "user-1" "spotify")
           (Demo.state_data "spotify") Sample.config
           (spotify_request "code-1" Sample.config) "Request failed with status code 400"
           "user-1" "Request%20failed%20with%20status%20code%20400").
  - reflexivity.
  - reflexivity.
  - reflexivity.
  - vm_compute. reflexivity.
  - reflexivity.
  - reflexivity.
  - reflexivity.
  - reflexivity.
  - reflexivity.
  - reflexivity.
  - reflexivity.
Defined.

(** The expiry is computed from the clock alone. *)
Lemma expiry_of_world (v : JsValue) env w w' :
  snd (expiry_of v env w) = w /\ fst (expiry_of v env w) = fst (expiry_of v env w').
Proof.
  unfold expiry_of. destruct (truthy v); [|split; reflexivity].
  unfold bind, Date_now. destruct (to_number v) as [[m e]|]; [|split; reflexivity].
  destruct (_ <=? _); split; reflexivity.
Qed.

(** On an answer without [expires_in], or with a whole number of seconds,
    the expiry is that of [plain_expiry]. *)
Lemma plain_expiry_exact (v : JsValue) (expiresAt : option Z) env w :
  plain_expiry v (now env) = Some expiresAt ->
  fst (expiry_of v env w) = Returned expiresAt.
Proof.
  destruct v as [| | b | seconds e | t | items | fields]; cbn [plain_expiry];
    try discriminate; try (intros E; injection E as <-; reflexivity).
  destruct e; try discriminate.
  unfold expiry_of. cbn [truthy].
  destruct (seconds =? 0) eqn:Z0; cbn [negb].
  - intros E. injection E as <-. reflexivity.
  - unfold bind, Date_now. cbn [to_number]. unfold date_after.
    change (0 <=? 0 + 3) with true. cbv iota.
    change (10 ^ (0 + 3)) with 1000.
    destruct (Z.abs (now env + seconds * 1000) <=? 8640000000000000); [|discriminate].
    intros E. injection E as <-. reflexivity.
Qed.

(** The row the callback hands to the store. *)
Lemma store_tokens_upserts (platform : string) (userId data : JsValue) (expiresAt : option Z)
    env w :
  data <> JNull -> data <> JUndefined ->
  fst (expiry_of (get_prop data "expires_in") env w) = Returned expiresAt ->
  store_tokens platform userId data env w
  = bind
      (upsert_token
         {| user_id := userId;
            platform_id := platform;
            access_token := get_prop data "access_token";
            refresh_token := get_prop data "refresh_token";
            token_type := js_or (get_prop data "token_type") (JString "Bearer");
            expires_at := expiresAt;
            scope := get_prop data "scope";
            token_data := data;
            updated_at := now env |})
      (fun storeError =>
         match storeError with
         | Some m => throw m
         | None => redirect platform ("?connected=" ++ platform ++ "&success=true")
         end) env w.
Proof.
  intros Hn Hu Hx. unfold store_tokens.
  assert (Hr : read_prop data "expires_in" env w = (Returned (get_prop data "expires_in"), w)).
  { destruct data; try reflexivity; contradiction. }
  unfold bind at 1. rewrite Hr.
  unfold bind at 1.
  destruct (expiry_of_world (get_prop data "expires_in") env w w) as [Hw _].
  destruct (expiry_of (get_prop data "expires_in") env w) as [o w1].
  cbn [fst snd] in *. subst o w1.
  unfold bind at 1. unfold Date_now. reflexivity.
Qed.

(** The callback when every step succeeds. *)
Lemma callback_stores (platform : string) (q : Query) env w
    (code state : string) (stateData : JsValue) (config : ConfigRow)
    (r : Request) (data : JsValue) (expiresAt : option Z) :
  given (q_error q) = None ->
  given (q_code q) = Some code ->
  q_state q = Some state ->
  decode_state state = Some stateData ->
  get_prop stateData "platform" = JString platform ->
  template (get_prop stateData "userId") <> None ->
  fault env SelectConfigs = Healthy ->
  single (filter (fun r => String.eqb platform (cfg_platform_id r) && cfg_enabled r)
                 (platform_oauth_configs w)) = Some config ->
  exchange_code platform code config = axios r ->
  provider env r = HttpOk data ->
  data <> JNull -> data <> JUndefined ->
  fst (expiry_of (get_prop data "expires_in") env w) = Returned expiresAt ->
  fault env UpsertToken = Healthy ->
  oauth_callback platform q env w
  = (Returned (Redirect (callback_url env platform ++ "?connected=" ++ platform
                           ++ "&success=true")),
     set_tokens
       (upserted (token_row platform (get_prop stateData "userId") data expiresAt (now env))
                 (oauth_tokens w))
       (log (EvUpsertToken (token_row platform (get_prop stateData "userId") data
                              expiresAt (now env)))
          (log (EvHttp r) (log (EvSelectConfigs platform) w)))).
Proof.
  intros He Hc Hs Hd Hp Ht Hf Hcfg Hx Hprov Hn Hu Hexp Hup.
  rewrite (callback_configured platform q env w code state stateData config
             He Hc Hs Hd Hp Ht Hf Hcfg).
  rewrite Hx. unfold try_catch. unfold bind at 1. unfold axios. rewrite Hprov.
  rewrite (store_tokens_upserts platform (get_prop stateData "userId") data expiresAt env _ Hn Hu).
  2:{ rewrite <- Hexp. apply expiry_of_world. }
  unfold bind, upsert_token. rewrite Hup. reflexivity.
Qed.

(** X4. A callback that comes to an enabled configuration, with a
    provider that answers and a healthy store, makes three calls, in this
    order: the select of the configuration, the exchange, and one upsert
    of a row that carries the user of the state, the platform, the tokens
    of the answer (the token type being Bearer when the answer has none),
    the clock as its update time and, as its expiry, nothing when the
    answer has no [expires_in] and the clock plus that many seconds when
    it is a whole number. The row is in the table afterwards, and the
    browser is sent to the address of success. *)
Theorem callback_success (platform : string) (q : Query) (env : Env) (w : World)
    (code state : string) (stateData : JsValue) (config : ConfigRow)
    (r : Request) (data : JsValue) (expiresAt : option Z) (user : string) :
  given (q_error q) = None ->
  given (q_code q) = Some code ->
  q_state q = Some state ->
  decode_state state = Some stateData ->
  get_prop stateData "platform" = JString platform ->
  template (get_prop stateData "userId") = Some user ->
  fault env SelectConfigs = Healthy ->
  single (filter (fun r => String.eqb platform (cfg_platform_id r) && cfg_enabled r)
                 (platform_oauth_configs w)) = Some config ->
  exchange_code platform code config = axios r ->
  provider env r = HttpOk data ->
  data <> JNull -> data <> JUndefined ->
  plain_expiry (get_prop data "expires_in") (now env) = Some expiresAt ->
  fault env UpsertToken = Healthy ->
  fst (oauth_callback platform q env w)
  = Returned (Redirect (callback_url env platform ++ "?connected=" ++ platform ++ "&success=true"))
  /\ trace (snd (oauth_callback platform q env w))
     = EvUpsertToken (token_row platform (get_prop stateData "userId") data expiresAt (now env))
       :: EvHttp r :: EvSelectConfigs platform :: trace w
  /\ oauth_tokens (snd (oauth_callback platform q env w))
     = upserted (token_row platform (get_prop stateData "userId") data expiresAt (now env))
                (oauth_tokens w)
  /\ In (token_row platform (get_prop stateData "userId") data expiresAt (now env))
        (oauth_tokens (snd (oauth_callback platform q env w))).
Proof.
  intros He Hc Hs Hd Hp Ht Hf Hcfg Hx Hprov Hn Hu Hexp Hup.
  pose proof (callback_stores platform q env w code state stateData config r data expiresAt
                He Hc Hs Hd Hp (converts _ _ Ht) Hf Hcfg Hx Hprov Hn Hu
                (plain_expiry_exact _ _ env w Hexp) Hup) as E.
  rewrite E. cbn [fst snd set_tokens log oauth_tokens trace].
  repeat split.
  unfold upserted.
  destruct (existsb (same_key _) (oauth_tokens w)) eqn:Ex.
  - apply existsb_exists in Ex. destruct Ex as [x [Hin Hk]].
    apply in_map_iff. exists x. split; [now rewrite Hk | exact Hin].
  - apply in_or_app. right. now left.
Qed.

Lemma callback_success_witness :
  let row := token_row "spotify" (JString "user-1") Demo.response_hour
               (Some (now Demo.env_hour + 3600 * 1000)) (now Demo.env_hour) in
  let after := oauth_callback "spotify" (Sample.query "spotify") Demo.env_hour
                 Sample.configured in
  fst after
  = Returned (Redirect (callback_url Demo.env_hour "spotify" ++ "?connected=" ++ "spotify"
                          ++ "&success=true"))
  /\ trace (snd after)
     = EvUpsertToken row :: EvHttp (spotify_request "code-1" Sample.config)
         :: EvSelectConfigs "spotify" :: trace Sample.configured
  /\ oauth_tokens (snd after) = upserted row (oauth_tokens Sample.configured)
  /\ In row (oauth_tokens (snd after)).
Proof.
  apply (callback_success "spotify" (Sample.query "spotify") Demo.env_hour
           Sample.configured "code-1" (encode_state "user-1" "spotify")
           (Demo.state_data "spotify") Sample.config
           (spotify_request "code-1" Sample.config) Demo.response_hour
           (Some (now Demo.env_hour + 3600 * 1000)) "user-1").
  - reflexivity.
  - reflexivity.
  - reflexivity.
  - vm_compute. reflexivity.
  - reflexivity.
  - reflexivity.
  - reflexivity.
  - reflexivity.
  - reflexivity.
  - reflexivity.
  - discriminate.
  - discriminate.
  - reflexivity.
  - reflexivity.
Defined.

(** X5. When the store refuses the upsert, by an error in its answer or by
    rejecting the call, a callback that came to it redirects with the
    message of the store: the code has been spent on the exchange, and the
    table of tokens is as it was. *)
Theorem store_failure_is_reported (platform : string) (q : Query) (env : Env) (w : World)
    (code state : string) (stateData : JsValue) (config : ConfigRow)
    (r : Request) (data : JsValue) (expiresAt : option Z) (reason user text : string) :
  given (q_error q) = None ->
  given (q_code q) = Some code ->
  q_state q = Some state ->
  decode_state state = Some stateData ->
  get_prop stateData "platform" = JString platform ->
  template (get_prop stateData "userId") = Some user ->
  fault env SelectConfigs = Healthy ->
  single (filter (fun r => String.eqb platform (cfg_platform_id r) && cfg_enabled r)
                 (platform_oauth_configs w)) = Some config ->
  exchange_code platform code config = axios r ->
  provider env r = HttpOk data ->
  data <> JNull -> data <> JUndefined ->
  plain_expiry (get_prop data "expires_in") (now env) = Some expiresAt ->
  fault env UpsertToken = ReturnsError reason \/ fault env UpsertToken = Rejects reason ->
  Uri.encodeURIComponent reason = Some text ->
  oauth_callback platform q env w
  = (Returned (Redirect (callback_url env platform ++ "?error=" ++ text)),
     log (EvUpsertToken (token_row platform (get_prop stateData "userId") data
                           expiresAt (now env)))
       (log (EvHttp r) (log (EvSelectConfigs platform) w)))
  /\ In (EvHttp r) (trace (snd (oauth_callback platform q env w)))
  /\ oauth_tokens (snd (oauth_callback platform q env w)) = oauth_tokens w.
Proof.
  intros He Hc Hs Hd Hp Ht Hf Hcfg Hx Hprov Hn Hu Hexp Hup Henc.
  assert (E : oauth_callback platform q env w
              = (Returned (Redirect (callback_url env platform ++ "?error=" ++ text)),
                 log (EvUpsertToken (token_row platform (get_prop stateData "userId") data
                                       expiresAt (now env)))
                   (log (EvHttp r) (log (EvSelectConfigs platform) w)))).
  { rewrite (callback_configured platform q env w code state stateData config
               He Hc Hs Hd Hp (converts _ _ Ht) Hf Hcfg).
    rewrite Hx. unfold try_catch. unfold bind at 1. unfold axios. rewrite Hprov.
    rewrite (store_tokens_upserts platform (get_prop stateData "userId") data expiresAt env _ Hn Hu).
    2:{ apply plain_expiry_exact. exact Hexp. }
    unfold bind, upsert_token, error_redirect.
    destruct Hup as [-> | ->]; cbn [throw message]; rewrite Henc; reflexivity. }
  rewrite E. cbn [fst snd log oauth_tokens trace].
  repeat split. right. now left.
Qed.

Lemma store_failure_is_reported_witness :
  let after := oauth_callback "spotify" (Sample.query "spotify") Demo.env_read_only
                 Sample.configured in
  after
  = (Returned (Redirect (callback_url Demo.env_read_only "spotify" ++ "?error="
                ++ "permission%20denied%20for%20table%20oauth_tokens")),
     log (EvUpsertToken (token_row "spotify"
                           (get_prop (Demo.state_data "spotify") "userId") Sample.response
                           None (now Demo.env_read_only)))
       (log (EvHttp (spotify_request "code-1" Sample.config))
          (log (EvSelectConfigs "spotify") Sample.configured)))
  /\ In (EvHttp (spotify_request "code-1" Sample.config)) (trace (snd after))
  /\ oauth_tokens (snd after) = oauth_tokens Sample.configured.
Proof.
  apply (store_failure_is_reported "spotify" (Sample.query "spotify") Demo.env_read_only
           Sample.configured "code-1" (encode_state "user-1" "spotify")
           (Demo.state_data "spotify") Sample.config
           (spotify_request "code-1" Sample.config) Sample.response None
           "permission denied for table oauth_tokens" "user-1"
           "permission%20denied%20for%20table%20oauth_tokens").
  - reflexivity.
  - reflexivity.
  - reflexivity.
  - vm_compute. reflexivity.
  - reflexivity.
  - reflexivity.
  - reflexivity.
  - reflexivity.
  - reflexivity.
  - reflexivity.
  - discriminate.
  - discriminate.
  - reflexivity.
  - left. reflexivity.
  - reflexivity.
Defined.

(** ** From the callback to the next read *)

Lemma order_desc_repeat (row : TokenRow) (n : nat) :
  order_desc (repeat row n) = repeat row n.
Proof.
  induction n as [|n IH]; [reflexivity|].
  cbn [repeat order_desc]. rewrite IH.
  destruct n; cbn [repeat insert_desc]; [reflexivity|].
  now rewrite Z.leb_refl.
Qed.

(** After an upsert the rows of the key are copies of the row. *)
Lemma upserted_key_rows (row : TokenRow) (rows : list TokenRow) (u : string) :
  user_id row = JString u ->
  exists n, filter (has_key u (platform_id row)) (upserted row rows) = repeat row (S n).
Proof.
  intros Hu.
  assert (Hk : forall r, same_key row r = has_key u (platform_id row) r).
  { intros r. unfold same_key. now rewrite Hu. }
  assert (Hrow : has_key u (platform_id row) row = true).
  { unfold has_key. rewrite Hu. cbn. now rewrite !String.eqb_refl. }
  unfold upserted. destruct (existsb (same_key row) rows) eqn:E.
  - assert (F : filter (has_key u (platform_id row))
                  (map (fun r => if same_key row r then row else r) rows)
                = repeat row (length (filter (has_key u (platform_id row)) rows))).
    { clear E. induction rows as [|x rows IH]; [reflexivity|].
      cbn [map filter]. rewrite Hk.
      destruct (has_key u (platform_id row) x) eqn:K.
      - rewrite Hrow. cbn [length repeat]. now rewrite IH.
      - rewrite K. exact IH. }
    rewrite F.
    apply existsb_exists in E. destruct E as [x [Hin Hx]]. rewrite Hk in Hx.
    assert (In x (filter (has_key u (platform_id row)) rows)) as Hf.
    { apply filter_In. now split. }
    destruct (filter (has_key u (platform_id row)) rows) as [|y l]; [destruct Hf|].
    exists (length l). reflexivity.
  - exists 0%nat. rewrite filter_app. cbn [filter]. rewrite Hrow.
    assert (F : filter (has_key u (platform_id row)) rows = []).
    { induction rows as [|x rows IH]; [reflexivity|].
      cbn [existsb] in E. apply orb_false_iff in E. destruct E as [E1 E2].
      cbn [filter]. rewrite <- Hk, E1. now apply IH. }
    now rewrite F.
Qed.

Lemma numeric_expiry (seconds : Z) env w :
  0 < seconds ->
  Z.abs (now env + seconds * 1000) <= 8640000000000000 ->
  fst (expiry_of (JNumber seconds 0) env w) = Returned (Some (now env + seconds * 1000)).
Proof.
  intros Hpos Hb. unfold expiry_of. cbn [truthy].
  replace (seconds =? 0) with false by (symmetry; apply Z.eqb_neq; lia).
  cbn [negb]. unfold bind, Date_now. cbn [to_number]. unfold date_after.
  change (0 <=? 0 + 3) with true. cbv iota.
  change (10 ^ (0 + 3)) with 1000.
  replace (Z.abs (now env + seconds * 1000) <=? 8640000000000000) with true
    by (symmetry; apply Z.leb_le; lia).
  reflexivity.
Qed.

(** What a read finds after a callback that has stored its row. *)
Lemma read_after_callback (platform : string) (q : Query) env w
    (code state : string) (stateData : JsValue) (config : ConfigRow)
    (r : Request) (data : JsValue) (userId : string) (expiresAt : option Z) env2 :
  given (q_error q) = None ->
  given (q_code q) = Some code ->
  q_state q = Some state ->
  decode_state state = Some stateData ->
  get_prop stateData "platform" = JString platform ->
  get_prop stateData "userId" = JString userId ->
  fault env SelectConfigs = Healthy ->
  single (filter (fun r => String.eqb platform (cfg_platform_id r) && cfg_enabled r)
                 (platform_oauth_configs w)) = Some config ->
  exchange_code platform code config = axios r ->
  provider env r = HttpOk data ->
  data <> JNull -> data <> JUndefined ->
  fst (expiry_of (get_prop data "expires_in") env w) = Returned expiresAt ->
  fault env UpsertToken = Healthy ->
  fault env2 SelectTokens = Healthy ->
  In (token_row platform (JString userId) data expiresAt (now env))
     (oauth_tokens (snd (oauth_callback platform q env w)))
  /\ fst (getUserOAuthToken userId platform env2 (snd (oauth_callback platform q env w)))
     = Returned (if expired (view (token_row platform (JString userId) data expiresAt (now env)))
                            (now env2)
                 then JNull
                 else get_prop data "access_token").
Proof.
  intros He Hc Hs Hd Hp Hid Hf Hcfg Hx Hprov Hn Hu Hexp Hup Hsel.
  assert (Ht : template (get_prop stateData "userId") <> None)
    by (rewrite Hid; discriminate).
  rewrite (callback_stores platform q env w code state stateData config r data _
             He Hc Hs Hd Hp Ht Hf Hcfg Hx Hprov Hn Hu Hexp Hup).
  cbn [snd]. rewrite Hid.
  set (row := token_row platform (JString userId) data expiresAt (now env)) in *.
  destruct (upserted_key_rows row (oauth_tokens w) userId) as [n Hrows]; [reflexivity|].
  change (platform_id row) with platform in Hrows.
  cbn [set_tokens oauth_tokens]. split.
  - assert (Hin : In row (filter (has_key userId platform) (upserted row (oauth_tokens w)))).
    { rewrite Hrows. now left. }
    now apply filter_In in Hin.
  - rewrite (getUserOAuthToken_found userId platform env2 _ row (repeat row n) Hsel).
    + reflexivity.
    + cbn [set_tokens oauth_tokens]. rewrite Hrows. apply (order_desc_repeat row (S n)).
Qed.

(** X6. A token connected by a callback is served by the next reads until
    it expires and not after: when the answer of the provider gives
    [expires_in] as a number of seconds, a read for the user and the
    platform of the callback returns the access token of the answer as long
    as the clock is not past the clock of the callback plus that many
    seconds, and [null] from then on. *)
Theorem connected_token_is_served_until_expiry
    (platform : string) (q : Query) (env : Env) (w : World)
    (code state : string) (stateData : JsValue) (config : ConfigRow)
    (r : Request) (data : JsValue) (userId : string) (seconds : Z) (env2 : Env) :
  given (q_error q) = None ->
  given (q_code q) = Some code ->
  q_state q = Some state ->
  decode_state state = Some stateData ->
  get_prop stateData "platform" = JString platform ->
  get_prop stateData "userId" = JString userId ->
  fault env SelectConfigs = Healthy ->
  single (filter (fun r => String.eqb platform (cfg_platform_id r) && cfg_enabled r)
                 (platform_oauth_configs w)) = Some config ->
  exchange_code platform code config = axios r ->
  provider env r = HttpOk data ->
  get_prop data "expires_in" = JNumber seconds 0 ->
  0 < seconds ->
  Z.abs (now env + seconds * 1000) <= 8640000000000000 ->
  fault env UpsertToken = Healthy ->
  fault env2 SelectTokens = Healthy ->
  fst (getUserOAuthToken userId platform env2 (snd (oauth_callback platform q env w)))
  = Returned (if now env + seconds * 1000 <? now env2
              then JNull
              else get_prop data "access_token").
Proof.
  intros He Hc Hs Hd Hp Hid Hf Hcfg Hx Hprov Hsec Hpos Hb Hup Hsel.
  assert (Hn : data <> JNull) by (intros ->; discriminate).
  assert (Hu : data <> JUndefined) by (intros ->; discriminate).
  pose proof (numeric_expiry seconds env w Hpos Hb) as Hexp. rewrite <- Hsec in Hexp.
  apply (read_after_callback platform q env w code state stateData config r data userId
           (Some (now env + seconds * 1000)) env2
           He Hc Hs Hd Hp Hid Hf Hcfg Hx Hprov Hn Hu Hexp Hup Hsel).
Qed.

Lemma connected_token_is_served_until_expiry_witness :
  fst (getUserOAuthToken "user-1" "spotify" (Demo.env_at 1700003600000)
         (snd (oauth_callback "spotify" (Sample.query "spotify") Demo.env_hour
                 Sample.configured)))
  = Returned (if now Demo.env_hour + 3600 * 1000 <? now (Demo.env_at 1700003600000)
              then JNull
              else get_prop Demo.response_hour "access_token").
Proof.
  apply (connected_token_is_served_until_expiry "spotify" (Sample.query "spotify")
           Demo.env_hour Sample.configured "code-1" (encode_state "user-1" "spotify")
           (Demo.state_data "spotify") Sample.config
           (spotify_request "code-1" Sample.config) Demo.response_hour "user-1" 3600
           (Demo.env_at 1700003600000)).
  - reflexivity.
  - reflexivity.
  - reflexivity.
  - vm_compute. reflexivity.
  - reflexivity.
  - reflexivity.
  - reflexivity.
  - reflexivity.
  - reflexivity.
  - reflexivity.
  - reflexivity.
  - lia.
  - cbn. lia.
  - reflexivity.
  - reflexivity.
Defined.

(** ** A token without an expiry *)

(** C10. When no token response carries [expires_in], a callback that
    succeeds stores a row whose expiry is null, and no callback stores a
    row with another expiry; a read for the user and the platform of that
    callback returns the access token of the answer whatever the clock
    says, at the time of the callback or thousands of years later; and so
    does every read that finds first a row with a null expiry, whoever
    wrote it. *)
Theorem token_without_expiry_never_expires
    (platform : string) (q : Query) (env : Env) (w : World)
    (code state : string) (stateData : JsValue) (config : ConfigRow)
    (r : Request) (data : JsValue) (userId token : string) (env2 : Env)
    (env3 : Env) (userId3 platform3 : string) (w3 : World)
    (tokenData : TokenRow) (rest : list TokenRow) :
  (forall r' data', provider env r' = HttpOk data' -> get_prop data' "expires_in" = JUndefined) ->
  given (q_error q) = None ->
  given (q_code q) = Some code ->
  q_state q = Some state ->
  decode_state state = Some stateData ->
  get_prop stateData "platform" = JString platform ->
  get_prop stateData "userId" = JString userId ->
  fault env SelectConfigs = Healthy ->
  single (filter (fun r => String.eqb platform (cfg_platform_id r) && cfg_enabled r)
                 (platform_oauth_configs w)) = Some config ->
  exchange_code platform code config = axios r ->
  provider env r = HttpOk data ->
  get_prop data "access_token" = JString token ->
  fault env UpsertToken = Healthy ->
  fault env2 SelectTokens = Healthy ->
  fault env3 SelectTokens = Healthy ->
  order_desc (filter (has_key userId3 platform3) (oauth_tokens w3)) = tokenData :: rest ->
  expires_at tokenData = None ->
  (In (token_row platform (JString userId) data None (now env))
      (oauth_tokens (snd (oauth_callback platform q env w)))
   /\ expires_at (token_row platform (JString userId) data None (now env)) = None)
  /\ fst (getUserOAuthToken userId platform env2 (snd (oauth_callback platform q env w)))
     = Returned (JString token)
  /\ (forall q' w',
        exists new,
          trace (snd (oauth_callback platform q' env w')) = (new ++ trace w')%list
          /\ Forall (fun e => forall row, e = EvUpsertToken row -> expires_at row = None) new)
  /\ fst (getUserOAuthToken userId3 platform3 env3 w3) = Returned (access_token tokenData).
Proof.
  intros Hprov0 He Hc Hs Hd Hp Hid Hf Hcfg Hx Hprov Htok Hup Hsel Hsel3 Eo Hnone.
  assert (Hn : data <> JNull) by (intros ->; discriminate).
  assert (Hu : data <> JUndefined) by (intros ->; discriminate).
  assert (Hexp : fst (expiry_of (get_prop data "expires_in") env w) = Returned None).
  { rewrite (Hprov0 r data Hprov). reflexivity. }
  destruct (read_after_callback platform q env w code state stateData config r data userId
              None env2 He Hc Hs Hd Hp Hid Hf Hcfg Hx Hprov Hn Hu Hexp Hup Hsel)
    as [Hin Hread].
  split; [split; [exact Hin | reflexivity]|].
  split; [rewrite <- Htok; exact Hread|]. split.
  - intros q' w'. now apply callback_writes_no_expiry.
  - rewrite (getUserOAuthToken_found userId3 platform3 env3 w3 tokenData rest Hsel3 Eo).
    unfold expired. cbn [view view_expires_at fst]. now rewrite Hnone.
Qed.

Lemma token_without_expiry_never_expires_witness :
  (In (token_row "spotify" (JString "user-1") Sample.response None (now Sample.env))
      (oauth_tokens (snd (oauth_callback "spotify" (Sample.query "spotify") Sample.env
                            Sample.configured)))
   /\ expires_at (token_row "spotify" (JString "user-1") Sample.response None (now Sample.env))
      = None)
  /\ fst (getUserOAuthToken "user-1" "spotify" (Demo.env_at 4102444800000)
            (snd (oauth_callback "spotify" (Sample.query "spotify") Sample.env
                    Sample.configured)))
     = Returned (JString "token-1")
  /\ (forall q' w',
        exists new,
          trace (snd (oauth_callback "spotify" q' Sample.env w')) = (new ++ trace w')%list
          /\ Forall (fun e => forall row, e = EvUpsertToken row -> expires_at row = None) new)
  /\ fst (getUserOAuthToken "user-1" "spotify" Sample.env Sample.duplicated)
     = Returned (access_token (Sample.row "token-c" None 30)).
Proof.
  apply (token_without_expiry_never_expires "spotify" (Sample.query "spotify") Sample.env
           Sample.configured "code-1" (encode_state "user-1" "spotify")
           (Demo.state_data "spotify") Sample.config
           (spotify_request "code-1" Sample.config) Sample.response "user-1" "token-1"
           (Demo.env_at 4102444800000)
           Sample.env "user-1" "spotify" Sample.duplicated
           (Sample.row "token-c" None 30)
           [Sample.row "token-b" None 20; Sample.row "token-a" None 10]).
  - intros r data E. injection E as <-. reflexivity.
  - reflexivity.
  - reflexivity.
  - reflexivity.
  - vm_compute. reflexivity.
  - reflexivity.
  - reflexivity.
  - reflexivity.
  - reflexivity.
  - reflexivity.
  - reflexivity.
  - reflexivity.
  - reflexivity.
  - reflexivity.
  - reflexivity.
  - reflexivity.
  - reflexivity.
Defined.

(** ** The calls of the callback *)

Lemma exchange_code_cases (platform code : string) (config : ConfigRow) :
  (exists m, exchange_code platform code config = throw m)
  \/ (exists r, exchange_code platform code config = axios r).
Proof.
  unfold exchange_code.
  repeat match goal with
         | |- context [if ?b then _ else _] => destruct b
         end;
    try (right; eexists; reflexivity); left; eexists; reflexivity.
Qed.

(** The end of the [try] block leaves the world as it was, or with the
    upsert in its trace, carried out or not. *)
Lemma store_tokens_world (platform : string) (userId tokenData : JsValue) env w :
  after_store w (snd (store_tokens platform userId tokenData env w)).
Proof.
  unfold store_tokens.
  unfold bind at 1.
  destruct (read_prop tokenData "expires_in" env w) as [[expires_in|e] w1] eqn:R.
  2:{ left. destruct tokenData; cbn in R; injection R as _ <-; reflexivity. }
  assert (w1 = w) as ->.
  { destruct tokenData; cbn in R; injection R as _ <-; reflexivity. }
  unfold bind at 1.
  destruct (expiry_of_world expires_in env w w) as [Hw _].
  destruct (expiry_of expires_in env w) as [[expiresAt|e] w2]; cbn [snd] in Hw; subst w2.
  2:{ now left. }
  unfold bind, Date_now, upsert_token.
  right. eexists.
  destruct (fault env UpsertToken); cbn [snd redirect throw]; [right | left | left]; reflexivity.
Qed.

Lemma exchange_world (platform code : string) (userId : JsValue) (cfg : option ConfigRow)
    env w :
  after_exchange w
    (snd (match cfg with
          | Some config =>
              tokenData <- exchange_code platform code config ;;
              store_tokens platform userId tokenData
          | None => throw ("Platform " ++ platform ++ " not configured or not enabled")
          end env w)).
Proof.
  destruct cfg as [config|]; [|now left].
  destruct (exchange_code_cases platform code config) as [[m ->] | [r ->]]; [now left|].
  unfold bind, axios. right. exists r.
  destruct (provider env r) as [data|m]; [apply store_tokens_world | now left].
Qed.

Lemma callback_try_world (platform code state : string) env w :
  after_callback platform w (snd (callback_try platform code state env w)).
Proof.
  unfold callback_try.
  destruct (decode_state state) as [stateData|]; [|now left].
  assert (D : (exists e, destructure_state stateData env w = (Thrown e, w))
              \/ destructure_state stateData env w
                 = (Returned (get_prop stateData "userId", get_prop stateData "platform"), w)).
  { destruct stateData; try (right; reflexivity); left; eexists; reflexivity. }
  unfold bind at 1. destruct D as [[e ->] | ->]; [now left|].
  destruct (negb _); [now left|].
  unfold bind at 1. unfold log_line.
  destruct (template (get_prop stateData "userId")); [|now left].
  cbn [ret].
  unfold bind at 1. unfold select_config. right.
  destruct (fault env SelectConfigs).
  - apply exchange_world.
  - apply (exchange_world platform code (get_prop stateData "userId") None).
  - now left.
Qed.

(** X7. Whatever the request, the store and the provider do, a callback
    makes at most three calls, each at most once and in this order: the
    select of the configuration, one request to a provider, one upsert. It
    reads no token, deletes none, and leaves the two tables of
    configuration as they were; the table of tokens changes by that one
    upsert or not at all. *)
Theorem callback_call_discipline (platform : string) (q : Query) (env : Env) (w : World) :
  platform_oauth_configs (snd (oauth_callback platform q env w)) = platform_oauth_configs w
  /\ platform_settings (snd (oauth_callback platform q env w)) = platform_settings w
  /\ ((trace (snd (oauth_callback platform q env w)) = trace w
       /\ oauth_tokens (snd (oauth_callback platform q env w)) = oauth_tokens w)
      \/ (trace (snd (oauth_callback platform q env w)) = EvSelectConfigs platform :: trace w
          /\ oauth_tokens (snd (oauth_callback platform q env w)) = oauth_tokens w)
      \/ (exists r,
            trace (snd (oauth_callback platform q env w))
            = EvHttp r :: EvSelectConfigs platform :: trace w
            /\ oauth_tokens (snd (oauth_callback platform q env w)) = oauth_tokens w)
      \/ (exists r row,
            trace (snd (oauth_callback platform q env w))
            = EvUpsertToken row :: EvHttp r :: EvSelectConfigs platform :: trace w
            /\ (oauth_tokens (snd (oauth_callback platform q env w)) = oauth_tokens w
                \/ oauth_tokens (snd (oauth_callback platform q env w))
                   = upserted row (oauth_tokens w)))).
Proof.
  assert (Hw : after_callback platform w (snd (oauth_callback platform q env w))).
  { unfold oauth_callback.
    destruct (given (q_error q)); [now left|].
    destruct (given (q_code q)) as [code|], (given (q_state q)) as [state|]; try now left.
    pose proof (callback_try_world platform code state env w) as H.
    unfold try_catch. destruct (callback_try platform code state env w) as [[a|e] w1];
      [exact H | rewrite error_redirect_world; exact H]. }
  destruct Hw as [E | [E | [r [E | [row [E | E]]]]]]; rewrite E;
    cbn [log set_tokens platform_oauth_configs platform_settings oauth_tokens trace];
    (split; [reflexivity|]); (split; [reflexivity|]).
  - left. now split.
  - right; left. now split.
  - right; right; left. exists r. now split.
  - right; right; right. exists r, row. split; [reflexivity | now left].
  - right; right; right. exists r, row. split; [reflexivity | now right].
Qed.

(** ** Reading a token: what the call changes *)

Lemma filter_all {A} (f : A -> bool) (l : list A) :
  (forall x, In x l -> f x = true) -> filter f l = l.
Proof.
  induction l as [|x l IH]; intros H; [reflexivity|].
  cbn [filter]. rewrite (H x) by now left. f_equal. apply IH. intros y Hy. apply H. now right.
Qed.

Lemma filter_none {A} (f : A -> bool) (l : list A) :
  (forall x, In x l -> f x = false) -> filter f l = [].
Proof.
  induction l as [|x l IH]; intros H; [reflexivity|].
  cbn [filter]. rewrite (H x) by now left. apply IH. intros y Hy. apply H. now right.
Qed.

(** A purge deletes rows of its key only, and adds none. *)
Lemma purge_other_keys u p (times : list Z) (rows : list TokenRow) :
  filter (fun r => negb (has_key u p r)) (purge u p times rows)
  = filter (fun r => negb (has_key u p r)) rows.
Proof.
  unfold purge. apply filter_twice. intros x.
  destruct (has_key u p x); [now rewrite andb_false_r | reflexivity].
Qed.

Lemma purge_In u p (times : list Z) (rows : list TokenRow) (r : TokenRow) :
  In r (purge u p times rows) -> In r rows.
Proof. unfold purge. intros H. now apply filter_In in H. Qed.

(** When the store refuses the deletes, the loop changes no table. *)
Lemma delete_duplicates_refused u p (l : list TokenView) env w :
  fault env DeleteToken <> Healthy ->
  oauth_tokens (snd (delete_duplicates u p l env w)) = oauth_tokens w
  /\ trace (snd (delete_duplicates u p l env w))
     = (rev (map (fun t => EvDeleteToken u p (view_updated_at t)) l) ++ trace w)%list.
Proof.
  intros Hf. revert w. induction l as [|t l IH]; intros w.
  - split; reflexivity.
  - rewrite delete_duplicates_cons.
    destruct (IH (snd (try_catch (delete_token u p (view_updated_at t)) (fun _ => ret tt) env w)))
      as [E1 E2].
    rewrite E1, E2. unfold try_catch, delete_token.
    destruct (fault env DeleteToken); [contradiction | |];
      cbn [snd ret log oauth_tokens trace map rev]; (split; [reflexivity|]);
      now rewrite <- app_assoc.
Qed.

Lemma delete_duplicates_configs u p (l : list TokenView) env w :
  platform_oauth_configs (snd (delete_duplicates u p l env w)) = platform_oauth_configs w
  /\ platform_settings (snd (delete_duplicates u p l env w)) = platform_settings w.
Proof.
  revert w. induction l as [|t l IH]; intros w.
  - split; reflexivity.
  - rewrite delete_duplicates_cons.
    destruct (IH (snd (try_catch (delete_token u p (view_updated_at t)) (fun _ => ret tt) env w)))
      as [E1 E2].
    rewrite E1, E2. unfold try_catch, delete_token.
    destruct (fault env DeleteToken); split; reflexivity.
Qed.

(** The table of tokens after the loop, whatever the store does. *)
Lemma delete_duplicates_purges u p (l : list TokenView) env w :
  exists times,
    oauth_tokens (snd (delete_duplicates u p l env w)) = purge u p times (oauth_tokens w).
Proof.
  destruct (fault env DeleteToken) eqn:F.
  - exists (map view_updated_at l). now apply delete_duplicates_healthy.
  - exists []. rewrite purge_nil. apply delete_duplicates_refused. now rewrite F.
  - exists []. rewrite purge_nil. apply delete_duplicates_refused. now rewrite F.
Qed.

(** A read always returns, and the world it leaves is that of its select
    followed by the deletes of some list of duplicates. *)
Lemma getUserOAuthToken_shape u p env w :
  exists v l,
    getUserOAuthToken u p env w
    = (Returned v, snd (delete_duplicates u p l env (log (EvSelectTokens u p) w))).
Proof.
  unfold getUserOAuthToken, try_catch. unfold bind at 1. unfold select_tokens.
  destruct (fault env SelectTokens).
  - destruct (map view (order_desc (filter (has_key u p) (oauth_tokens w)))) as [|t rest].
    + exists JNull, []. reflexivity.
    + unfold bind at 1.
      destruct rest as [|d rest].
      * cbn [length Nat.ltb Nat.leb]. unfold bind, ret, Date_now.
        destruct (expired t (now env)); eexists; exists []; reflexivity.
      * replace (1 <? length (t :: d :: rest))%nat with true by reflexivity.
        pose proof (delete_duplicates_returns u p (d :: rest) env (log (EvSelectTokens u p) w)) as Hr.
        destruct (delete_duplicates u p (d :: rest) env (log (EvSelectTokens u p) w))
          as [o w1] eqn:E.
        cbn [fst] in Hr. subst o. unfold bind, Date_now, ret.
        destruct (expired t (now env)); eexists; exists (d :: rest); rewrite E; reflexivity.
  - exists JNull, []. reflexivity.
  - exists JNull, []. reflexivity.
Qed.

(** X8. A read of a token never throws, whatever the store does. It writes
    nothing: the two tables of configuration are as they were, every row
    of the table of tokens that belongs to another user or platform is
    still there, in place, and every row that is there afterwards was
    there before. *)
Theorem read_keeps_other_rows (env : Env) (userId platform : string) (w : World) :
  (exists v, fst (getUserOAuthToken userId platform env w) = Returned v)
  /\ platform_oauth_configs (snd (getUserOAuthToken userId platform env w))
     = platform_oauth_configs w
  /\ platform_settings (snd (getUserOAuthToken userId platform env w)) = platform_settings w
  /\ filter (fun r => negb (has_key userId platform r))
            (oauth_tokens (snd (getUserOAuthToken userId platform env w)))
     = filter (fun r => negb (has_key userId platform r)) (oauth_tokens w)
  /\ (forall r, In r (oauth_tokens (snd (getUserOAuthToken userId platform env w))) ->
                In r (oauth_tokens w)).
Proof.
  destruct (getUserOAuthToken_shape userId platform env w) as [v [l E]].
  rewrite E. cbn [fst snd].
  destruct (delete_duplicates_configs userId platform l env (log (EvSelectTokens userId platform) w))
    as [C1 C2].
  destruct (delete_duplicates_purges userId platform l env (log (EvSelectTokens userId platform) w))
    as [times T].
  rewrite C1, C2, T. cbn [log platform_oauth_configs platform_settings oauth_tokens].
  split; [now exists v|]. split; [reflexivity|]. split; [reflexivity|].
  split; [apply purge_other_keys | apply purge_In].
Qed.

(** X9. Refused deletes do not stop a read: when the store answers the
    select and refuses every delete, the read still returns the token of
    the latest row (or [null] if it is expired), after one attempt of a
    delete for each duplicate, and the table is as it was. *)
Theorem read_survives_refused_deletes
    (env : Env) (userId platform : string) (w : World)
    (tokenData : TokenRow) (rest : list TokenRow) :
  fault env SelectTokens = Healthy ->
  fault env DeleteToken <> Healthy ->
  order_desc (filter (has_key userId platform) (oauth_tokens w)) = tokenData :: rest ->
  fst (getUserOAuthToken userId platform env w)
  = Returned (if expired (view tokenData) (now env) then JNull else access_token tokenData)
  /\ oauth_tokens (snd (getUserOAuthToken userId platform env w)) = oauth_tokens w
  /\ trace (snd (getUserOAuthToken userId platform env w))
     = (rev (map (fun d => EvDeleteToken userId platform (updated_at d)) rest)
          ++ EvSelectTokens userId platform :: trace w)%list.
Proof.
  intros Hs Hd Eo.
  rewrite (getUserOAuthToken_found userId platform env w tokenData rest Hs Eo).
  cbn [fst snd].
  destruct (delete_duplicates_refused userId platform (map view rest) env
              (log (EvSelectTokens userId platform) w) Hd) as [E1 E2].
  rewrite E1, E2, map_map. repeat split.
Qed.

Lemma read_survives_refused_deletes_witness :
  let after := getUserOAuthToken "user-1" "spotify" Demo.env_no_delete Sample.duplicated in
  fst after
  = Returned (if expired (view (Sample.row "token-c" None 30)) (now Demo.env_no_delete)
              then JNull else access_token (Sample.row "token-c" None 30))
  /\ oauth_tokens (snd after) = oauth_tokens Sample.duplicated
  /\ trace (snd after)
     = (rev (map (fun d => EvDeleteToken "user-1" "spotify" (updated_at d))
               [Sample.row "token-b" None 20; Sample.row "token-a" None 10])
          ++ EvSelectTokens "user-1" "spotify" :: trace Sample.duplicated)%list.
Proof.
  apply (read_survives_refused_deletes Demo.env_no_delete "user-1" "spotify" Sample.duplicated
           (Sample.row "token-c" None 30)
           [Sample.row "token-b" None 20; Sample.row "token-a" None 10]).
  - reflexivity.
  - discriminate.
  - reflexivity.
Defined.

(** X10. The expiry is strict: a token whose expiry time is the clock
    itself, or later, is still returned. *)
Theorem token_is_valid_at_its_expiry_time
    (env : Env) (userId platform : string) (w : World)
    (tokenData : TokenRow) (rest : list TokenRow) (e : Z) :
  fault env SelectTokens = Healthy ->
  order_desc (filter (has_key userId platform) (oauth_tokens w)) = tokenData :: rest ->
  expires_at tokenData = Some e ->
  now env <= e ->
  fst (getUserOAuthToken userId platform env w) = Returned (access_token tokenData).
Proof.
  intros Hs Eo He Hle.
  rewrite (getUserOAuthToken_found userId platform env w tokenData rest Hs Eo).
  unfold expired. cbn [view view_expires_at fst]. rewrite He.
  now replace (e <? now env) with false by (symmetry; apply Z.ltb_ge; lia).
Qed.

Lemma token_is_valid_at_its_expiry_time_witness :
  fst (getUserOAuthToken "user-1" "spotify" Sample.env Demo.expiring_now)
  = Returned (access_token (Sample.row "token-a" (Some 1700000000000) 10)).
Proof.
  apply (token_is_valid_at_its_expiry_time Sample.env "user-1" "spotify" Demo.expiring_now
           (Sample.row "token-a" (Some 1700000000000) 10) [] 1700000000000).
  - reflexivity.
  - reflexivity.
  - reflexivity.
  - cbn. lia.
Defined.

(** ** Reading a token: duplicates *)

Lemma existsb_time (t : Z) (l : list TokenRow) :
  existsb (Z.eqb t) (map updated_at l) = true <-> exists d, In d l /\ updated_at d = t.
Proof.
  rewrite existsb_exists. split.
  - intros [x [Hx E]]. apply in_map_iff in Hx. destruct Hx as [d [Ed Hd]].
    exists d. split; [assumption|]. apply Z.eqb_eq in E. congruence.
  - intros [d [Hd E]]. exists t. split; [|apply Z.eqb_refl].
    apply in_map_iff. now exists d.
Qed.

(** The rows of a key that a purge keeps are those whose time is not
    among the times deleted. *)
Lemma purge_key_rows u p (times : list Z) (rows : list TokenRow) :
  filter (has_key u p) (purge u p times rows)
  = filter (fun r => negb (existsb (Z.eqb (updated_at r)) times))
           (filter (has_key u p) rows).
Proof.
  unfold purge.
  rewrite (filter_twice _ _ (fun r => has_key u p r
                                      && negb (existsb (Z.eqb (updated_at r)) times))).
  - symmetry. apply filter_twice. intros x. reflexivity.
  - intros x. destruct (has_key u p x); [|now rewrite andb_false_r].
    cbn. now rewrite andb_true_r.
Qed.

Lemma purge_length u p (times : list Z) (rows : list TokenRow) :
  (length (purge u p times rows)
   + length (filter (fun r => existsb (Z.eqb (updated_at r)) times)
                    (filter (has_key u p) rows))
   = length rows)%nat.
Proof.
  rewrite (filter_twice _ _ (fun r => has_key u p r && existsb (Z.eqb (updated_at r)) times))
    by reflexivity.
  unfold purge.
  pose proof (filter_both_length
                (fun r => negb (has_key u p r && existsb (Z.eqb (updated_at r)) times)) rows)
    as H.
  rewrite <- H. f_equal. f_equal. apply filter_ext. intros x.
  now rewrite negb_involutive.
Qed.

(** X11. Any number of duplicates is reconciled by one read. When the
    rows of a user and platform are one row that is strictly the latest
    and any list of older rows, in any order in the table, a read against
    a healthy store returns the latest row's token (or [null] if it is
    expired), asks for one delete per older row, and leaves the latest
    row as the only row of that key; the table has lost exactly the older
    rows, and the rows of other keys are in place. *)
Theorem duplicates_reconciled
    (env : Env) (userId platform : string) (w : World)
    (newest : TokenRow) (older : list TokenRow) :
  fault env SelectTokens = Healthy ->
  fault env DeleteToken = Healthy ->
  Permutation (filter (has_key userId platform) (oauth_tokens w)) (newest :: older) ->
  (forall o, In o older -> updated_at o < updated_at newest) ->
  fst (getUserOAuthToken userId platform env w)
  = Returned (if expired (view newest) (now env) then JNull else access_token newest)
  /\ filter (has_key userId platform)
            (oauth_tokens (snd (getUserOAuthToken userId platform env w))) = [newest]
  /\ filter (fun r => negb (has_key userId platform r))
            (oauth_tokens (snd (getUserOAuthToken userId platform env w)))
     = filter (fun r => negb (has_key userId platform r)) (oauth_tokens w)
  /\ (length (oauth_tokens (snd (getUserOAuthToken userId platform env w))) + length older
      = length (oauth_tokens w))%nat
  /\ exists deleted,
       Permutation deleted older
       /\ trace (snd (getUserOAuthToken userId platform env w))
          = (rev (map (fun d => EvDeleteToken userId platform (updated_at d)) deleted)
               ++ EvSelectTokens userId platform :: trace w)%list.
Proof.
  intros Hs Hd Hp Hlt.
  destruct (order_desc_newest _ newest older Hp Hlt) as [rest [Eo Hr]].
  rewrite (getUserOAuthToken_found userId platform env w newest rest Hs Eo).
  cbn [fst snd].
  destruct (delete_duplicates_healthy userId platform (map view rest) env
              (log (EvSelectTokens userId platform) w) Hd) as [E1 E2].
  rewrite E1, E2, !map_map. cbn [log oauth_tokens trace].
  change (map (fun x => view_updated_at (view x)) rest) with (map updated_at rest).
  assert (Hin : forall t, existsb (Z.eqb t) (map updated_at rest) = true
                          <-> exists d, In d older /\ updated_at d = t).
  { intros t. rewrite existsb_time. split; intros [d [Hd' E]]; exists d; split; try assumption.
    - now apply (Permutation_in _ Hr).
    - now apply (Permutation_in _ (Permutation_sym Hr)). }
  assert (Hnew : existsb (Z.eqb (updated_at newest)) (map updated_at rest) = false).
  { destruct (existsb _ _) eqn:E; [|reflexivity].
    apply Hin in E. destruct E as [d [Hd' E]]. specialize (Hlt d Hd'). lia. }
  assert (Hold : forall o, In o older ->
                           existsb (Z.eqb (updated_at o)) (map updated_at rest) = true).
  { intros o Ho. apply Hin. now exists o. }
  split; [reflexivity|]. split; [|split; [|split]].
  - rewrite purge_key_rows.
    apply Permutation_length_1_inv. apply Permutation_sym.
    eapply Permutation_trans; [apply filter_perm, Hp|].
    cbn [filter]. rewrite Hnew. cbn [negb].
    rewrite filter_none; [apply Permutation_refl|].
    intros o Ho. now rewrite (Hold o Ho).
  - apply purge_other_keys.
  - rewrite <- (purge_length userId platform (map updated_at rest) (oauth_tokens w)).
    f_equal. symmetry. apply Permutation_length.
    eapply Permutation_trans; [apply filter_perm, Hp|].
    cbn [filter]. rewrite Hnew.
    rewrite filter_all; [apply Permutation_refl | exact Hold].
  - exists rest. split; [assumption | reflexivity].
Qed.

Lemma duplicates_reconciled_witness :
  let newest := Sample.row "token-d" None 40 in
  let older := [Sample.row "token-b" None 20; Sample.row "token-a" None 10;
                Sample.row "token-c" None 30] in
  let after := getUserOAuthToken "user-1" "spotify" Sample.env Demo.crowded in
  fst after = Returned (if expired (view newest) (now Sample.env) then JNull
                        else access_token newest)
  /\ filter (has_key "user-1" "spotify") (oauth_tokens (snd after)) = [newest]
  /\ filter (fun r => negb (has_key "user-1" "spotify" r)) (oauth_tokens (snd after))
     = filter (fun r => negb (has_key "user-1" "spotify" r)) (oauth_tokens Demo.crowded)
  /\ (length (oauth_tokens (snd after)) + length older = length (oauth_tokens Demo.crowded))%nat
  /\ exists deleted,
       Permutation deleted older
       /\ trace (snd after)
          = (rev (map (fun d => EvDeleteToken "user-1" "spotify" (updated_at d)) deleted)
               ++ EvSelectTokens "user-1" "spotify" :: trace Demo.crowded)%list.
Proof.
  apply (duplicates_reconciled Sample.env "user-1" "spotify" Demo.crowded
           (Sample.row "token-d" None 40)
           [Sample.row "token-b" None 20; Sample.row "token-a" None 10;
            Sample.row "token-c" None 30]).
  - reflexivity.
  - reflexivity.
  - cbn. apply perm_swap.
  - cbn. intros o [<- | [<- | [<- | []]]]; cbn; lia.
Defined.

(** X12. Duplicates are deleted by their time, not by their identity:
    when the rows of a key all carry the time of the latest one and there
    are at least two, the read that returns the token deletes every row
    of the key, the returned one included, so that the next read of the
    same key finds nothing and returns [null]. *)
Theorem tied_duplicates_are_all_deleted
    (env env2 : Env) (userId platform : string) (w : World)
    (tokenData other : TokenRow) (rest : list TokenRow) :
  fault env SelectTokens = Healthy ->
  fault env DeleteToken = Healthy ->
  fault env2 SelectTokens = Healthy ->
  order_desc (filter (has_key userId platform) (oauth_tokens w)) = tokenData :: other :: rest ->
  (forall d, In d (other :: rest) -> updated_at d = updated_at tokenData) ->
  fst (getUserOAuthToken userId platform env w)
  = Returned (if expired (view tokenData) (now env) then JNull else access_token tokenData)
  /\ filter (has_key userId platform)
            (oauth_tokens (snd (getUserOAuthToken userId platform env w))) = []
  /\ fst (getUserOAuthToken userId platform env2 (snd (getUserOAuthToken userId platform env w)))
     = Returned JNull.
Proof.
  intros Hs Hd Hs2 Eo Htie.
  assert (Hk : filter (has_key userId platform)
                 (oauth_tokens (snd (getUserOAuthToken userId platform env w))) = []).
  { rewrite (getUserOAuthToken_found userId platform env w tokenData (other :: rest) Hs Eo).
    cbn [snd].
    destruct (delete_duplicates_healthy userId platform (map view (other :: rest)) env
                (log (EvSelectTokens userId platform) w) Hd) as [E1 _].
    rewrite E1, map_map. cbn [log oauth_tokens].
    change (map (fun x => view_updated_at (view x)) (other :: rest))
      with (map updated_at (other :: rest)).
    rewrite purge_key_rows. apply filter_none. intros x Hx.
    assert (E : updated_at x = updated_at tokenData).
    { apply (Permutation_in _ (Permutation_sym (order_desc_perm _))) in Hx.
      rewrite Eo in Hx. destruct Hx as [<- | Hx]; [reflexivity | now apply Htie]. }
    replace (existsb (Z.eqb (updated_at x)) (map updated_at (other :: rest))) with true;
      [reflexivity|].
    symmetry. apply existsb_time. exists other. split; [now left|].
    rewrite E. apply Htie. now left. }
  split; [|split; [exact Hk|]].
  - now rewrite (getUserOAuthToken_found userId platform env w tokenData (other :: rest) Hs Eo).
  - now rewrite (getUserOAuthToken_absent userId platform env2 _ Hs2 Hk).
Qed.

Lemma tied_duplicates_are_all_deleted_witness :
  let after := getUserOAuthToken "user-1" "spotify" Sample.env Demo.tied in
  fst after
  = Returned (if expired (view (Sample.row "token-a" None 20)) (now Sample.env)
              then JNull else access_token (Sample.row "token-a" None 20))
  /\ filter (has_key "user-1" "spotify") (oauth_tokens (snd after)) = []
  /\ fst (getUserOAuthToken "user-1" "spotify" Sample.env (snd after)) = Returned JNull.
Proof.
  apply (tied_duplicates_are_all_deleted Sample.env Sample.env "user-1" "spotify" Demo.tied
           (Sample.row "token-a" None 20) (Sample.row "token-b" None 20) []).
  - reflexivity.
  - reflexivity.
  - reflexivity.
  - reflexivity.
  - cbn. intros d [<- | []]. reflexivity.
Defined.

(** ** [getPlatformConfig]: the two tables *)

(** The configuration that a row of the primary table gives. *)
Lemma getPlatformConfig_primary (platform : string) env w (r : ConfigRow) :
  fst (select_config platform env w) = Returned (Some r) ->
  getPlatformConfig platform env w
  = (Returned (Some {| clientId := col (client_id r);
                       clientSecret := col (client_secret r);
                       redirectUri := col (redirect_uri r);
                       config_scopes := scopes r;
                       apiEndpoint := col (api_endpoint r) |}),
     log (EvSelectConfigs platform) w).
Proof.
  unfold getPlatformConfig, try_catch. unfold bind at 1. unfold select_config.
  destruct (fault env SelectConfigs); cbn [fst]; [|discriminate|discriminate].
  destruct (single (filter _ (platform_oauth_configs w))); [|discriminate].
  intros E. inversion E. reflexivity.
Qed.

(** What the lookup does when the primary table gives no row. *)
Lemma getPlatformConfig_secondary (platform : string) env w :
  fst (select_config platform env w) = Returned None ->
  getPlatformConfig platform env w
  = (Returned
       (match fst (select_settings platform env (log (EvSelectConfigs platform) w)) with
        | Returned (Some r) =>
            Some {| clientId := js_or (col (old_client_id r)) (opt_chain (setting_value r) "clientId");
                    clientSecret := js_or (col (old_client_secret r))
                                          (opt_chain (setting_value r) "clientSecret");
                    redirectUri := js_or (col (old_redirect_uri r))
                                         (opt_chain (setting_value r) "redirectUri");
                    config_scopes := js_or (old_scopes r) (opt_chain (setting_value r) "scopes");
                    apiEndpoint := js_or (col (old_api_endpoint r))
                                         (opt_chain (setting_value r) "apiEndpoint") |}
        | _ => None
        end),
     log (EvSelectSettings platform) (log (EvSelectConfigs platform) w)).
Proof.
  unfold getPlatformConfig, try_catch. unfold bind at 1. unfold select_config.
  destruct (fault env SelectConfigs); cbn [fst].
  - destruct (single (filter _ (platform_oauth_configs w))); [discriminate|]. intros _.
    unfold bind, select_settings.
    destruct (fault env SelectSettings); cbn [fst log platform_settings].
    + destruct (single _); reflexivity.
    + reflexivity.
    + reflexivity.
  - intros _. unfold bind, select_settings.
    destruct (fault env SelectSettings); cbn [fst log platform_settings].
    + destruct (single _); reflexivity.
    + reflexivity.
    + reflexivity.
  - discriminate.
Qed.

Lemma getPlatformConfig_rejected (platform : string) env w (m : string) :
  fault env SelectConfigs = Rejects m ->
  getPlatformConfig platform env w = (Returned None, log (EvSelectConfigs platform) w).
Proof.
  intros F. unfold getPlatformConfig, try_catch. unfold bind at 1. unfold select_config.
  rewrite F. reflexivity.
Qed.

Lemma select_config_cases (platform : string) env w :
  (exists r, fst (select_config platform env w) = Returned (Some r))
  \/ fst (select_config platform env w) = Returned None
  \/ exists m, fault env SelectConfigs = Rejects m.
Proof.
  unfold select_config. destruct (fault env SelectConfigs) as [|m|m]; cbn [fst].
  - destruct (single _) as [r|]; [left; now exists r | right; now left].
  - right. now left.
  - right. right. now exists m.
Qed.

(** X13. The lookup of a configuration never throws and never writes,
    whatever the store does. It reads the primary table once, and the
    older table once or not at all; it reads the older table exactly when
    the primary table answered without a row. *)
Theorem config_lookup_is_read_only (platform : string) (env : Env) (w : World) :
  exists answer,
    fst (getPlatformConfig platform env w) = Returned answer
    /\ platform_oauth_configs (snd (getPlatformConfig platform env w)) = platform_oauth_configs w
    /\ platform_settings (snd (getPlatformConfig platform env w)) = platform_settings w
    /\ oauth_tokens (snd (getPlatformConfig platform env w)) = oauth_tokens w
    /\ trace (snd (getPlatformConfig platform env w))
       = ((if match fst (select_config platform env w) with
              | Returned None => true
              | _ => false
              end
           then [EvSelectSettings platform; EvSelectConfigs platform]
           else [EvSelectConfigs platform]) ++ trace w)%list.
Proof.
  destruct (select_config_cases platform env w) as [[r E] | [E | [m F]]].
  - rewrite (getPlatformConfig_primary platform env w r E), E.
    eexists. repeat split.
  - rewrite (getPlatformConfig_secondary platform env w E), E.
    eexists. repeat split.
  - rewrite (getPlatformConfig_rejected platform env w m F).
    unfold select_config. rewrite F. cbn [fst]. eexists. repeat split.
Qed.

(** X14. An enabled row of the primary table decides the configuration
    alone: the older table is not read, whatever it holds and whatever
    state its store is in. *)
Theorem primary_config_wins (platform : string) (env : Env) (w : World) (r : ConfigRow) :
  fault env SelectConfigs = Healthy ->
  single (filter (fun c => String.eqb platform (cfg_platform_id c) && cfg_enabled c)
                 (platform_oauth_configs w)) = Some r ->
  getPlatformConfig platform env w
  = (Returned (Some {| clientId := col (client_id r);
                       clientSecret := col (client_secret r);
                       redirectUri := col (redirect_uri r);
                       config_scopes := scopes r;
                       apiEndpoint := col (api_endpoint r) |}),
     log (EvSelectConfigs platform) w)
  /\ filter is_select_settings (trace (snd (getPlatformConfig platform env w)))
     = filter is_select_settings (trace w).
Proof.
  intros F S.
  assert (E : fst (select_config platform env w) = Returned (Some r)).
  { unfold select_config. rewrite F. cbn [fst]. now rewrite S. }
  rewrite (getPlatformConfig_primary platform env w r E). split; reflexivity.
Qed.

Lemma primary_config_wins_witness :
  getPlatformConfig "spotify" Sample.env Sample.configured
  = (Returned (Some {| clientId := col (client_id Sample.config);
                       clientSecret := col (client_secret Sample.config);
                       redirectUri := col (redirect_uri Sample.config);
                       config_scopes := scopes Sample.config;
                       apiEndpoint := col (api_endpoint Sample.config) |}),
     log (EvSelectConfigs "spotify") Sample.configured)
  /\ filter is_select_settings
       (trace (snd (getPlatformConfig "spotify" Sample.env Sample.configured)))
     = filter is_select_settings (trace Sample.configured).
Proof.
  apply (primary_config_wins "spotify" Sample.env Sample.configured Sample.config).
  - reflexivity.
  - reflexivity.
Defined.

(** X15. The older table is a fallback for an error as well as for an
    absence: when the primary store answers with an error, the
    configuration is that of the enabled row of the older table, each
    field taken from its column and, when the column is empty, from the
    field of that name in [setting_value]. *)
Theorem config_falls_back_on_error (platform : string) (env : Env) (w : World)
    (reason : string) (r : SettingsRow) :
  fault env SelectConfigs = ReturnsError reason ->
  fault env SelectSettings = Healthy ->
  single (filter (fun s => String.eqb platform (old_platform_id s) && old_enabled s)
                 (platform_settings w)) = Some r ->
  getPlatformConfig platform env w
  = (Returned
       (Some {| clientId := js_or (col (old_client_id r)) (opt_chain (setting_value r) "clientId");
                clientSecret := js_or (col (old_client_secret r))
                                      (opt_chain (setting_value r) "clientSecret");
                redirectUri := js_or (col (old_redirect_uri r))
                                     (opt_chain (setting_value r) "redirectUri");
                config_scopes := js_or (old_scopes r) (opt_chain (setting_value r) "scopes");
                apiEndpoint := js_or (col (old_api_endpoint r))
                                     (opt_chain (setting_value r) "apiEndpoint") |}),
     log (EvSelectSettings platform) (log (EvSelectConfigs platform) w)).
Proof.
  intros F1 F2 S.
  assert (E : fst (select_config platform env w) = Returned None).
  { unfold select_config. now rewrite F1. }
  rewrite (getPlatformConfig_secondary platform env w E).
  unfold select_settings. rewrite F2. cbn [fst log platform_settings]. now rewrite S.
Qed.

Lemma config_falls_back_on_error_witness :
  getPlatformConfig "spotify" Demo.env_config_error Sample.legacy
  = (Returned
       (Some {| clientId := js_or (col (old_client_id Sample.settings))
                                  (opt_chain (setting_value Sample.settings) "clientId");
                clientSecret := js_or (col (old_client_secret Sample.settings))
                                      (opt_chain (setting_value Sample.settings) "clientSecret");
                redirectUri := js_or (col (old_redirect_uri Sample.settings))
                                     (opt_chain (setting_value Sample.settings) "redirectUri");
                config_scopes := js_or (old_scopes Sample.settings)
                                       (opt_chain (setting_value Sample.settings) "scopes");
                apiEndpoint := js_or (col (old_api_endpoint Sample.settings))
                                     (opt_chain (setting_value Sample.settings) "apiEndpoint") |}),
     log (EvSelectSettings "spotify") (log (EvSelectConfigs "spotify") Sample.legacy)).
Proof.
  apply (config_falls_back_on_error "spotify" Demo.env_config_error Sample.legacy
           "relation does not exist" Sample.settings).
  - reflexivity.
  - reflexivity.
  - reflexivity.
Defined.

(** X16. A primary store that rejects the call ends the lookup: the older
    table is not read, and the answer is that there is no configuration,
    even if the older table has one. *)
Theorem rejected_lookup_skips_fallback (platform : string) (env : Env) (w : World)
    (reason : string) :
  fault env SelectConfigs = Rejects reason ->
  getPlatformConfig platform env w = (Returned None, log (EvSelectConfigs platform) w).
Proof.
  intros F. unfold getPlatformConfig, try_catch. unfold bind at 1. unfold select_config.
  rewrite F. reflexivity.
Qed.

Lemma rejected_lookup_skips_fallback_witness :
  getPlatformConfig "spotify" Demo.env_config_rejected Sample.legacy
  = (Returned None, log (EvSelectConfigs "spotify") Sample.legacy).
Proof.
  apply (rejected_lookup_skips_fallback "spotify" Demo.env_config_rejected Sample.legacy
           "fetch failed").
  reflexivity.
Defined.

(** ** The code-exchange functions: what each request carries *)

(** X17. Whatever the platform of the switch, the exchange is one request
    and it carries the code of the callback, the redirect address of the
    configuration and the client secret, the secret being in the fields of
    the request for every platform but twitter. The platforms youtube and
    google_analytics share one request, and so do facebook and instagram. *)
Theorem exchange_carries_code_and_redirect
    (platform code : string) (config : ConfigRow) (env : Env) (w : World) :
  In platform supported_platforms ->
  exists r,
    snd (exchange_code platform code config env w) = log (EvHttp r) w
    /\ assoc "code" (sent r) = Some (JString code)
    /\ assoc "redirect_uri" (sent r) = Some (col (redirect_uri config))
    /\ (assoc "client_secret" (sent r) = Some (col (client_secret config))
        \/ platform = "twitter")
    /\ exchange_code "youtube" code config = exchange_code "google_analytics" code config
    /\ exchange_code "instagram" code config = exchange_code "facebook" code config.
Proof.
  intros H. cbn in H.
  assert (W : forall r, snd (axios r env w) = log (EvHttp r) w).
  { intros r. unfold axios. destruct (provider env r); reflexivity. }
  repeat (destruct H as [<- | H]); try contradiction.
  - exists (spotify_request code config). repeat split; try apply W. now left.
  - exists (google_request code config). repeat split; try apply W. now left.
  - exists (google_request code config). repeat split; try apply W. now left.
  - exists (facebook_request code config). repeat split; try apply W. now left.
  - exists (facebook_request code config). repeat split; try apply W. now left.
  - exists (twitter_request code config). repeat split; try apply W. now right.
  - exists (tiktok_request code config). repeat split; try apply W. now left.
Qed.

Lemma exchange_carries_code_and_redirect_witness :
  exists r,
    snd (exchange_code "tiktok" "code-1" Sample.config Sample.env Sample.empty)
    = log (EvHttp r) Sample.empty
    /\ assoc "code" (sent r) = Some (JString "code-1")
    /\ assoc "redirect_uri" (sent r) = Some (col (redirect_uri Sample.config))
    /\ (assoc "client_secret" (sent r) = Some (col (client_secret Sample.config))
        \/ "tiktok" = "twitter")
    /\ exchange_code "youtube" "code-1" Sample.config
       = exchange_code "google_analytics" "code-1" Sample.config
    /\ exchange_code "instagram" "code-1" Sample.config
       = exchange_code "facebook" "code-1" Sample.config.
Proof.
  apply (exchange_carries_code_and_redirect "tiktok" "code-1" Sample.config Sample.env
           Sample.empty).
  simpl. do 6 right. left. reflexivity.
Defined.

(** X18. The request of the twitter exchange authenticates the client in
    its header: the text after [Basic ] is the Base64 of the client id, a
    colon and the client secret, and decodes to them. The secret is not
    among the fields of the body, and the code verifier is the constant
    [challenge], whatever the request. *)
Theorem twitter_exchange_request (code : string) (config : ConfigRow) (env : Env) (w : World) :
  exists r credentials,
    snd (exchange_code "twitter" code config env w) = log (EvHttp r) w
    /\ method r = POST
    /\ url r = "https://api.twitter.com/2/oauth2/token"
    /\ assoc "Authorization" (headers r) = Some ("Basic " ++ credentials)
    /\ Base64.decode credentials
       = col_text (client_id config) ++ ":" ++ col_text (client_secret config)
    /\ assoc "client_secret" (sent r) = None
    /\ assoc "code_verifier" (sent r) = Some (JString "challenge").
Proof.
  exists (twitter_request code config),
         (Base64.encode (col_text (client_id config) ++ ":" ++ col_text (client_secret config))).
  split.
  - change (exchange_code "twitter" code config) with (axios (twitter_request code config)).
    unfold axios. destruct (provider env _); reflexivity.
  - repeat split. apply base64_decode_encode.
Qed.

(** ** [getSpotifyClientToken] *)

(** What is read from the answer of the provider. *)
Lemma read_prop_cases (data : JsValue) (k : string) env w :
  read_prop data k env w = (Returned (get_prop data k), w)
  \/ exists e, read_prop data k env w = (Thrown e, w).
Proof.
  destruct data; try (left; reflexivity); right; eexists; reflexivity.
Qed.

Lemma getPlatformConfig_returns (platform : string) env w :
  exists answer, fst (getPlatformConfig platform env w) = Returned answer.
Proof.
  unfold getPlatformConfig, try_catch.
  destruct (bind _ _ env w) as [[a|e] w1]; eexists; reflexivity.
Qed.

(** The token of the client, read off the configuration and the answer. *)
Lemma getSpotifyClientToken_unfold env w :
  getSpotifyClientToken env w
  = match fst (getPlatformConfig "spotify" env w) with
    | Returned (Some c) =>
        match credentials c with
        | Some (id, secret) =>
            (Returned match provider env (client_credentials_request id secret) with
                      | HttpOk data =>
                          match data with
                          | JNull | JUndefined => JNull
                          | _ => get_prop data "access_token"
                          end
                      | HttpFail _ => JNull
                      end,
             log (EvHttp (client_credentials_request id secret))
               (snd (getPlatformConfig "spotify" env w)))
        | None => (Returned JNull, snd (getPlatformConfig "spotify" env w))
        end
    | _ => (Returned JNull, snd (getPlatformConfig "spotify" env w))
    end.
Proof.
  destruct (getPlatformConfig_returns "spotify" env w) as [answer E].
  unfold getSpotifyClientToken, try_catch. unfold bind at 1.
  destruct (getPlatformConfig "spotify" env w) as [o w1]. cbn [fst snd] in *. subst o.
  destruct answer as [c|]; [|reflexivity].
  unfold credentials.
  destruct (truthy (clientId c)), (truthy (clientSecret c)); cbn [negb orb andb];
    try reflexivity.
  destruct (template (clientId c)) as [id|]; [|reflexivity].
  destruct (template (clientSecret c)) as [secret|]; [|reflexivity].
  unfold bind, axios.
  destruct (provider env (client_credentials_request id secret)) as [data|m]; [|reflexivity].
  destruct data; reflexivity.
Qed.

(** X19. The token of the client is fail-soft and sends its secret only
    when it has one: the function never throws. When the lookup of the
    configuration gives no configuration, or one whose client id or client
    secret is missing or cannot be written out, it answers [null] and
    sends nothing to the provider. When the lookup gives both, it sends
    one request, after the lookup, with the two in its header, and answers
    the access token of the answer, or [null] when the provider fails or
    answers nothing. *)
Theorem client_token_is_fail_soft (env : Env) (w : World) :
  (match fst (getPlatformConfig "spotify" env w) with
   | Returned (Some c) => credentials c
   | _ => None
   end = None
   /\ getSpotifyClientToken env w
      = (Returned JNull, snd (getPlatformConfig "spotify" env w)))
  \/ exists c id secret,
       fst (getPlatformConfig "spotify" env w) = Returned (Some c)
       /\ credentials c = Some (id, secret)
       /\ snd (getSpotifyClientToken env w)
          = log (EvHttp (client_credentials_request id secret))
              (snd (getPlatformConfig "spotify" env w))
       /\ assoc "Authorization" (headers (client_credentials_request id secret))
          = Some ("Basic " ++ Base64.encode (id ++ ":" ++ secret))
       /\ fst (getSpotifyClientToken env w)
          = Returned match provider env (client_credentials_request id secret) with
                     | HttpOk data =>
                         match data with
                         | JNull | JUndefined => JNull
                         | _ => get_prop data "access_token"
                         end
                     | HttpFail _ => JNull
                     end.
Proof.
  rewrite getSpotifyClientToken_unfold.
  destruct (fst (getPlatformConfig "spotify" env w)) as [[c|]|e];
    try (left; split; reflexivity).
  destruct (credentials c) as [[id secret]|] eqn:K; [|left; split; reflexivity].
  right. exists c, id, secret. cbn [fst snd].
  split; [reflexivity|]. split; [exact K|]. repeat split.
Qed.

(** X20. Unlike the callback, the token of the client is obtained with
    the credentials of the older table when the primary table has no
    enabled row for spotify: the request follows the two selects, its
    only field is the grant type, and its header carries the Base64 of
    the client id and the client secret of the older row, taken from the
    columns or from [setting_value]. *)
Theorem client_token_uses_legacy_credentials
    (env : Env) (w : World) (r : SettingsRow) (id secret : string) :
  fst (select_config "spotify" env w) = Returned None ->
  fault env SelectSettings = Healthy ->
  single (filter (fun s => String.eqb "spotify" (old_platform_id s) && old_enabled s)
                 (platform_settings w)) = Some r ->
  js_or (col (old_client_id r)) (opt_chain (setting_value r) "clientId") = JString id ->
  js_or (col (old_client_secret r)) (opt_chain (setting_value r) "clientSecret")
  = JString secret ->
  id <> EmptyString ->
  secret <> EmptyString ->
  exists request credentials,
    trace (snd (getSpotifyClientToken env w))
    = EvHttp request :: EvSelectSettings "spotify" :: EvSelectConfigs "spotify" :: trace w
    /\ sent request = [("grant_type", JString "client_credentials")]
    /\ assoc "Authorization" (headers request) = Some ("Basic " ++ credentials)
    /\ Base64.decode credentials = id ++ ":" ++ secret
    /\ fst (getSpotifyClientToken env w)
       = Returned match provider env request with
                  | HttpOk data =>
                      match data with
                      | JNull | JUndefined => JNull
                      | _ => get_prop data "access_token"
                      end
                  | HttpFail _ => JNull
                  end.
Proof.
  intros E F S Hid Hsecret Nid Nsecret.
  rewrite getSpotifyClientToken_unfold.
  rewrite (getPlatformConfig_secondary "spotify" env w E).
  unfold select_settings. rewrite F. cbn [fst snd log platform_settings]. rewrite S.
  unfold credentials. cbn [clientId clientSecret]. rewrite Hid, Hsecret.
  cbn [truthy template js_to_string].
  replace (String.eqb id EmptyString) with false
    by (symmetry; now apply String.eqb_neq).
  replace (String.eqb secret EmptyString) with false
    by (symmetry; now apply String.eqb_neq).
  cbn [negb andb].
  eexists. exists (Base64.encode (id ++ ":" ++ secret)).
  split; [reflexivity|]. split; [reflexivity|].
  split; [|split; [apply base64_decode_encode | reflexivity]].
  reflexivity.
Qed.

Lemma client_token_uses_legacy_credentials_witness :
  exists request credentials,
    trace (snd (getSpotifyClientToken Sample.env Sample.legacy))
    = EvHttp request :: EvSelectSettings "spotify" :: EvSelectConfigs "spotify"
        :: trace Sample.legacy
    /\ sent request = [("grant_type", JString "client_credentials")]
    /\ assoc "Authorization" (headers request) = Some ("Basic " ++ credentials)
    /\ Base64.decode credentials = "client-0" ++ ":" ++ "secret-0"
    /\ fst (getSpotifyClientToken Sample.env Sample.legacy)
       = Returned match provider Sample.env request with
                  | HttpOk data =>
                      match data with
                      | JNull | JUndefined => JNull
                      | _ => get_prop data "access_token"
                      end
                  | HttpFail _ => JNull
                  end.
Proof.
  apply (client_token_uses_legacy_credentials Sample.env Sample.legacy Sample.settings
           "client-0" "secret-0").
  - reflexivity.
  - reflexivity.
  - reflexivity.
  - reflexivity.
  - reflexivity.
  - discriminate.
  - discriminate.
Defined.

(** ** [extractUserId] and a route behind it *)

Lemma strip_prefix (p s t : string) : Json.strip p s = Some t -> s = p ++ t.
Proof.
  revert s. induction p as [|a p IH]; intros s H.
  - cbn in H. now inversion H.
  - destruct s as [|b s]; [discriminate|]. cbn in H.
    destruct (Ascii.eqb a b) eqn:E; [|discriminate].
    apply Ascii.eqb_eq in E. subst b. cbn. f_equal. now apply IH.
Qed.

Lemma strip_append (p t : string) : Json.strip p (p ++ t) = Some t.
Proof.
  induction p as [|a p IH]; [reflexivity|].
  cbn. now rewrite Ascii.eqb_refl.
Qed.

(** X21. The middleware runs the route for an authenticated user only:
    either the request is answered 401 and the world is as it was (the
    route has not run and the store has not been touched), or the header
    is [Bearer ] followed by a token for which the provider of identities
    answered a user and no error, and the request is then answered by the
    route, run with the id of that user. *)
Theorem middleware_guards_route
    (getUser : string -> AuthAnswer) (authorization : option string)
    (next : JsValue -> M Response) (env : Env) (w : World) :
  (exists text,
      extractUserId getUser authorization next env w
      = (Returned (Json 401 (error_body text)), w))
  \/ exists token user,
       authorization = Some ("Bearer " ++ token)
       /\ getUser token = AuthAnswered user false
       /\ truthy user = true
       /\ extractUserId getUser authorization next env w = next (get_prop user "id") env w.
Proof.
  unfold extractUserId.
  destruct authorization as [authHeader|]; [|left; eexists; reflexivity].
  destruct (Json.strip "Bearer " authHeader) as [token|] eqn:S; [|left; eexists; reflexivity].
  apply strip_prefix in S. subst authHeader.
  destruct (getUser token) as [user [|]|] eqn:G; try (left; eexists; reflexivity).
  destruct (truthy user) eqn:T; [|left; eexists; reflexivity].
  right. exists token, user. repeat split; assumption.
Qed.

Lemma getUserOAuthToken_returns u p env w :
  exists token, fst (getUserOAuthToken u p env w) = Returned token.
Proof.
  destruct (getUserOAuthToken_shape u p env w) as [v [l E]]. exists v. now rewrite E.
Qed.

(** The route, read off the token and the answer of the provider. *)
Lemma api_spotify_me_unfold (userId : JsValue) env w (token : JsValue) :
  fst (getUserOAuthToken (js_to_string userId) "spotify" env w) = Returned token ->
  api_spotify_me userId env w
  = if truthy token
    then
      (Returned match provider env {| method := GET; url := "https://api.spotify.com/v1/me";
                                      body := NoBody; params := [];
                                      headers := [("Authorization",
                                                   "Bearer " ++ js_to_string token)] |} with
                | HttpOk data => Json 200 data
                | HttpFail _ => Json 500 (error_body "Failed to fetch Spotify profile")
                end,
       log (EvHttp {| method := GET; url := "https://api.spotify.com/v1/me";
                      body := NoBody; params := [];
                      headers := [("Authorization", "Bearer " ++ js_to_string token)] |})
         (snd (getUserOAuthToken (js_to_string userId) "spotify" env w)))
    else (Returned (Json 401 (error_body "No Spotify token found")),
          snd (getUserOAuthToken (js_to_string userId) "spotify" env w)).
Proof.
  intros E. unfold api_spotify_me, try_catch. unfold bind at 1.
  destruct (getUserOAuthToken (js_to_string userId) "spotify" env w) as [o w1].
  cbn [fst snd] in *. subst o.
  destruct (truthy token); cbn [negb]; [|reflexivity].
  unfold bind, axios_get, axios.
  destruct (provider env _); reflexivity.
Qed.

(** X22. The route [/api/spotify/me] never throws and answers 200, 401
    or 500. Without a token it answers 401 and sends nothing to spotify;
    with one it sends one request, after the read of the token, whose
    only header is the token as a bearer, and answers what spotify
    answered, or 500 when spotify fails. *)
Theorem spotify_me_answers (userId : JsValue) (env : Env) (w : World) :
  exists token,
    fst (getUserOAuthToken (js_to_string userId) "spotify" env w) = Returned token
    /\ ((truthy token = false
         /\ api_spotify_me userId env w
            = (Returned (Json 401 (error_body "No Spotify token found")),
               snd (getUserOAuthToken (js_to_string userId) "spotify" env w)))
        \/ exists request,
             truthy token = true
             /\ method request = GET
             /\ url request = "https://api.spotify.com/v1/me"
             /\ headers request = [("Authorization", "Bearer " ++ js_to_string token)]
             /\ sent request = []
             /\ snd (api_spotify_me userId env w)
                = log (EvHttp request)
                    (snd (getUserOAuthToken (js_to_string userId) "spotify" env w))
             /\ fst (api_spotify_me userId env w)
                = Returned match provider env request with
                           | HttpOk data => Json 200 data
                           | HttpFail _ => Json 500 (error_body "Failed to fetch Spotify profile")
                           end).
Proof.
  destruct (getUserOAuthToken_returns (js_to_string userId) "spotify" env w) as [token E].
  exists token. split; [assumption|].
  rewrite (api_spotify_me_unfold userId env w token E).
  destruct (truthy token).
  - right.
    exists {| method := GET; url := "https://api.spotify.com/v1/me"; body := NoBody;
              params := []; headers := [("Authorization", "Bearer " ++ js_to_string token)] |}.
    repeat split.
  - left. split; reflexivity.
Qed.

(** X23. A store that cannot be read is reported to the client of the
    route as a missing token: an authenticated request to
    [/api/spotify/me] is answered 401, not 500, after the one select, and
    nothing is sent to spotify. *)
Theorem store_outage_is_answered_401
    (getUser : string -> AuthAnswer) (token : string) (user : JsValue) (env : Env) (w : World) :
  getUser token = AuthAnswered user false ->
  truthy user = true ->
  fault env SelectTokens <> Healthy ->
  spotify_me_route getUser (Some ("Bearer " ++ token)) env w
  = (Returned (Json 401 (error_body "No Spotify token found")),
     log (EvSelectTokens (js_to_string (get_prop user "id")) "spotify") w).
Proof.
  intros G T F. unfold spotify_me_route, extractUserId.
  rewrite strip_append, G, T. cbn [orb negb].
  rewrite (api_spotify_me_unfold (get_prop user "id") env w JNull).
  - cbn [truthy]. now rewrite getUserOAuthToken_fails.
  - now rewrite getUserOAuthToken_fails.
Qed.

Lemma store_outage_is_answered_401_witness :
  spotify_me_route Demo.getUser (Some ("Bearer " ++ "jwt-1")) Sample.env_down Sample.stale
  = (Returned (Json 401 (error_body "No Spotify token found")),
     log (EvSelectTokens (js_to_string (get_prop (JObject [("id", JString "user-1")]) "id"))
            "spotify") Sample.stale).
Proof.
  apply (store_outage_is_answered_401 Demo.getUser "jwt-1" (JObject [("id", JString "user-1")])
           Sample.env_down Sample.stale).
  - reflexivity.
  - reflexivity.
  - discriminate.
Defined.

(** ** The analytics of a platform *)

Lemma api_analytics_unfold (platformId : string) (body : JsValue) env w (token : JsValue) :
  body <> JNull -> body <> JUndefined ->
  template (get_prop body "userId") <> None ->
  template (get_prop body "timeRange") <> None ->
  fst (getUserOAuthToken (js_to_string (get_prop body "userId")) platformId env w)
  = Returned token ->
  api_analytics platformId body env w
  = (fst (if truthy token
          then analytics_switch platformId token (get_prop body "timeRange")
                 (get_prop body "selectedProperties") env w
          else (Returned (Json 401 (error_body ("No " ++ platformId ++ " token found for user"))),
                w)),
     snd (getUserOAuthToken (js_to_string (get_prop body "userId")) platformId env w)).
Proof.
  intros N1 N2 T1 T2 E. unfold api_analytics. unfold try_catch at 1. unfold bind at 1.
  assert (R : read_prop body "userId" env w = (Returned (get_prop body "userId"), w)).
  { destruct body; try reflexivity; congruence. }
  rewrite R. unfold bind at 1. unfold log_line at 1.
  destruct (template (get_prop body "userId")); [|contradiction]. cbn [ret].
  unfold bind at 1. unfold log_line at 1.
  destruct (template (get_prop body "timeRange")); [|contradiction]. cbn [ret].
  unfold bind at 1.
  destruct (getUserOAuthToken _ platformId env w) as [o w1]. cbn [fst snd] in *. subst o.
  destruct (truthy token); cbn [negb]; [|reflexivity].
  unfold try_catch, analytics_switch, enhanced,
    getEnhancedGoogleAnalytics, getEnhancedFacebookAnalytics, getEnhancedInstagramAnalytics,
    getEnhancedYouTubeAnalytics, getEnhancedSpotifyAnalytics, bind, ret.
  repeat (match goal with |- context [if ?b then _ else _] => destruct b end; try reflexivity).
Qed.

Lemma analytics_switch_token (platformId : string) (token token' timeRange selected : JsValue)
    env w env' w' :
  fst (analytics_switch platformId token timeRange selected env w)
  = fst (analytics_switch platformId token' timeRange selected env' w')
  /\ exists status payload,
       fst (analytics_switch platformId token timeRange selected env w)
       = Returned (Json status payload)
       /\ (status = 200 \/ status = 400).
Proof.
  unfold analytics_switch, enhanced,
    getEnhancedGoogleAnalytics, getEnhancedFacebookAnalytics, getEnhancedInstagramAnalytics,
    getEnhancedYouTubeAnalytics, getEnhancedSpotifyAnalytics, bind, ret.
  repeat (match goal with |- context [if ?b then _ else _] => destruct b end;
          try (split; [reflexivity | eexists; eexists; split; [reflexivity | auto]])).
Qed.

(** A user or a time range that the lines of the log cannot write out
    ends the request with the answer of the outer [catch], before the
    token is read. *)
Lemma api_analytics_unconvertible (platformId : string) (body : JsValue) env w :
  body <> JNull -> body <> JUndefined ->
  template (get_prop body "userId") = None \/ template (get_prop body "timeRange") = None ->
  api_analytics platformId body env w
  = (Returned (Json 500 (error_body "Failed to fetch enhanced analytics")), w).
Proof.
  intros N1 N2 T. unfold api_analytics. unfold try_catch at 1. unfold bind at 1.
  assert (R : read_prop body "userId" env w = (Returned (get_prop body "userId"), w)).
  { destruct body; try reflexivity; congruence. }
  rewrite R. unfold bind at 1. unfold log_line at 1.
  destruct (template (get_prop body "userId")); [|reflexivity]. cbn [ret].
  unfold bind at 1. unfold log_line at 1.
  destruct (template (get_prop body "timeRange")); [|reflexivity].
  destruct T; discriminate.
Qed.

(** X24. The enhanced analytics do not use the token: for one platform,
    one time range and one selection of properties, every request of a
    user who has a token is answered the same, whoever the user, whatever
    the token and whatever the store holds; the answer is 200 for the five
    platforms of the switch and 400 for every other. The requests are
    those whose user and time range the lines of the log can write out. *)
Theorem analytics_ignore_the_token
    (platformId : string) (body body' : JsValue) (env env' : Env) (w w' : World)
    (token token' : JsValue) (user user' range : string) :
  body <> JNull -> body <> JUndefined ->
  body' <> JNull -> body' <> JUndefined ->
  template (get_prop body "userId") = Some user ->
  template (get_prop body' "userId") = Some user' ->
  template (get_prop body "timeRange") = Some range ->
  fst (getUserOAuthToken (js_to_string (get_prop body "userId")) platformId env w)
  = Returned token ->
  truthy token = true ->
  fst (getUserOAuthToken (js_to_string (get_prop body' "userId")) platformId env' w')
  = Returned token' ->
  truthy token' = true ->
  get_prop body "timeRange" = get_prop body' "timeRange" ->
  get_prop body "selectedProperties" = get_prop body' "selectedProperties" ->
  fst (api_analytics platformId body env w) = fst (api_analytics platformId body' env' w')
  /\ exists status payload,
       fst (api_analytics platformId body env w) = Returned (Json status payload)
       /\ (status = 200 \/ status = 400).
Proof.
  intros N1 N2 N1' N2' U U' G E T E' T' R S.
  rewrite (api_analytics_unfold platformId body env w token N1 N2
             (converts _ _ U) (converts _ _ G) E).
  assert (G' : template (get_prop body' "timeRange") <> None)
    by (rewrite <- R, G; discriminate).
  rewrite (api_analytics_unfold platformId body' env' w' token' N1' N2'
             (converts _ _ U') G' E').
  rewrite T, T', <- R, <- S. cbn [fst].
  apply analytics_switch_token.
Qed.

Lemma analytics_ignore_the_token_witness :
  fst (api_analytics "spotify" (Demo.analytics_body "user-1") Sample.env Demo.crowded)
  = fst (api_analytics "spotify" (Demo.analytics_body "user-2") Demo.env_no_delete Demo.tied)
  /\ exists status payload,
       fst (api_analytics "spotify" (Demo.analytics_body "user-1") Sample.env Demo.crowded)
       = Returned (Json status payload)
       /\ (status = 200 \/ status = 400).
Proof.
  apply (analytics_ignore_the_token "spotify" (Demo.analytics_body "user-1")
           (Demo.analytics_body "user-2") Sample.env Demo.env_no_delete Demo.crowded Demo.tied
           (JString "token-d") (JString "token-z") "user-1" "user-2" "30d").
  - discriminate.
  - discriminate.
  - discriminate.
  - discriminate.
  - reflexivity.
  - reflexivity.
  - reflexivity.
  - reflexivity.
  - reflexivity.
  - reflexivity.
  - reflexivity.
  - reflexivity.
  - reflexivity.
Defined.

(** X25. The route of the analytics never throws, never sends a request
    to a provider and never writes: it answers 200, 400, 401 or 500, and
    the world it leaves is that of the one read of the token, or the
    world as it was when the request has no body. *)
Theorem analytics_call_no_provider (platformId : string) (body : JsValue) (env : Env) (w : World) :
  (exists status payload,
      fst (api_analytics platformId body env w) = Returned (Json status payload)
      /\ In status [200; 400; 401; 500])
  /\ (snd (api_analytics platformId body env w) = w
      \/ snd (api_analytics platformId body env w)
         = snd (getUserOAuthToken (js_to_string (get_prop body "userId")) platformId env w))
  /\ filter is_http (trace (snd (api_analytics platformId body env w)))
     = filter is_http (trace w).
Proof.
  assert (Hread : forall u,
             filter is_http (trace (snd (getUserOAuthToken u platformId env w)))
             = filter is_http (trace w)).
  { intros u. destruct (getUserOAuthToken_shape u platformId env w) as [v [l E]].
    rewrite E. cbn [snd].
    assert (D : forall l w0, filter is_http (trace (snd (delete_duplicates u platformId l env w0)))
                             = filter is_http (trace w0)).
    { clear. induction l as [|t l IH]; intros w0; [reflexivity|].
      rewrite delete_duplicates_cons, IH. unfold try_catch, delete_token.
      destruct (fault env DeleteToken); reflexivity. }
    now rewrite D. }
  destruct body eqn:B;
    try (split; [exists 500, (error_body "Failed to fetch enhanced analytics");
                 split; [reflexivity | cbn; auto]
                |split; [left; reflexivity | reflexivity]]; fail).
  all: rewrite <- B.
  all: assert (N1 : body <> JNull) by (rewrite B; discriminate).
  all: assert (N2 : body <> JUndefined) by (rewrite B; discriminate).
  all: destruct (template (get_prop body "userId")) as [user|] eqn:U;
    [|rewrite (api_analytics_unconvertible platformId body env w N1 N2 (or_introl U));
      split; [exists 500, (error_body "Failed to fetch enhanced analytics");
              split; [reflexivity | cbn; auto]
             |split; [left; reflexivity | reflexivity]]].
  all: destruct (template (get_prop body "timeRange")) as [range|] eqn:G;
    [|rewrite (api_analytics_unconvertible platformId body env w N1 N2 (or_intror G));
      split; [exists 500, (error_body "Failed to fetch enhanced analytics");
              split; [reflexivity | cbn; auto]
             |split; [left; reflexivity | reflexivity]]].
  all: destruct (getUserOAuthToken_returns (js_to_string (get_prop body "userId"))
                   platformId env w) as [token E].
  all: rewrite (api_analytics_unfold platformId body env w token N1 N2
                  (converts _ _ U) (converts _ _ G) E); cbn [fst snd].
  all: (split; [|split; [right; reflexivity | apply Hread]]).
  all: destruct (truthy token);
    [destruct (analytics_switch_token platformId token token (get_prop body "timeRange")
                 (get_prop body "selectedProperties") env w env w)
       as [_ [status [payload [Es Hs]]]];
     exists status, payload; (split; [exact Es | destruct Hs as [-> | ->]; cbn; auto])
    | eexists; eexists; split; [reflexivity | cbn; auto]].
Qed.

(** ** [generateAIInsights] *)

Lemma audience_part_small (less_than : JsValue -> Z -> bool) (toLocaleString : JsValue -> string)
    (overview : JsValue) :
  (length (audience_part less_than toLocaleString overview) <= 1)%nat
  /\ Forall (fun i => title i <> title connect_insight /\ title i <> title default_insight)
            (audience_part less_than toLocaleString overview).
Proof.
  unfold audience_part. destruct (truthy _); [|split; [cbn; lia | constructor]].
  split; [cbn; lia|]. constructor; [|constructor].
  unfold followers_insight.
  destruct (less_than _ 1000); [split; discriminate|].
  destruct (less_than _ 10000); split; discriminate.
Qed.

Lemma spotify_part_small (greater_than : JsValue -> Z -> bool) (toFixed : JsValue -> option string)
    (platformData : JsValue) (music : list Insight) :
  spotify_part greater_than toFixed platformData = Some music ->
  (length music <= 1)%nat
  /\ Forall (fun i => title i <> title connect_insight /\ title i <> title default_insight) music.
Proof.
  unfold spotify_part. intros H.
  repeat match type of H with
         | (if ?b then _ else _) = _ => destruct b
         | match ?o with Some _ => _ | None => _ end = _ => destruct o; [|discriminate]
         end;
    inversion H; subst; (split; [cbn; lia|]); repeat constructor; discriminate.
Qed.

Lemma youtube_part_small (less_than : JsValue -> Z -> bool) (platformData : JsValue) :
  (length (youtube_part less_than platformData) <= 1)%nat
  /\ Forall (fun i => title i <> title connect_insight /\ title i <> title default_insight)
            (youtube_part less_than platformData).
Proof.
  unfold youtube_part.
  destruct (truthy _); [destruct (less_than _ 5)|];
    (split; [cbn; lia|]); repeat constructor; discriminate.
Qed.

Lemma presence_part_small (greater_than : JsValue -> Z -> bool) (connectedPlatforms : JsValue) :
  (length (presence_part greater_than connectedPlatforms) <= 1)%nat
  /\ Forall (fun i => title i <> title connect_insight /\ title i <> title default_insight)
            (presence_part greater_than connectedPlatforms).
Proof.
  unfold presence_part.
  destruct (greater_than _ 1); (split; [cbn; lia|]); repeat constructor; discriminate.
Qed.

(** X26. Whatever the engine answers to the comparisons and the formats,
    a list of insights that is returned has at least one insight and at
    most four, and the cut to four drops nothing: the four blocks push at
    most one insight each. The invitation to connect a platform is the
    whole list exactly when no platform is connected, and the default
    insight is never mixed with another one. *)
Theorem insights_are_one_to_four
    (less_than greater_than : JsValue -> Z -> bool) (toLocaleString : JsValue -> string)
    (toFixed : JsValue -> option string) (analyticsData : JsValue) (insights : list Insight) :
  generateAIInsights less_than greater_than toLocaleString toFixed analyticsData
  = Returned insights ->
  (1 <= length insights <= 4)%nat
  /\ (insights = [connect_insight]
      \/ insights = [default_insight]
      \/ (exists music,
            spotify_part greater_than toFixed (get_prop analyticsData "platformData")
            = Some music
            /\ insights
               = (audience_part less_than toLocaleString (get_prop analyticsData "overview")
                    ++ music
                    ++ youtube_part less_than (get_prop analyticsData "platformData")
                    ++ presence_part greater_than
                         (get_prop analyticsData "connectedPlatforms"))%list
            /\ Forall (fun i => title i <> title connect_insight
                                /\ title i <> title default_insight) insights))
  /\ (insights = [connect_insight]
      <-> negb (truthy (get_prop analyticsData "connectedPlatforms"))
          || is_zero (js_length (get_prop analyticsData "connectedPlatforms")) = true).
Proof.
  intros H.
  assert (Hbody :
    (if negb (truthy (get_prop analyticsData "connectedPlatforms"))
        || is_zero (js_length (get_prop analyticsData "connectedPlatforms"))
     then Returned [connect_insight]
     else match spotify_part greater_than toFixed (get_prop analyticsData "platformData") with
          | None => Thrown {| message := "avgPopularity.toFixed is not a function" |}
          | Some music =>
              let pushed :=
                (audience_part less_than toLocaleString (get_prop analyticsData "overview")
                   ++ music
                   ++ youtube_part less_than (get_prop analyticsData "platformData")
                   ++ presence_part greater_than
                        (get_prop analyticsData "connectedPlatforms"))%list in
              Returned (firstn 4 (match pushed with
                                  | [] => [default_insight]
                                  | _ :: _ => pushed
                                  end))
          end) = Returned insights).
  { destruct analyticsData; try discriminate H; exact H. }
  clear H.
  destruct (negb _ || _) eqn:C.
  - inversion Hbody; subst. split; [cbn; lia|]. split; [now left|]. split; reflexivity.
  - destruct (spotify_part greater_than toFixed _) as [music|] eqn:S; [|discriminate].
    destruct (audience_part_small less_than toLocaleString (get_prop analyticsData "overview")) as [A1 A2].
    destruct (spotify_part_small greater_than toFixed _ music S) as [B1 B2].
    destruct (youtube_part_small less_than (get_prop analyticsData "platformData")) as [C1 C2].
    destruct (presence_part_small greater_than (get_prop analyticsData "connectedPlatforms")) as [D1 D2].
    cbv zeta in Hbody.
    remember (audience_part less_than toLocaleString (get_prop analyticsData "overview")
                ++ music
                ++ youtube_part less_than (get_prop analyticsData "platformData")
                ++ presence_part greater_than
                     (get_prop analyticsData "connectedPlatforms"))%list as l eqn:El in *.
    assert (L : (length l <= 4)%nat).
    { rewrite El, !length_app. lia. }
    assert (F : Forall (fun i => title i <> title connect_insight
                                 /\ title i <> title default_insight) l).
    { rewrite El. repeat (apply Forall_app; split); assumption. }
    destruct l as [|i l'].
    + inversion Hbody; subst insights. split; [cbn; lia|]. split; [right; now left|].
      split; discriminate.
    + rewrite firstn_all2 in Hbody by exact L.
      inversion Hbody; subst insights.
      split; [cbn [length] in *; lia|]. split.
      * right. right. exists music. split; [reflexivity|]. split; [exact El | exact F].
      * split; [|discriminate].
        intros E. inversion E; subst. inversion F as [|? ? [N _] _]. now contradiction N.
Qed.

Lemma insights_are_one_to_four_witness :
  let insights := [followers_insight Demo.less_than Demo.toLocaleString (JNumber 500 0);
                   presence_insight (JNumber 2 0)] in
  (1 <= length insights <= 4)%nat
  /\ (insights = [connect_insight]
      \/ insights = [default_insight]
      \/ (exists music,
            spotify_part Demo.greater_than Demo.toFixed (get_prop Demo.analytics "platformData")
            = Some music
            /\ insights
               = (audience_part Demo.less_than Demo.toLocaleString
                    (get_prop Demo.analytics "overview")
                    ++ music
                    ++ youtube_part Demo.less_than (get_prop Demo.analytics "platformData")
                    ++ presence_part Demo.greater_than
                         (get_prop Demo.analytics "connectedPlatforms"))%list
            /\ Forall (fun i => title i <> title connect_insight
                                /\ title i <> title default_insight) insights))
  /\ (insights = [connect_insight]
      <-> negb (truthy (get_prop Demo.analytics "connectedPlatforms"))
          || is_zero (js_length (get_prop Demo.analytics "connectedPlatforms")) = true).
Proof.
  apply (insights_are_one_to_four Demo.less_than Demo.greater_than Demo.toLocaleString
           Demo.toFixed Demo.analytics
           [followers_insight Demo.less_than Demo.toLocaleString (JNumber 500 0);
            presence_insight (JNumber 2 0)]).
  reflexivity.
Defined.

(** ** The two layers of CORS *)

Lemma empty_origin_not_allowed (NODE_ENV : option string) :
  includes (allowedOrigins NODE_ENV) (Some EmptyString) = false.
Proof. unfold allowedOrigins. destruct (production NODE_ENV); reflexivity. Qed.

Lemma allow_origin_header (NODE_ENV : option string) (method : string) (origin : option string) :
  assoc "Access-Control-Allow-Origin" (fst (cors_fallback NODE_ENV method origin))
  = if includes (allowedOrigins NODE_ENV) origin then origin else None.
Proof.
  unfold cors_fallback. cbn [fst]. destruct origin as [o|]; [|reflexivity].
  destruct (includes _ _); reflexivity.
Qed.

Lemma allow_origin_header_cjs (NODE_ENV : option string) (method : string)
    (origin : option string) :
  assoc "Access-Control-Allow-Origin" (fst (cors_fallback_cjs NODE_ENV method origin))
  = if includes (allowedOrigins NODE_ENV) origin then origin else None.
Proof.
  unfold cors_fallback_cjs. cbn [fst]. destruct origin as [[|c o]|]; cbn [given].
  - now rewrite empty_origin_not_allowed.
  - destruct (includes _ _); reflexivity.
  - reflexivity.
Qed.

(** X27. The fallback middleware of the two variants of the server gives
    the same [Access-Control-Allow-Origin], the origin of the request when
    it is in the list of the mode and no header otherwise (never a
    wildcard), and ends the same way. They differ on the other headers:
    [backend-server.js] allows credentials on every answer, and
    [backend-server.cjs] only on the answers to an allowed origin. *)
Theorem cors_fallbacks_compared (NODE_ENV : option string) (method : string)
    (origin : option string) :
  assoc "Access-Control-Allow-Origin" (fst (cors_fallback NODE_ENV method origin))
  = assoc "Access-Control-Allow-Origin" (fst (cors_fallback_cjs NODE_ENV method origin))
  /\ assoc "Access-Control-Allow-Origin" (fst (cors_fallback NODE_ENV method origin))
     = (if includes (allowedOrigins NODE_ENV) origin then origin else None)
  /\ snd (cors_fallback NODE_ENV method origin) = snd (cors_fallback_cjs NODE_ENV method origin)
  /\ assoc "Access-Control-Allow-Credentials" (fst (cors_fallback NODE_ENV method origin))
     = Some "true"
  /\ assoc "Access-Control-Allow-Credentials" (fst (cors_fallback_cjs NODE_ENV method origin))
     = (if includes (allowedOrigins NODE_ENV) origin then Some "true" else None).
Proof.
  rewrite allow_origin_header, allow_origin_header_cjs.
  split; [reflexivity|]. split; [reflexivity|]. split; [reflexivity|]. split.
  - unfold cors_fallback. cbn [fst]. destruct origin as [o|]; [|reflexivity].
    destruct (includes _ _); reflexivity.
  - unfold cors_fallback_cjs. cbn [fst]. destruct origin as [[|c o]|]; cbn [given].
    + now rewrite empty_origin_not_allowed.
    + destruct (includes _ _); reflexivity.
    + reflexivity.
Qed.

(** X28. The two layers of [backend-server.js] decide alike: for a
    request that names an origin, the first layer lets the request
    through exactly when the fallback answers with that origin in
    [Access-Control-Allow-Origin]. *)
Theorem cors_layers_agree (NODE_ENV : option string) (method : string)
    (origin : option string) (o : string) :
  given origin = Some o ->
  cors_origin NODE_ENV origin = None
  <-> assoc "Access-Control-Allow-Origin" (fst (cors_fallback NODE_ENV method origin)) = Some o.
Proof.
  intros G. rewrite allow_origin_header. unfold cors_origin. rewrite G.
  assert (E : origin = Some o).
  { destruct origin as [[|c s]|]; cbn in G; congruence. }
  destruct (includes _ _); split; intros H; congruence.
Qed.

Lemma cors_layers_agree_witness :
  cors_origin (Some "production") (Some "https://app.lucysounds.com") = None
  <-> assoc "Access-Control-Allow-Origin"
        (fst (cors_fallback (Some "production") "GET" (Some "https://app.lucysounds.com")))
      = Some "https://app.lucysounds.com".
Proof.
  apply (cors_layers_agree (Some "production") "GET" (Some "https://app.lucysounds.com")
           "https://app.lucysounds.com").
  reflexivity.
Defined.

(** ** Connecting again *)

Lemma has_key_same_key (row r : TokenRow) (u : string) :
  user_id row = JString u ->
  same_key row r = has_key u (platform_id row) r.
Proof. intros E. unfold same_key. now rewrite E. Qed.

Lemma has_key_own (row : TokenRow) (u : string) :
  user_id row = JString u -> has_key u (platform_id row) row = true.
Proof.
  intros E. unfold has_key. rewrite E. cbn [strict_eq_string].
  now rewrite !String.eqb_refl.
Qed.

(** The rows of its key after an upsert are copies of the row, as many as
    there were rows of the key, and one if there was none; the other rows
    are as they were. *)
Lemma upserted_rows (row : TokenRow) (rows : list TokenRow) (u : string) :
  user_id row = JString u ->
  filter (has_key u (platform_id row)) (upserted row rows)
  = repeat row (Nat.max 1 (length (filter (has_key u (platform_id row)) rows)))
  /\ filter (fun r => negb (has_key u (platform_id row) r)) (upserted row rows)
     = filter (fun r => negb (has_key u (platform_id row) r)) rows.
Proof.
  intros E. pose proof (has_key_own row u E) as Own.
  assert (K : forall r, same_key row r = has_key u (platform_id row) r)
    by (intros r; now apply has_key_same_key).
  unfold upserted.
  assert (X : existsb (same_key row) rows = true
              <-> filter (has_key u (platform_id row)) rows <> []).
  { induction rows as [|x rows IH]; [cbn; split; [discriminate | congruence]|].
    cbn [existsb filter]. rewrite K. destruct (has_key u (platform_id row) x); cbn [orb].
    - split; [discriminate | reflexivity].
    - exact IH. }
  destruct (existsb (same_key row) rows) eqn:Ex.
  - assert (N : filter (has_key u (platform_id row)) rows <> []) by now apply X.
    clear X Ex. split.
    + induction rows as [|x rows IH]; [now contradiction N|].
      cbn [map filter] in *. rewrite K.
      destruct (has_key u (platform_id row) x) eqn:Hx.
      * rewrite Own. cbn [length].
        destruct (filter (has_key u (platform_id row)) rows) as [|y ys] eqn:F.
        -- cbn. f_equal.
           clear IH N. induction rows as [|z rows IH]; [reflexivity|].
           cbn [map filter] in *. rewrite K.
           destruct (has_key u (platform_id row) z) eqn:Hz; [discriminate|].
           rewrite Hz. now apply IH.
        -- rewrite IH by discriminate. reflexivity.
      * rewrite Hx. now apply IH.
    + clear N. induction rows as [|x rows IH]; [reflexivity|].
      cbn [map filter]. rewrite K.
      destruct (has_key u (platform_id row) x) eqn:Hx.
      * rewrite Own. cbn [negb]. exact IH.
      * rewrite Hx. cbn [negb]. now rewrite IH.
  - assert (N : filter (has_key u (platform_id row)) rows = []).
    { destruct (filter (has_key u (platform_id row)) rows) eqn:F; [reflexivity|].
      assert (false = true) by (apply X; discriminate). discriminate. }
    rewrite !filter_app, N. cbn [filter]. rewrite Own. cbn [negb length Nat.max repeat].
    split; [reflexivity | now rewrite app_nil_r].
Qed.

(** X29. Connecting again replaces the token: after a callback that
    succeeds for a user and a platform, every row of that user and
    platform is the row of this callback (one row if there was none, and
    as many as before otherwise), so that no token of an earlier
    connection is left to be served; the rows of the other users and
    platforms are as they were. *)
Theorem reconnect_replaces_the_token
    (platform : string) (q : Query) (env : Env) (w : World)
    (code state : string) (stateData : JsValue) (config : ConfigRow)
    (r : Request) (data : JsValue) (userId : string) (expiresAt : option Z) :
  given (q_error q) = None ->
  given (q_code q) = Some code ->
  q_state q = Some state ->
  decode_state state = Some stateData ->
  get_prop stateData "platform" = JString platform ->
  get_prop stateData "userId" = JString userId ->
  fault env SelectConfigs = Healthy ->
  single (filter (fun r => String.eqb platform (cfg_platform_id r) && cfg_enabled r)
                 (platform_oauth_configs w)) = Some config ->
  exchange_code platform code config = axios r ->
  provider env r = HttpOk data ->
  data <> JNull -> data <> JUndefined ->
  fst (expiry_of (get_prop data "expires_in") env w) = Returned expiresAt ->
  fault env UpsertToken = Healthy ->
  filter (has_key userId platform) (oauth_tokens (snd (oauth_callback platform q env w)))
  = repeat (token_row platform (JString userId) data expiresAt (now env))
           (Nat.max 1 (length (filter (has_key userId platform) (oauth_tokens w))))
  /\ filter (fun t => negb (has_key userId platform t))
            (oauth_tokens (snd (oauth_callback platform q env w)))
     = filter (fun t => negb (has_key userId platform t)) (oauth_tokens w).
Proof.
  intros H1 H2 H3 H4 H5 Hu H6 H7 H8 H9 H10 H11 H12 H13.
  assert (Ht : template (get_prop stateData "userId") <> None)
    by (rewrite Hu; discriminate).
  rewrite (callback_stores platform q env w code state stateData config r data expiresAt
             H1 H2 H3 H4 H5 Ht H6 H7 H8 H9 H10 H11 H12 H13).
  cbn [snd set_tokens oauth_tokens]. rewrite Hu.
  apply (upserted_rows (token_row platform (JString userId) data expiresAt (now env))
           (oauth_tokens w) userId).
  reflexivity.
Qed.

Lemma reconnect_replaces_the_token_witness :
  filter (has_key "user-1" "spotify")
    (oauth_tokens (snd (oauth_callback "spotify" (Sample.query "spotify") Sample.env
                          Demo.connected)))
  = repeat (token_row "spotify" (JString "user-1") Sample.response None (now Sample.env))
           (Nat.max 1 (length (filter (has_key "user-1" "spotify")
                                 (oauth_tokens Demo.connected))))
  /\ filter (fun t => negb (has_key "user-1" "spotify" t))
            (oauth_tokens (snd (oauth_callback "spotify" (Sample.query "spotify") Sample.env
                                  Demo.connected)))
     = filter (fun t => negb (has_key "user-1" "spotify" t)) (oauth_tokens Demo.connected).
Proof.
  apply (reconnect_replaces_the_token "spotify" (Sample.query "spotify") Sample.env
           Demo.connected "code-1" (encode_state "user-1" "spotify")
           (Demo.state_data "spotify") Sample.config
           (spotify_request "code-1" Sample.config) Sample.response "user-1" None).
  - reflexivity.
  - reflexivity.
  - reflexivity.
  - vm_compute. reflexivity.
  - reflexivity.
  - reflexivity.
  - reflexivity.
  - reflexivity.
  - reflexivity.
  - reflexivity.
  - discriminate.
  - discriminate.
  - reflexivity.
  - reflexivity.
Defined.
